(** * File organizer: organize / undo / history

    A shallow embedding of [file_organizer_enhanced.py] and the properties
    of its move-and-undo bookkeeping.

    The file system is a finite map from canonical absolute path strings to
    nodes, which are directories and regular files: there are no symbolic
    links. The Python functions of the source become computations in a
    small state-and-exception monad over that map, so that an exception
    leaving a function is a value one can observe. A folder argument is an
    absolute path in normal form, which [os.path.abspath] returns as it
    is.

    The first part holds the definitions: the library calls the source
    makes ([str], [os.path], [os], [shutil], [datetime]), the functions of
    the source, and the notions and worlds the statements use. The second
    part holds the facts on these definitions. The third part holds the
    properties of the move-and-undo bookkeeping, each with a concrete
    folder on which it applies. The parts that follow it hold further
    properties, numbered X1 to X22, of every function of the source: the
    guards of [scan_and_organize] and [undo_last], the listing of
    [list_history], the names of history files, the category of a file
    name, [setup_logging] and the commands of [main], what a pass and a
    dry run do to the folder, and what an undo leaves behind. *)

From Stdlib Require Import Ascii String.
From stdpp Require Import gmap strings list sorting.

Set Default Proof Using "Type".

(** ** Python [str] methods used by the source *)

Module Str.

Definition slash : ascii := "/"%char.
Definition dot : ascii := "."%char.

(** [s.startswith(p)] *)
Definition startswith (s p : string) : bool := String.prefix p s.

(** [c in s] for a single character *)
Fixpoint has_char (c : ascii) (s : string) : bool :=
  match s with
  | EmptyString => false
  | String a r => if decide (a = c) then true else has_char c r
  end.

(** [s.endswith(c)] for a single character *)
Fixpoint ends_with (c : ascii) (s : string) : bool :=
  match s with
  | EmptyString => false
  | String a EmptyString => bool_decide (a = c)
  | String _ r => ends_with c r
  end.

(** [s == c * len(s)] *)
Fixpoint all_char (c : ascii) (s : string) : bool :=
  match s with
  | EmptyString => true
  | String a r => if decide (a = c) then all_char c r else false
  end.

(** [s.lstrip(c)], [s.rstrip(c)] and [s.strip(c)] for a single character *)
Fixpoint lstrip (c : ascii) (s : string) : string :=
  match s with
  | EmptyString => EmptyString
  | String a r => if decide (a = c) then lstrip c r else s
  end.

Fixpoint rstrip (c : ascii) (s : string) : string :=
  match s with
  | EmptyString => EmptyString
  | String a r =>
      match rstrip c r with
      | EmptyString => if decide (a = c) then EmptyString else String a EmptyString
      | r' => String a r'
      end
  end.

Definition strip (c : ascii) (s : string) : string := rstrip c (lstrip c s).

(** [s.lower()], on the ASCII letters: file names are modelled as byte
    strings, and only [A]..[Z] have a lower-case form. *)
Definition lower_char (c : ascii) : ascii :=
  let n := nat_of_ascii c in
  if (65 <=? n)%nat && (n <=? 90)%nat then ascii_of_nat (n + 32) else c.

Fixpoint lower (s : string) : string :=
  match s with
  | EmptyString => EmptyString
  | String a r => String (lower_char a) (lower r)
  end.

(** [s.replace(old, new)] for a non-empty [old]: the occurrences of [old]
    are found left to right and do not overlap. [skip] counts the
    characters of an occurrence that are still to be dropped. *)
Fixpoint replace_from (old new : string) (skip : nat) (s : string) : string :=
  match s with
  | EmptyString => EmptyString
  | String a r =>
      match skip with
      | S k => replace_from old new k r
      | O =>
          if String.prefix old s
          then new +:+ replace_from old new (String.length old - 1) r
          else String a (replace_from old new 0 r)
      end
  end.

Definition replace (s old new : string) : string := replace_from old new 0 s.

(** [old in s] *)
Fixpoint contains (old s : string) : bool :=
  String.prefix old s ||
  match s with
  | EmptyString => false
  | String _ r => contains old r
  end.

(** removes a known prefix: [s[len(p):]] when [s.startswith(p)] *)
Fixpoint strip_prefix (p s : string) : option string :=
  match p, s with
  | EmptyString, _ => Some s
  | String a p', String b s' => if decide (a = b) then strip_prefix p' s' else None
  | String _ _, EmptyString => None
  end.

(** [sorted(names)] on strings: ascending code-point order, which on names
    in well-formed UTF-8 is the order of their bytes. Python's sort is a
    stable merge sort; on a total order every sort returns the same
    list. *)
Definition sorted (l : list string) : list string := merge_sort String.le l.

(** [s.isascii()]: every byte is below 128. On such names the bytes are
    the characters, and [lower] above is [str.lower]. *)
Fixpoint is_ascii (s : string) : bool :=
  match s with
  | EmptyString => true
  | String a r => (nat_of_ascii a <? 128)%nat && is_ascii r
  end.

(** The bytes of [s] are well-formed UTF-8: the names for which
    [s.encode("utf-8")] does not raise. A byte that is not part of a
    well-formed sequence is a lone surrogate in the [str] that Python makes
    of the name, which the codec refuses. [need] is the number of bytes
    still to come in the current sequence, and [lo], [hi] bound the next
    one. *)
Fixpoint utf8_from (need lo hi : nat) (s : string) : bool :=
  match s with
  | EmptyString => bool_decide (need = 0)
  | String a r =>
      let b := nat_of_ascii a in
      match need with
      | O =>
          if (b <? 128)%nat then utf8_from 0 0 0 r
          else if (194 <=? b)%nat && (b <=? 223)%nat then utf8_from 1 128 191 r
          else if (b =? 224)%nat then utf8_from 2 160 191 r
          else if (b =? 237)%nat then utf8_from 2 128 159 r
          else if (225 <=? b)%nat && (b <=? 239)%nat then utf8_from 2 128 191 r
          else if (b =? 240)%nat then utf8_from 3 144 191 r
          else if (241 <=? b)%nat && (b <=? 243)%nat then utf8_from 3 128 191 r
          else if (b =? 244)%nat then utf8_from 3 128 143 r
          else false
      | S k => if (lo <=? b)%nat && (b <=? hi)%nat then utf8_from k 128 191 r else false
      end
  end.

Definition utf8_valid (s : string) : bool := utf8_from 0 0 0 s.

End Str.

(** ** [os.path] on POSIX *)

Module OsPath.

Definition sep : string := "/".

(** [os.path.join(a, b)] *)
Definition join (a b : string) : string :=
  if Str.startswith b sep then b
  else if bool_decide (a = "") || Str.ends_with Str.slash a then a +:+ b
  else a +:+ sep +:+ b.

(** [p[:i], p[i:]] for [i = p.rfind("/") + 1] *)
Fixpoint rsplit_sep (p : string) : string * string :=
  match p with
  | EmptyString => (EmptyString, EmptyString)
  | String a r =>
      match rsplit_sep r with
      | (EmptyString, t) =>
          if decide (a = Str.slash) then (String a EmptyString, t)
          else (EmptyString, String a t)
      | (h, t) => (String a h, t)
      end
  end.

(** [os.path.split(p)] *)
Definition split (p : string) : string * string :=
  let '(head, tail) := rsplit_sep p in
  if negb (bool_decide (head = "")) && negb (Str.all_char Str.slash head)
  then (Str.rstrip Str.slash head, tail)
  else (head, tail).

Definition dirname (p : string) : string := fst (split p).
Definition basename (p : string) : string := snd (rsplit_sep p).

(** the suffix of [s] that starts at its last dot, empty without a dot *)
Fixpoint last_dot_suffix (s : string) : string :=
  match s with
  | EmptyString => EmptyString
  | String a r =>
      match last_dot_suffix r with
      | EmptyString => if decide (a = Str.dot) then s else EmptyString
      | e => e
      end
  end.

(** [os.path.splitext(p)]: the extension starts at the last dot of the
    last component; leading dots of that component do not start one. *)
Definition splitext (p : string) : string * string :=
  let ext := last_dot_suffix (Str.lstrip Str.dot (basename p)) in
  (String.substring 0 (String.length p - String.length ext) p, ext).

(** [os.path.isabs(p)] *)
Definition isabs (p : string) : bool := Str.startswith p sep.

(** [p.split("/")] *)
Fixpoint split_sep (p : string) : list string :=
  match p with
  | EmptyString => [EmptyString]
  | String a r =>
      match split_sep r with
      | c :: cs => if decide (a = Str.slash) then EmptyString :: c :: cs else String a c :: cs
      | [] => [String a EmptyString]
      end
  end.

(** ["/".join(comps)] *)
Fixpoint join_sep (comps : list string) : string :=
  match comps with
  | [] => EmptyString
  | [c] => c
  | c :: cs => c +:+ sep +:+ join_sep cs
  end.

(** the body of the loop of [os.path.normpath]; [new_comps] is the list
    built so far *)
Definition norm_step (initial_slashes : nat) (new_comps : list string) (comp : string)
    : list string :=
  if bool_decide (comp = "") || bool_decide (comp = ".") then new_comps
  else if negb (bool_decide (comp = ".."))
          || (bool_decide (initial_slashes = 0) && bool_decide (new_comps = []))
          || bool_decide (last new_comps = Some "..")
  then new_comps ++ [comp]
  else removelast new_comps.

(** [os.path.normpath(p)] *)
Definition normpath (p : string) : string :=
  if bool_decide (p = "") then "."
  else
    let initial_slashes :=
      if Str.startswith p sep then
        if Str.startswith p "//" && negb (Str.startswith p "///") then 2 else 1
      else 0 in
    let comps := foldl (norm_step initial_slashes) [] (split_sep p) in
    let path := join_sep comps in
    let path :=
      match initial_slashes with
      | 0 => path
      | 1 => sep +:+ path
      | _ => "//" +:+ path
      end in
    if bool_decide (path = "") then "." else path.

End OsPath.

(** ** The world: file system, log, standard output *)

(** The file system holds directories and regular files on one device,
    under the path strings the program builds; there are no symbolic
    links and no permissions, so that a call fails only for a reason the
    tree gives: a missing entry, a missing parent, an entry of the other
    kind. File names are byte strings. *)

(** An entry of a history file: the dict [{"src": ..., "dst": ...}]. *)
Record Action := mkAction { src : string; dst : string }.

(** the paths of the actions can be written in UTF-8 *)
Definition encodable (actions : list Action) : bool :=
  forallb (fun act => Str.utf8_valid (src act) && Str.utf8_valid (dst act)) actions.

(** The contents of a regular file. A history file holds the JSON text of
    a list of actions, kept here as the list [json.load] returns for it;
    [Raw] is text that is not a JSON document, on which [json.load]
    raises. [Partial] is the beginning of the JSON text of a list of
    actions, as [json.dump] leaves it when the encoding of a path stops the
    writing; it is not a JSON document either. A JSON document of another
    shape is not a content here. *)
Inductive content :=
  | Raw (text : string)
  | Doc (actions : list Action)
  | Partial (actions : list Action).

Inductive node :=
  | Dir
  | File (c : content).

Inductive exn :=
  | FileExistsError
  | FileNotFoundError
  | NotADirectoryError
  | IsADirectoryError
  | DirectoryNotEmpty
  | InvalidArgument
  | ShutilError
  | JSONDecodeError
  | UnicodeEncodeError.

(** The calls to [logging] of the source, one constructor per format
    string, with the arguments of the call. *)
Inductive message :=
  | FolderDoesNotExist (folder : string)
  | Move (s d : string)
  | DryRunNoChanges
  | FailedToMove (s : string) (e : exn)
  | OrganizationComplete (history_file : string)
  | NoHistoryFound
  | NoHistoryFilesToUndo
  | Restored (d s : string)
  | FailedToRestore (d : string) (e : exn)
  | UndoComplete (undone_file : string)
  | LogFile (log_file : string).

Inductive level := INFO | ERROR.

Record world := mkWorld {
  fs : gmap string node;
  log : list (level * message);
  stdout : list string
}.

#[global] Instance Action_eq_dec : EqDecision Action.
Proof. solve_decision. Defined.
#[global] Instance content_eq_dec : EqDecision content.
Proof. solve_decision. Defined.
#[global] Instance node_eq_dec : EqDecision node.
Proof. solve_decision. Defined.
#[global] Instance exn_eq_dec : EqDecision exn.
Proof. solve_decision. Defined.

(** ** Computations that read and write the world and may raise *)

Inductive outcome (A : Type) :=
  | Returned (a : A)
  | Raised (e : exn).
Arguments Returned {A} a.
Arguments Raised {A} e.

Definition M (A : Type) : Type := world -> outcome A * world.

Definition ret {A} (a : A) : M A := fun w => (Returned a, w).
Definition raise {A} (e : exn) : M A := fun w => (Raised e, w).

Definition bind {A B} (m : M A) (k : A -> M B) : M B :=
  fun w =>
    match m w with
    | (Returned a, w') => k a w'
    | (Raised e, w') => (Raised e, w')
    end.

(** [try: m  except Exception as e: h e] *)
Definition try_except {A} (m : M A) (h : exn -> M A) : M A :=
  fun w =>
    match m w with
    | (Returned a, w') => (Returned a, w')
    | (Raised e, w') => h e w'
    end.

Definition reads {A} (f : world -> A) : M A := fun w => (Returned (f w), w).

Definition set_fs (f : gmap string node -> gmap string node) : M unit :=
  fun w => (Returned tt, mkWorld (f (fs w)) (log w) (stdout w)).

Declare Scope py_scope.
Delimit Scope py_scope with py.
Notation "x <- m ;; k" := (bind m (fun x => k))
  (at level 100, m at next level, right associativity) : py_scope.
Notation "m ;;; k" := (bind m (fun _ => k))
  (at level 100, right associativity) : py_scope.
Open Scope py_scope.

(** [for x in l: body x] *)
Fixpoint for_each {A} (l : list A) (body : A -> M unit) : M unit :=
  match l with
  | [] => ret tt
  | x :: r => body x ;;; for_each r body
  end.

(** [logging.info] and [logging.error]: the record is kept in [log], in
    the order of the calls. What handlers make of a record is not part of
    the state: after [setup_logging] they write a line for each record to
    the log file and to standard output. [print]: the string is kept in
    [stdout], which holds what was given to [print], and nothing else. *)
Definition logging_info (m : message) : M unit :=
  fun w => (Returned tt, mkWorld (fs w) (log w ++ [(INFO, m)]) (stdout w)).
Definition logging_error (m : message) : M unit :=
  fun w => (Returned tt, mkWorld (fs w) (log w ++ [(ERROR, m)]) (stdout w)).
Definition print (s : string) : M unit :=
  fun w => (Returned tt, mkWorld (fs w) (log w) (stdout w ++ [s])).

(** ** The operating system calls of the source, on one POSIX device *)

Module Os.

Definition exists_ (p : string) (w : world) : bool :=
  bool_decide (is_Some (fs w !! p)).
Definition isdir (p : string) (w : world) : bool :=
  bool_decide (fs w !! p = Some Dir).
Definition isfile (p : string) (w : world) : bool :=
  match fs w !! p with Some (File _) => true | _ => false end.

(** an entry name: not empty, no separator *)
Definition valid_name (n : string) : bool :=
  negb (bool_decide (n = "")) && negb (Str.has_char Str.slash n).

(** the name under which the entry at path [p] is listed in [d], if it is
    an entry of [d] *)
Definition child_name (d p : string) : option string :=
  let pre := if bool_decide (d = "") || Str.ends_with Str.slash d then d else d +:+ OsPath.sep in
  match Str.strip_prefix pre p with
  | Some n => if valid_name n then Some n else None
  | None => None
  end.

Definition entries (d : string) (m : gmap string node) : list string :=
  omap (child_name d) (map_to_list m).*1.

(** [os.listdir(d)]; the order of the names is the one of the device *)
Definition listdir (d : string) : M (list string) :=
  fun w =>
    match fs w !! d with
    | Some Dir => (Returned (entries d (fs w)), w)
    | Some (File _) => (Raised NotADirectoryError, w)
    | None => (Raised FileNotFoundError, w)
    end.

(** the exception a call raises when the directory that is to hold [p]
    is missing or is a regular file *)
Definition parent_error (p : string) (w : world) : option exn :=
  match fs w !! OsPath.dirname p with
  | Some Dir => None
  | Some (File _) => Some NotADirectoryError
  | None => Some FileNotFoundError
  end.

(** [os.mkdir(p)] *)
Definition mkdir (p : string) : M unit :=
  fun w =>
    if exists_ p w then (Raised FileExistsError, w)
    else match parent_error p w with
         | Some e => (Raised e, w)
         | None => set_fs (insert p Dir) w
         end.

(** [os.makedirs(name, exist_ok=True)]; the recursion is on the parent
    path, which is shorter than [name], so [length name] calls suffice. *)
Fixpoint makedirs_rec (fuel : nat) (name : string) : M unit :=
  let '(head, tail) := OsPath.split name in
  let '(head, tail) := if bool_decide (tail = "") then OsPath.split head else (head, tail) in
  let make :=
    try_except (mkdir name)
      (fun e => d <- reads (isdir name) ;; if d then ret tt else raise e) in
  present <- reads (exists_ head) ;;
  if negb (bool_decide (head = "")) && negb (bool_decide (tail = "")) && negb present
  then
    match fuel with
    | S n =>
        try_except (makedirs_rec n head)
          (fun e => if decide (e = FileExistsError) then ret tt else raise e)
    | O => ret tt
    end ;;;
    if bool_decide (tail = ".") then ret tt else make
  else make.

Definition makedirs (name : string) : M unit :=
  makedirs_rec (String.length name) name.

(** the key of an entry of the tree at [s] once that tree is at [d] *)
Definition rekey (s d k : string) : string :=
  match Str.strip_prefix s k with
  | Some rest =>
      if bool_decide (rest = "") || Str.startswith rest OsPath.sep then d +:+ rest else k
  | None => k
  end.

Definition move_tree (s d : string) (m : gmap string node) : gmap string node :=
  list_to_map (map (fun kv => (rekey s d (fst kv), snd kv)) (map_to_list (delete d m))).

(** [os.rename(s, d)], which on POSIX is also [os.replace(s, d)] *)
Definition rename (s d : string) : M unit :=
  fun w =>
    match fs w !! s with
    | None => (Raised FileNotFoundError, w)
    | Some n =>
        match parent_error d w with
        | Some e => (Raised e, w)
        | None =>
            if bool_decide (s = d) then (Returned tt, w)
            else
              match n, fs w !! d with
              | File _, Some Dir => (Raised IsADirectoryError, w)
              | File c, _ => set_fs (fun m => <[d := File c]> (delete s m)) w
              | Dir, Some (File _) => (Raised NotADirectoryError, w)
              | Dir, Some Dir =>
                  if bool_decide (entries d (fs w) = [])
                  then set_fs (move_tree s d) w
                  else (Raised DirectoryNotEmpty, w)
              | Dir, None =>
                  if Str.startswith d (s +:+ OsPath.sep) then (Raised InvalidArgument, w)
                  else set_fs (move_tree s d) w
              end
        end
    end.

Definition replace (s d : string) : M unit := rename s d.

(** [with open(p, "w", encoding="utf-8") as f:
       json.dump(actions, f, ensure_ascii=False, indent=2)].
    The file is opened, and so emptied or created, before anything is
    written. With [ensure_ascii=False] the paths are written as they are:
    one that is not well-formed UTF-8 makes the writing raise, and the file
    is left with the text written until then. *)
Definition write_json (p : string) (actions : list Action) : M unit :=
  fun w =>
    match parent_error p w with
    | Some e => (Raised e, w)
    | None =>
        match fs w !! p with
        | Some Dir => (Raised IsADirectoryError, w)
        | _ =>
            if encodable actions then set_fs (insert p (File (Doc actions))) w
            else (Raised UnicodeEncodeError,
                  mkWorld (<[p := File (Partial actions)]> (fs w)) (log w) (stdout w))
        end
    end.

(** [with open(p, "r") as f: json.load(f)] *)
Definition read_json (p : string) : M (list Action) :=
  fun w =>
    match fs w !! p with
    | None => (Raised FileNotFoundError, w)
    | Some Dir => (Raised IsADirectoryError, w)
    | Some (File (Raw _)) => (Raised JSONDecodeError, w)
    | Some (File (Partial _)) => (Raised JSONDecodeError, w)
    | Some (File (Doc l)) => (Returned l, w)
    end.

(** [logging.FileHandler(p)]: opens [p] for appending *)
Definition open_append (p : string) : M unit :=
  fun w =>
    match parent_error p w with
    | Some e => (Raised e, w)
    | None =>
        match fs w !! p with
        | Some Dir => (Raised IsADirectoryError, w)
        | Some (File _) => (Returned tt, w)
        | None => set_fs (insert p (File (Raw ""))) w
        end
    end.

End Os.

(** ** [shutil.move] *)

Module Shutil.

(** [shutil._basename] *)
Definition basename_ (p : string) : string :=
  OsPath.basename (Str.rstrip Str.slash p).

(** [shutil.move(s, d)]. When [os.rename] fails the library falls back
    to copying. On one device the copy of a regular file fails as the
    rename did; the copy of a directory tree creates the missing parents
    of [d], refuses an existing [d] and refuses to move a directory into
    itself. *)
Definition fallback (s d : string) (e : exn) : M unit :=
  sdir <- reads (Os.isdir s) ;;
  dfile <- reads (Os.isfile d) ;;
  dparent <- reads (Os.exists_ (OsPath.dirname d)) ;;
  if sdir then
    if Str.startswith d (s +:+ OsPath.sep) then raise ShutilError
    else if dfile then raise FileExistsError
    else if negb dparent then Os.makedirs (OsPath.dirname d) ;;; Os.rename s d
    else raise e
  else raise e.

Definition move (s d : string) : M unit :=
  ddir <- reads (Os.isdir d) ;;
  if ddir then
    if bool_decide (s = d) then Os.rename s d
    else
      let real_dst := OsPath.join d (basename_ s) in
      taken <- reads (Os.exists_ real_dst) ;;
      if taken then raise ShutilError
      else try_except (Os.rename s real_dst) (fallback s real_dst)
  else try_except (Os.rename s d) (fallback s d).

End Shutil.

(** ** [datetime.utcnow().strftime("%Y%m%dT%H%M%SZ")] *)

Record datetime := mkDatetime {
  year : nat; month : nat; day : nat;
  hour : nat; minute : nat; second : nat;
  microsecond : nat
}.

Definition digit (d : nat) : ascii := ascii_of_nat (48 + d).

(** the last [width] decimal digits of [n], with leading zeros *)
Fixpoint zero_padded (width n : nat) : string :=
  match width with
  | O => EmptyString
  | S k => zero_padded k (n / 10) +:+ String (digit (n mod 10)) EmptyString
  end.

(** The format has no field below the second. Years are those of the
    clock, which have four digits. *)
Definition strftime (t : datetime) : string :=
  zero_padded 4 (year t) +:+ zero_padded 2 (month t) +:+ zero_padded 2 (day t) +:+ "T"
  +:+ zero_padded 2 (hour t) +:+ zero_padded 2 (minute t) +:+ zero_padded 2 (second t) +:+ "Z".

(** ** The program *)

Definition LOGS_DIR : string := ".aioffice_logs".

(** [os.path.abspath] on a path that is absolute and in normal form
    ([normalized], below), which it returns as it is. The file system holds
    entries under such paths only; a relative path, or one with a closing
    separator, a [.] or a [..], names its entry under another string, its
    normal form, and is not a folder argument here. *)
Definition abspath (p : string) : string := p.

(** [def setup_logging(base_folder)] *)
Definition setup_logging (base_folder : string) : M string :=
  Os.makedirs (OsPath.join base_folder LOGS_DIR) ;;;
  let log_file := OsPath.join (OsPath.join base_folder LOGS_DIR) "organizer.log" in
  Os.open_append log_file ;;;
  ret log_file.

(** [os.path.splitext(fname)[1].lower().strip('.')], and ['no_ext'] when
    that is empty *)
Definition category (fname : string) : string :=
  let ext := Str.strip Str.dot (Str.lower (snd (OsPath.splitext fname))) in
  if bool_decide (ext = "") then "no_ext" else ext.

(** the body of the scanning loop, lines 45 to 53; [actions] is the list
    built so far *)
Definition scan_step (folder : string) (actions : list Action) (fname : string)
    : M (list Action) :=
  let fpath := OsPath.join folder fname in
  isf <- reads (Os.isfile fpath) ;;
  if isf && negb (Str.startswith fpath (OsPath.join folder LOGS_DIR)) then
    let ext := category fname in
    let target_dir := OsPath.join folder ext in
    Os.makedirs target_dir ;;;
    let dest := OsPath.join target_dir fname in
    ret (actions ++ [mkAction fpath dest])
  else ret actions.

Fixpoint scan_loop (folder : string) (names : list string) (actions : list Action)
    : M (list Action) :=
  match names with
  | [] => ret actions
  | fname :: rest =>
      actions' <- scan_step folder actions fname ;;
      scan_loop folder rest actions'
  end.

(** the body of the moving loop, lines 64 to 67 *)
Definition move_step (act : Action) : M unit :=
  try_except (Shutil.move (src act) (dst act))
    (fun e => logging_error (FailedToMove (src act) e)).

(** the name and the path of the history file written at time [t] *)
Definition history_name (t : datetime) : string :=
  "history_" +:+ strftime t +:+ ".json".

Definition history_path (folder : string) (t : datetime) : string :=
  OsPath.join (OsPath.join folder LOGS_DIR) (history_name t).

(** [def scan_and_organize(folder, dry_run=False, prefix="")]; [now] is the
    reading of the clock by [datetime.utcnow()]. The result [None] is
    Python's [None]. *)
Definition scan_and_organize (folder : string) (dry_run : bool) (prefix : string)
    (now : datetime) : M (option (list Action)) :=
  let folder := abspath folder in
  isd <- reads (Os.isdir folder) ;;
  if negb isd then
    logging_error (FolderDoesNotExist folder) ;;;
    ret None
  else
    names <- Os.listdir folder ;;
    actions <- scan_loop folder names [] ;;
    for_each actions (fun act => logging_info (Move (src act) (dst act))) ;;;
    if dry_run then
      logging_info DryRunNoChanges ;;;
      ret (Some actions)
    else
      let timestamp := strftime now in
      let history_file :=
        OsPath.join (OsPath.join folder LOGS_DIR) ("history_" +:+ timestamp +:+ ".json") in
      for_each actions move_step ;;;
      Os.write_json history_file actions ;;;
      logging_info (OrganizationComplete history_file) ;;;
      ret (Some actions).

(** [sorted([f for f in names if f.startswith("history_")])] *)
Definition history_files (names : list string) : list string :=
  Str.sorted (filter (fun f => Str.startswith f "history_" = true) names).

(** the body of the restoring loop, lines 89 to 97 *)
Definition undo_step (act : Action) : M unit :=
  try_except
    (present <- reads (Os.exists_ (dst act)) ;;
     if present then
       let src_dir := OsPath.dirname (src act) in
       Os.makedirs src_dir ;;;
       Shutil.move (dst act) (src act) ;;;
       logging_info (Restored (dst act) (src act))
     else ret tt)
    (fun e => logging_error (FailedToRestore (dst act) e)).

(** lines 85 to 101 of [undo_last], which follow the choice of
    [history_file] *)
Definition replay (history_file : string) : M unit :=
  actions <- Os.read_json history_file ;;
  for_each actions undo_step ;;;
  let undone_file := Str.replace history_file "history_" "undone_" in
  Os.replace history_file undone_file ;;;
  logging_info (UndoComplete undone_file).

(** [def undo_last(folder)]; [history_files[-1]] is the last element of a
    list known not to be empty *)
Definition undo_last (folder : string) : M unit :=
  let folder := abspath folder in
  let logs_path := OsPath.join folder LOGS_DIR in
  isd <- reads (Os.isdir logs_path) ;;
  if negb isd then logging_error NoHistoryFound
  else
    names <- Os.listdir logs_path ;;
    match last (history_files names) with
    | None => logging_error NoHistoryFilesToUndo
    | Some last_ => replay (OsPath.join logs_path last_)
    end.

(** [def list_history(folder)] *)
Definition list_history (folder : string) : M unit :=
  let folder := abspath folder in
  let logs_path := OsPath.join folder LOGS_DIR in
  isd <- reads (Os.isdir logs_path) ;;
  if negb isd then logging_info NoHistoryFound
  else
    names <- Os.listdir logs_path ;;
    for_each (Str.sorted names) print.

(** the command line after [parser.parse_args()] *)
Inductive command :=
  | Organize (folder : string) (dry_run : bool) (prefix : string)
  | Undo (folder : string)
  | History (folder : string)
  | NoCommand.

(** the first line of the text [parser.print_help()] writes; the lines
    that follow it, on the description and the commands, are not kept *)
Definition usage : string := "usage: ai-file-organizer [-h] {organize,undo,history} ...".

(** [def main()]. Without a command the help is printed before anything
    is set up: no folder is read, nothing is logged. *)
Definition main (args : command) (now : datetime) : M unit :=
  match args with
  | NoCommand => print usage
  | Organize folder dry_run prefix =>
      let folder := abspath folder in
      log_file <- setup_logging folder ;;
      logging_info (LogFile log_file) ;;;
      scan_and_organize folder dry_run prefix now ;;;
      ret tt
  | Undo folder =>
      let folder := abspath folder in
      log_file <- setup_logging folder ;;
      logging_info (LogFile log_file) ;;;
      undo_last folder
  | History folder =>
      let folder := abspath folder in
      log_file <- setup_logging folder ;;
      logging_info (LogFile log_file) ;;;
      list_history folder
  end.

(** ** Notions used to state the properties *)

(** a path that [os.path.abspath] returns as it is: absolute, with one
    separator at its head, and equal to its normal form *)
Definition normalized (p : string) : bool :=
  OsPath.isabs p && negb (Str.startswith p "//")
  && bool_decide (OsPath.normpath p = p).

(** the world [w] after the log entries [l] were added *)
Definition logged (w : world) (l : list (level * message)) : world :=
  mkWorld (fs w) (log w ++ l) (stdout w).

(** the log entries of the first loop over the plan, lines 55 and 56 *)
Definition move_entries (actions : list Action) : list (level * message) :=
  (fun act => (INFO, Move (src act) (dst act))) <$> actions.

(** a directory path as [abspath] returns it: not empty, and without a
    separator at its end unless it is the root *)
Definition canonical (p : string) : bool :=
  negb (bool_decide (p = ""))
  && (Str.all_char Str.slash p || negb (Str.ends_with Str.slash p)).

(** the end of a pass that is not a dry run, lines 68 to 71 *)
Definition save_history (folder : string) (now : datetime) (actions : list Action)
    : M (option (list Action)) :=
  Os.write_json (history_path folder now) actions ;;;
  logging_info (OrganizationComplete (history_path folder now)) ;;;
  ret (Some actions).

(** the test of line 46 on the entry [fname] *)
Definition eligible (folder : string) (w : world) (fname : string) : bool :=
  Os.isfile (OsPath.join folder fname) w
  && negb (Str.startswith (OsPath.join folder fname) (OsPath.join folder LOGS_DIR)).

(** the action planned for the entry [fname] *)
Definition planned (folder fname : string) : Action :=
  mkAction (OsPath.join folder fname)
           (OsPath.join (OsPath.join folder (category fname)) fname).

(** [w'] is [w] with more directories directly inside [folder] *)
Definition grown_in (folder : string) (w w' : world) : Prop :=
  log w' = log w ∧ stdout w' = stdout w
  ∧ ∀ p, fs w' !! p = fs w !! p
         ∨ (fs w !! p = None ∧ fs w' !! p = Some Dir
            ∧ ∃ c, Os.valid_name c = true ∧ p = OsPath.join folder c).

(** the regular file at [s] taken to the path [d] *)
Definition relocate (s d : string) (m : gmap string node) : gmap string node :=
  match m !! s with
  | Some (File c) => <[d := File c]> (delete s m)
  | _ => m
  end.

(** the files of a plan taken to their destinations, one after the other *)
Definition moved (actions : list Action) (m : gmap string node) : gmap string node :=
  foldl (fun m act => relocate (src act) (dst act) m) m actions.

(** the action that takes back what [act] moved *)
Definition flip (act : Action) : Action := mkAction (dst act) (src act).

(** a plan whose moves do not meet: sources are distinct regular files,
    destinations are distinct, none is a source, and none is a directory *)
Definition good_moves (actions : list Action) (m : gmap string node) : Prop :=
  NoDup (src <$> actions) ∧ NoDup (dst <$> actions)
  ∧ (∀ a b, a ∈ actions → b ∈ actions → src a ≠ dst b)
  ∧ ∀ a, a ∈ actions → (∃ c, m !! src a = Some (File c)) ∧ m !! dst a ≠ Some Dir.

(** the log entries of the restoring loop when every action is restored *)
Definition restored_entries (actions : list Action) : list (level * message) :=
  (fun act => (INFO, Restored (dst act) (src act))) <$> actions.

(** the order of time on the readings of the clock, down to the second:
    the order of the lists year, month, day, hour, minute, second *)
Fixpoint lex_le (l1 l2 : list nat) : Prop :=
  match l1, l2 with
  | [], _ => True
  | _ :: _, [] => False
  | x :: r1, y :: r2 => x < y ∨ (x = y ∧ lex_le r1 r2)
  end.

Definition not_later (t1 t2 : datetime) : Prop :=
  lex_le [year t1; month t1; day t1; hour t1; minute t1; second t1]
         [year t2; month t2; day t2; hour t2; minute t2; second t2].

(** the fields of a reading fit the widths of the format; the year has
    four digits, as [%Y] pads shorter years on some platforms only *)
Definition fits_format (t : datetime) : Prop :=
  10 ^ 3 ≤ year t ∧ year t < 10 ^ 4 ∧ month t < 10 ^ 2 ∧ day t < 10 ^ 2
  ∧ hour t < 10 ^ 2 ∧ minute t < 10 ^ 2 ∧ second t < 10 ^ 2.

(** the first comparison that is not [Eq] *)
Definition lexc (c1 c2 : comparison) : comparison :=
  match c1 with Eq => c2 | _ => c1 end.

(** a file system in which every entry lies in a directory: the parent
    path of an entry is a directory (the root is its own parent) *)
Definition tree_shaped (m : gmap string node) : Prop :=
  ∀ p, is_Some (m !! p) → m !! OsPath.dirname p = Some Dir.

(** the three entries [setup_logging] makes sure of in [base_folder] *)
Definition logging_entries (base_folder : string) : gmap string node :=
  let logs_path := OsPath.join base_folder LOGS_DIR in
  list_to_map [(base_folder, Dir); (logs_path, Dir);
               (OsPath.join logs_path "organizer.log", File (Raw ""))].

(** a computation that neither logs nor prints, whatever its outcome *)
Definition quiet {A} (m : M A) : Prop :=
  ∀ w r w', m w = (r, w') → log w' = log w ∧ stdout w' = stdout w.

(** the log entry an action leaves when it is restored, or when its
    restoration fails *)
Definition restore_entry (act : Action) (m : level * message) : Prop :=
  m = (INFO, Restored (dst act) (src act))
  ∨ ∃ e, m = (ERROR, FailedToRestore (dst act) e).

(** ** Worlds to run the program on *)

Definition world_of (l : list (string * node)) : world :=
  mkWorld (list_to_map l) [] [].

Definition noon : datetime := mkDatetime 2024 5 17 12 0 0 0.

(** the example of the specification: [a.txt], [b.TXT] and [c] in [/d],
    and the log directory as [setup_logging] leaves it *)
Definition w_spec : world :=
  world_of [("/", Dir); ("/d", Dir); ("/d/.aioffice_logs", Dir);
            ("/d/a.txt", File (Raw "A")); ("/d/b.TXT", File (Raw "B"));
            ("/d/c", File (Raw "C"))].

(** a regular file whose name extends the name of the log directory *)
Definition w_bak : world :=
  world_of [("/", Dir); ("/d", Dir); ("/d/.aioffice_logs", Dir);
            ("/d/.aioffice_logs.bak", File (Raw "X")); ("/d/a.txt", File (Raw "A"))].

(** a regular file named like the category of another one *)
Definition w_clash : world :=
  world_of [("/", Dir); ("/d", Dir); ("/d/a.txt", File (Raw "A"));
            ("/d/txt", File (Raw "T"))].

(** a folder whose own name contains the marker of history files *)
Definition w_marked : world :=
  world_of [("/", Dir); ("/history_1", Dir); ("/history_1/a.txt", File (Raw "A"))].


(** a log directory with two active histories, an undone one and the
    log file *)
Definition w_logs : world :=
  world_of [("/", Dir); ("/d", Dir); ("/d/.aioffice_logs", Dir);
            ("/d/.aioffice_logs/organizer.log", File (Raw ""));
            ("/d/.aioffice_logs/history_20240101T000000Z.json", File (Doc []));
            ("/d/.aioffice_logs/history_20240301T000000Z.json", File (Doc []));
            ("/d/.aioffice_logs/undone_20240501T000000Z.json", File (Doc []))].


(** the plan of the example of the specification *)
Definition plan_spec : list Action :=
  [mkAction "/d/c" "/d/no_ext/c"; mkAction "/d/a.txt" "/d/txt/a.txt";
   mkAction "/d/b.TXT" "/d/txt/b.TXT"].



(** a directory [/d] that was never organized, and no [/e] *)
Definition w_fresh : world :=
  world_of [("/", Dir); ("/d", Dir); ("/d/a.txt", File (Raw "A"))].

(** a history whose first entry cannot be restored: the folder of its
    source is a regular file by now *)
Definition w_blocked : world :=
  world_of [("/", Dir); ("/d", Dir); ("/d/.aioffice_logs", Dir);
            ("/d/.aioffice_logs/history_20240517T120000Z.json",
             File (Doc [mkAction "/d/x/a.txt" "/d/txt/a.txt";
                        mkAction "/d/b.txt" "/d/txt/b.txt"]));
            ("/d/x", File (Raw "X"));
            ("/d/txt", Dir); ("/d/txt/a.txt", File (Raw "A"));
            ("/d/txt/b.txt", File (Raw "B"))].





(** a reading of the clock later in the second of [noon] *)
Definition noon_later : datetime := mkDatetime 2024 5 17 12 0 0 750.

(** the order of strings is transitive, as the sorting lemmas need it *)
#[global] Instance string_le_trans : Transitive String.le.
Proof. apply String.le_po. Qed.

(** goes through the members of a list that computes *)
Ltac by_listing H :=
  match type of H with
  | _ ∈ ?l => let l' := eval vm_compute in l in change l with l' in H
  end;
  repeat (apply elem_of_cons in H as [->|H]);
  [..|by apply not_elem_of_nil in H].

(** compares two maps at [p], which is one of the paths [a], [b], [c] at
    which they were written, or another path *)
Ltac entry_lookups :=
  repeat (rewrite lookup_insert_eq || rewrite lookup_insert_ne by congruence);
  repeat match goal with H : _ !! _ = _ |- _ => rewrite H end.

Ltac by_entry_cases p a b c :=
  destruct (decide (p = a)) as [->|?];
  [entry_lookups; done
  |destruct (decide (p = b)) as [->|?];
   [entry_lookups; done
   |destruct (decide (p = c)) as [->|?];
    [entry_lookups; done|entry_lookups; by destruct (_ !! p)]]].

(** * Facts on strings and paths *)

#[local] Arguments String.append !_ _ : simpl nomatch.
#[local] Arguments OsPath.join : simpl never.
#[local] Arguments Str.replace : simpl never.
#[local] Arguments history_name : simpl never.
#[local] Arguments history_path : simpl never.

Section string_facts.

Lemma prefix_nil s : String.prefix "" s = true.
Proof. by destruct s. Qed.

Lemma prefix_cons a p b s :
  String.prefix (String a p) (String b s) = true ↔ a = b ∧ String.prefix p s = true.
Proof.
  simpl. destruct (ascii_dec a b) as [->|Hne].
  - split; [by intros ?|by intros [_ ?]].
  - split; [done|by intros [? _]].
Qed.

Lemma prefix_app p s : String.prefix p (p +:+ s) = true.
Proof.
  induction p as [|a p IH]; simpl; [apply prefix_nil|].
  by destruct (ascii_dec a a).
Qed.

Lemma prefix_inv p s : String.prefix p s = true → ∃ r, s = p +:+ r.
Proof.
  revert s. induction p as [|a p IH]; intros s H; [by exists s|].
  destruct s as [|b s]; [done|].
  apply prefix_cons in H as [-> H]. destruct (IH _ H) as [r ->]. by exists r.
Qed.

Lemma app_assoc_s (a b c : string) : (a +:+ b) +:+ c = a +:+ b +:+ c.
Proof. induction a; simpl; congruence. Qed.

Lemma app_nil_r_s (a : string) : a +:+ "" = a.
Proof. induction a; simpl; congruence. Qed.

Lemma strip_prefix_Some p s r : Str.strip_prefix p s = Some r ↔ s = p +:+ r.
Proof.
  revert s. induction p as [|a p IH]; intros s; simpl.
  - split; [by intros [= ->]|by intros ->].
  - destruct s as [|b s]; [split; intros [=]|].
    case_decide as Hab.
    + subst b. rewrite IH. split; [by intros ->|by intros [= ->]].
    + split; [done|]. intros [= ? ?]. done.
Qed.

Lemma strip_prefix_app p r : Str.strip_prefix p (p +:+ r) = Some r.
Proof. by apply strip_prefix_Some. Qed.

Lemma has_char_app c a b :
  Str.has_char c (a +:+ b) = Str.has_char c a || Str.has_char c b.
Proof. induction a; simpl; [done|]. by case_decide. Qed.

Lemma contains_prefix old s : String.prefix old s = true → Str.contains old s = true.
Proof. intros H. destruct s; simpl in *; by rewrite H. Qed.

Lemma contains_app_r old a s : Str.contains old s = true → Str.contains old (a +:+ s) = true.
Proof.
  intros H. induction a as [|c a IH]; [done|].
  cbn [String.append Str.contains]. rewrite IH. apply orb_true_r.
Qed.

End string_facts.

(** ** [str.replace] leaves no occurrence behind *)

Section replace_facts.
Variables (o n : ascii) (old' new' : string).
Let old := String o old'.
Let new := String n new'.
Hypothesis new_head_fresh : Str.has_char n old = false.
Hypothesis old_head_fresh : Str.has_char o new = false.

(** what the result starts with, the text started with, as long as the
    first character of [new] is not involved *)
Lemma replace_prefix_inv q s :
  Str.has_char n q = false →
  String.prefix q (Str.replace_from old new 0 s) = true → String.prefix q s = true.
Proof using Type.
  revert s. induction q as [|a q IH]; intros s Hq H; [apply prefix_nil|].
  simpl in Hq. case_decide; [done|].
  destruct s as [|c s]; [done|].
  cbn [Str.replace_from] in H.
  destruct (String.prefix old (String c s)).
  - apply prefix_cons in H as [-> _]. done.
  - apply prefix_cons in H as [-> H]. apply prefix_cons. eauto.
Qed.

Lemma contains_skip_new m r :
  Str.has_char o m = false → Str.contains old (m +:+ r) = Str.contains old r.
Proof using Type.
  induction m as [|a m IH]; intros Hm; [done|].
  simpl in Hm. case_decide; [done|].
  cbn [String.append Str.contains]. rewrite IH by done.
  unfold old at 1. simpl. destruct (ascii_dec o a); [congruence|done].
Qed.

Lemma replace_from_clean k s : Str.contains old (Str.replace_from old new k s) = false.
Proof using new_head_fresh old_head_fresh.
  revert k. induction s as [|c s IH]; intros k; [done|].
  cbn [Str.replace_from]. destruct k as [|k]; [|apply IH].
  destruct (String.prefix old (String c s)) eqn:Hp.
  - rewrite contains_skip_new by done. apply IH.
  - cbn [Str.contains]. rewrite IH, orb_false_r.
    destruct (String.prefix old (String c (Str.replace_from old new 0 s))) eqn:Hq; [|done].
    assert (String.prefix old (Str.replace_from old new 0 (String c s)) = true) as Hr.
    { cbn [Str.replace_from]. by rewrite Hp. }
    apply replace_prefix_inv in Hr; [congruence|done].
Qed.

End replace_facts.

Lemma undone_form_clean q : Str.contains "history_" (Str.replace q "history_" "undone_") = false.
Proof. by apply replace_from_clean. Qed.

(** ** Paths *)

Section path_facts.

(** on a path in normal form [abspath] is [os.path.abspath], which returns
    the normal form of an absolute path *)
Lemma abspath_normalized p : normalized p = true → abspath p = OsPath.normpath p.
Proof.
  unfold normalized, abspath. by intros [_ H%bool_decide_eq_true]%andb_true_iff.
Qed.

(** paths that are not in normal form, and their normal forms *)
Example normpath_examples :
  OsPath.normpath "/d/" = "/d" ∧ OsPath.normpath "/d/." = "/d"
  ∧ OsPath.normpath "/d/./e/../f" = "/d/f" ∧ OsPath.normpath "//d" = "//d"
  ∧ OsPath.normpath "///d//e" = "/d/e" ∧ OsPath.normpath "/.." = "/"
  ∧ OsPath.normpath "d/../.." = ".." ∧ OsPath.normpath "" = "."
  ∧ normalized "/d/" = false ∧ normalized "d" = false ∧ normalized "/d/e" = true
  ∧ normalized "/" = true.
Proof. by vm_compute. Qed.

Lemma join_suffix a b : ∃ x, OsPath.join a b = x +:+ b.
Proof.
  unfold OsPath.join. destruct (Str.startswith b OsPath.sep); [by exists ""|].
  destruct (_ || _); [by exists a|].
  exists (a +:+ OsPath.sep). by rewrite app_assoc_s.
Qed.

Lemma join_contains old a b :
  Str.startswith b old = true → Str.contains old (OsPath.join a b) = true.
Proof.
  intros H. destruct (join_suffix a b) as [x ->].
  by apply contains_app_r, contains_prefix.
Qed.

Lemma valid_name_nonempty n : Os.valid_name n = true → n ≠ "".
Proof. unfold Os.valid_name. intros H ->. done. Qed.

Lemma valid_name_no_sep n : Os.valid_name n = true → Str.has_char Str.slash n = false.
Proof.
  unfold Os.valid_name. intros [_ H]%andb_true_iff. by apply negb_true_iff in H.
Qed.

Lemma valid_name_head n : Os.valid_name n = true → Str.startswith n OsPath.sep = false.
Proof.
  intros H. pose proof (valid_name_no_sep n H) as Hs.
  destruct n as [|a n]; [done|]. unfold Str.startswith, OsPath.sep.
  cbn [Str.has_char] in Hs. case_decide as Hd; [done|].
  destruct (String.prefix "/" (String a n)) eqn:E; [|done].
  apply prefix_cons in E as [<- _]. by destruct Hd.
Qed.

(** the path of the entry [n] of [d] is [d], a separator unless [d] ends
    with one, and [n] *)
Lemma join_valid d n :
  Os.valid_name n = true →
  OsPath.join d n
  = (if bool_decide (d = "") || Str.ends_with Str.slash d then d else d +:+ OsPath.sep) +:+ n.
Proof.
  intros H. unfold OsPath.join. rewrite (valid_name_head n H).
  destruct (_ || _); [done|]. by rewrite app_assoc_s.
Qed.

Lemma join_inj_name d n n' :
  Os.valid_name n = true → Os.valid_name n' = true →
  OsPath.join d n = OsPath.join d n' → n = n'.
Proof.
  intros H H'. rewrite !join_valid by done. apply String.app_inj.
Qed.

Lemma child_name_Some d q n :
  Os.child_name d q = Some n ↔ Os.valid_name n = true ∧ q = OsPath.join d n.
Proof.
  unfold Os.child_name. split.
  - destruct (Str.strip_prefix _ q) as [r|] eqn:Hr; [|done].
    destruct (Os.valid_name r) eqn:Hv; [|done]. intros [= ->].
    split; [done|]. apply strip_prefix_Some in Hr. by rewrite join_valid.
  - intros [Hv ->]. rewrite join_valid by done.
    by rewrite strip_prefix_app, Hv.
Qed.

Lemma elem_of_entries d (m : gmap string node) n :
  n ∈ Os.entries d m ↔ Os.valid_name n = true ∧ is_Some (m !! OsPath.join d n).
Proof.
  unfold Os.entries. rewrite list_elem_of_omap. split.
  - intros (q & Hq & Hn). apply child_name_Some in Hn as [Hv ->].
    split; [done|]. apply list_elem_of_fmap in Hq as ([q v] & -> & Hq).
    apply elem_of_map_to_list in Hq. by exists v.
  - intros [Hv [v Hq]]. exists (OsPath.join d n). split.
    + apply list_elem_of_fmap. exists (OsPath.join d n, v). split; [done|].
      by apply elem_of_map_to_list.
    + by apply child_name_Some.
Qed.

Lemma NoDup_entries d (m : gmap string node) : NoDup (Os.entries d m).
Proof.
  unfold Os.entries. pose proof (NoDup_fst_map_to_list m) as H.
  induction H as [|q l Hq _ IH]; [constructor|].
  cbn [omap list_omap]. destruct (Os.child_name d q) as [n|] eqn:Hn; [|done].
  constructor; [|done]. intros Hin. apply list_elem_of_omap in Hin as (q' & Hq' & Hn').
  apply child_name_Some in Hn as [_ ->]. apply child_name_Some in Hn' as [_ ->]. done.
Qed.

(** *** Splitting a path at its last separator *)

Lemma rsplit_sep_name n : Str.has_char Str.slash n = false → OsPath.rsplit_sep n = ("", n).
Proof.
  induction n as [|a n IH]; [done|]. simpl. case_decide as Hd; [done|]. intros Hn.
  by rewrite IH.
Qed.

Lemma rsplit_sep_app a n :
  Str.has_char Str.slash n = false →
  OsPath.rsplit_sep (a +:+ OsPath.sep +:+ n) = (a +:+ OsPath.sep, n).
Proof.
  intros H. induction a as [|c a IH].
  - simpl. by rewrite (rsplit_sep_name n H).
  - cbn [String.append OsPath.rsplit_sep]. rewrite IH. by destruct a.
Qed.

Lemma rstrip_snoc c s : Str.rstrip c (s +:+ String c "") = Str.rstrip c s.
Proof.
  induction s as [|a s IH]; simpl.
  - by rewrite decide_True.
  - by rewrite IH.
Qed.

Lemma rstrip_cons c a r :
  Str.rstrip c (String a r)
  = match Str.rstrip c r with
    | EmptyString => if decide (a = c) then EmptyString else String a EmptyString
    | r' => String a r'
    end.
Proof. reflexivity. Qed.

Lemma rstrip_id c s : Str.ends_with c s = false → Str.rstrip c s = s.
Proof.
  induction s as [|a s IH]; [done|]. intros H.
  destruct s as [|b s].
  - simpl in *. apply bool_decide_eq_false in H. by rewrite decide_False.
  - rewrite rstrip_cons, IH by done. done.
Qed.

Lemma all_char_snoc c s : Str.all_char c (s +:+ String c "") = Str.all_char c s.
Proof.
  induction s as [|a s IH]; simpl; [by rewrite decide_True|].
  by case_decide.
Qed.

Lemma all_char_ends_with c s : s ≠ "" → Str.all_char c s = true → Str.ends_with c s = true.
Proof.
  induction s as [|a s IH]; [done|]. intros _. simpl. case_decide; [subst|done].
  intros H. destruct s as [|b s]; [by apply bool_decide_eq_true|]. by apply IH.
Qed.

Lemma ends_with_app c a b : b ≠ "" → Str.ends_with c (a +:+ b) = Str.ends_with c b.
Proof.
  intros Hb. induction a as [|x a IH]; [done|].
  cbn [String.append Str.ends_with]. rewrite IH.
  destruct (a +:+ b) eqn:E; [|done]. destruct a, b; done.
Qed.

Lemma split_join d n :
  canonical d = true → Os.valid_name n = true → OsPath.split (OsPath.join d n) = (d, n).
Proof.
  intros Hc Hv. rewrite join_valid by done.
  pose proof (valid_name_no_sep n Hv) as Hn.
  apply andb_true_iff in Hc as [Hne Hc]. apply negb_true_iff, bool_decide_eq_false in Hne.
  rewrite bool_decide_eq_false_2 by done. cbn [orb].
  unfold OsPath.split.
  destruct (Str.ends_with Str.slash d) eqn:He.
  - destruct (Str.all_char Str.slash d) eqn:Ha; [|done].
    assert (∃ a, d = a +:+ OsPath.sep) as [a ->].
    { clear -Hne Ha. induction d as [|c d IH]; [done|]. simpl in Ha.
      case_decide; [subst|done]. destruct d as [|c' d]; [by exists ""|].
      destruct IH as [a Hd]; [done..|]. exists (String Str.slash a). simpl. by rewrite Hd. }
    rewrite app_assoc_s, rsplit_sep_app by done.
    rewrite bool_decide_eq_false_2 by done. by rewrite Ha.
  - rewrite app_assoc_s, rsplit_sep_app by done.
    assert (d +:+ OsPath.sep ≠ "") as Hne' by (by destruct d).
    rewrite bool_decide_eq_false_2 by done.
    unfold OsPath.sep, Str.slash in *. rewrite all_char_snoc.
    destruct (Str.all_char "/" d) eqn:Ha.
    { by rewrite all_char_ends_with in He. }
    cbn [negb andb]. by rewrite rstrip_snoc, rstrip_id.
Qed.

Lemma dirname_join d n :
  canonical d = true → Os.valid_name n = true → OsPath.dirname (OsPath.join d n) = d.
Proof. intros. unfold OsPath.dirname. by rewrite split_join. Qed.

Lemma join_inj d d' n n' :
  canonical d = true → canonical d' = true →
  Os.valid_name n = true → Os.valid_name n' = true →
  OsPath.join d n = OsPath.join d' n' → d = d' ∧ n = n'.
Proof.
  intros Hd Hd' Hn Hn' H. apply (f_equal OsPath.split) in H.
  rewrite !split_join in H by done. by injection H.
Qed.

Lemma canonical_join d n :
  canonical d = true → Os.valid_name n = true → canonical (OsPath.join d n) = true.
Proof.
  intros Hd Hn. rewrite join_valid by done. unfold canonical.
  pose proof (valid_name_nonempty n Hn) as Hne.
  rewrite ends_with_app by done.
  assert (Str.ends_with Str.slash n = false) as ->.
  { pose proof (valid_name_no_sep n Hn) as Hs. clear -Hs.
    induction n as [|a n IH]; [done|]. simpl in Hs. case_decide; [done|].
    destruct n; [by apply bool_decide_eq_false|]. by apply IH. }
  rewrite orb_true_r, andb_true_r. apply negb_true_iff, bool_decide_eq_false.
  destruct (_ || _); destruct d, n; done.
Qed.

End path_facts.

(** ** The category of a file name *)

Section category_facts.

Lemma has_char_lstrip c x s : Str.has_char c (Str.lstrip x s) = true → Str.has_char c s = true.
Proof.
  induction s as [|a s IH]; [done|]. cbn [Str.lstrip].
  case_decide as Hx; [|done]. intros H%IH. simpl. by case_decide.
Qed.

Lemma has_char_rstrip c x s : Str.has_char c (Str.rstrip x s) = true → Str.has_char c s = true.
Proof.
  induction s as [|a s IH]; [done|]. rewrite rstrip_cons.
  cbn [Str.has_char]. destruct (Str.rstrip x s) as [|b r] eqn:E.
  - case_decide; [done|]. simpl. case_decide; done.
  - cbn [Str.has_char]. case_decide as Hd; [done|]. intros Hc. by apply IH.
Qed.

Lemma has_char_last_dot_suffix c s :
  Str.has_char c (OsPath.last_dot_suffix s) = true → Str.has_char c s = true.
Proof.
  induction s as [|a s IH]; [done|]. cbn [OsPath.last_dot_suffix].
  destruct (OsPath.last_dot_suffix s) as [|b r] eqn:E.
  - case_decide; done.
  - intros H%IH. simpl. by case_decide.
Qed.

Lemma lower_char_slash a : Str.lower_char a = Str.slash → a = Str.slash.
Proof. destruct a as [[] [] [] [] [] [] [] []]; vm_compute; congruence. Qed.

Lemma has_char_lower_slash s :
  Str.has_char Str.slash (Str.lower s) = true → Str.has_char Str.slash s = true.
Proof.
  induction s as [|a s IH]; [done|]. simpl.
  case_decide as H1; case_decide as H2; try done.
  by apply lower_char_slash in H1.
Qed.

Lemma lstrip_head c s : Str.startswith (Str.lstrip c s) (String c "") = false.
Proof.
  unfold Str.startswith. induction s as [|a s IH]; [done|]. cbn [Str.lstrip].
  case_decide as Hx; [done|].
  apply not_true_is_false. intros [-> _]%prefix_cons. done.
Qed.

Lemma rstrip_head c s :
  Str.startswith s (String c "") = false →
  Str.startswith (Str.rstrip c s) (String c "") = false.
Proof.
  unfold Str.startswith. destruct s as [|a s]; [done|]. intros H.
  assert (a ≠ c) as Hne.
  { intros ->. rewrite (proj2 (prefix_cons c "" c s)) in H; [done|]. split; [done|apply prefix_nil]. }
  rewrite rstrip_cons. apply not_true_is_false. intros E.
  destruct (Str.rstrip c s); [rewrite decide_False in E by done|];
    apply prefix_cons in E as [-> _]; done.
Qed.

Lemma category_nonempty n : category n ≠ "".
Proof. unfold category. by case_bool_decide. Qed.

Lemma category_no_sep n :
  Str.has_char Str.slash n = false → Str.has_char Str.slash (category n) = false.
Proof.
  intros Hn. unfold category. case_bool_decide; [done|].
  apply not_true_is_false. intros Hs. unfold Str.strip in Hs.
  apply has_char_rstrip, has_char_lstrip, has_char_lower_slash in Hs.
  unfold OsPath.splitext in Hs. cbn [snd] in Hs.
  apply has_char_last_dot_suffix, has_char_lstrip in Hs.
  unfold OsPath.basename in Hs. rewrite rsplit_sep_name in Hs by done. cbn in Hs. congruence.
Qed.

Lemma category_head n : Str.startswith (category n) "." = false.
Proof.
  unfold category. case_bool_decide; [done|].
  apply rstrip_head, lstrip_head.
Qed.

Lemma valid_name_category n : Os.valid_name n = true → Os.valid_name (category n) = true.
Proof.
  intros H%valid_name_no_sep. unfold Os.valid_name.
  rewrite (category_no_sep n H), bool_decide_eq_false_2; [done|apply category_nonempty].
Qed.

Lemma category_not_logs n : category n ≠ LOGS_DIR.
Proof. intros H. pose proof (category_head n) as Hh. by rewrite H in Hh. Qed.

End category_facts.

(** ** The last element of a sorted list *)

Section sorted_facts.

Lemma sorted_last_greatest (l : list string) x y :
  last (Str.sorted l) = Some x → y ∈ l → String.le y x.
Proof.
  intros Hlast Hy.
  pose proof (StronglySorted_merge_sort String.le l) as Hs.
  fold (Str.sorted l) in Hs.
  assert (y ∈ Str.sorted l) as Hy'.
  { unfold Str.sorted. by rewrite merge_sort_Permutation. }
  apply last_Some in Hlast as [l' Hl']. rewrite Hl' in Hs, Hy'.
  apply elem_of_app in Hy' as [Hy'|Hy'].
  - apply (StronglySorted_app_1_elem_of _ _ _ _ _ Hs Hy'). by left.
  - apply list_elem_of_singleton in Hy' as ->. reflexivity.
Qed.

Lemma sorted_last_elem (l : list string) x : last (Str.sorted l) = Some x → x ∈ l.
Proof.
  intros H%last_Some_elem_of. unfold Str.sorted in H.
  by rewrite merge_sort_Permutation in H.
Qed.

Lemma sorted_last_is_Some (l : list string) y : y ∈ l → is_Some (last (Str.sorted l)).
Proof.
  intros Hy. apply last_is_Some. intros Hnil.
  assert (y ∈ Str.sorted l) as Hy'.
  { unfold Str.sorted. by rewrite merge_sort_Permutation. }
  rewrite Hnil in Hy'. by apply not_elem_of_nil in Hy'.
Qed.

End sorted_facts.

(** * Running computations *)

Section monad_facts.
Context {A B : Type}.

Lemma bind_Returned (m : M A) (k : A → M B) w b w' :
  bind m k w = (Returned b, w') →
  ∃ a w1, m w = (Returned a, w1) ∧ k a w1 = (Returned b, w').
Proof.
  unfold bind. destruct (m w) as [[a|e] w1]; [|done]. intros H. by exists a, w1.
Qed.

Lemma bind_run (m : M A) (k : A → M B) w a w1 :
  m w = (Returned a, w1) → bind m k w = k a w1.
Proof. unfold bind. by intros ->. Qed.


End monad_facts.

Lemma for_each_app {A} (l1 l2 : list A) (body : A → M unit) w :
  for_each (l1 ++ l2) body w = (for_each l1 body ;;; for_each l2 body) w.
Proof.
  revert w. induction l1 as [|x l1 IH]; intros w; [reflexivity|].
  cbn [app for_each]. unfold bind at 1 2 3.
  destruct (body x w) as [[[]|e] w1]; [|done]. apply IH.
Qed.

(** a [try] whose handler returns returns, whatever its body does *)
Lemma try_except_total (m : M unit) (h : exn → M unit) :
  (∀ e w, ∃ w', h e w = (Returned tt, w')) →
  ∀ w, ∃ w', try_except m h w = (Returned tt, w').
Proof.
  intros Hh w. unfold try_except. destruct (m w) as [[[]|e] w1]; [by exists w1|apply Hh].
Qed.

(** a loop whose body never raises never raises *)
Lemma for_each_total {A} (l : list A) (body : A → M unit) :
  (∀ x w, ∃ w', body x w = (Returned tt, w')) →
  ∀ w, ∃ w', for_each l body w = (Returned tt, w').
Proof.
  intros Hbody. induction l as [|x l IH]; intros w; simpl; [by exists w|].
  destruct (Hbody x w) as [w1 H1]. rewrite (bind_run _ _ _ _ _ H1). apply IH.
Qed.

Lemma logged_nil w : logged w [] = w.
Proof. destruct w. unfold logged. simpl. by rewrite app_nil_r. Qed.

Lemma logged_logged w l1 l2 : logged (logged w l1) l2 = logged w (l1 ++ l2).
Proof. unfold logged. simpl. by rewrite <- app_assoc. Qed.

Lemma logging_info_run m w : logging_info m w = (Returned tt, logged w [(INFO, m)]).
Proof. reflexivity. Qed.

Lemma logging_error_run m w : logging_error m w = (Returned tt, logged w [(ERROR, m)]).
Proof. reflexivity. Qed.

Lemma log_moves_run actions w :
  for_each actions (fun act => logging_info (Move (src act) (dst act))) w
  = (Returned tt, logged w (move_entries actions)).
Proof.
  revert w. induction actions as [|a l IH]; intros w; simpl.
  - by rewrite logged_nil.
  - unfold bind. rewrite logging_info_run, IH, logged_logged. done.
Qed.

(** * The pass that is not a dry run *)

Lemma write_json_Returned p actions w w' :
  Os.write_json p actions w = (Returned tt, w') →
  w' = mkWorld (<[p := File (Doc actions)]> (fs w)) (log w) (stdout w).
Proof.
  unfold Os.write_json, set_fs. destruct (Os.parent_error p w); [done|].
  destruct (fs w !! p) as [[|c]|]; [done|..];
    (destruct (encodable actions); [|done]); by intros [= <-].
Qed.

Lemma write_json_run p actions w :
  Os.parent_error p w = None → fs w !! p ≠ Some Dir → encodable actions = true →
  Os.write_json p actions w
  = (Returned tt, mkWorld (<[p := File (Doc actions)]> (fs w)) (log w) (stdout w)).
Proof.
  intros Hp Hd He. unfold Os.write_json, set_fs. rewrite Hp, He.
  by destruct (fs w !! p) as [[|c]|].
Qed.




Lemma organize_unfold folder prefix now w :
  Os.isdir folder w = true →
  scan_and_organize folder false prefix now w
  = (actions <- scan_loop folder (Os.entries folder (fs w)) [] ;;
     for_each actions (fun act => logging_info (Move (src act) (dst act))) ;;;
     for_each actions move_step ;;;
     save_history folder now actions) w.
Proof.
  intros Hd. unfold scan_and_organize, abspath.
  unfold bind at 1, reads at 1. rewrite Hd. cbn [negb].
  unfold bind at 1, Os.listdir at 1.
  apply bool_decide_eq_true in Hd. rewrite Hd. reflexivity.
Qed.

Lemma organize_Returned folder prefix now w actions w' :
  scan_and_organize folder false prefix now w = (Returned (Some actions), w') →
  Os.isdir folder w = true
  ∧ ∃ w1 w2,
      scan_loop folder (Os.entries folder (fs w)) [] w = (Returned actions, w1)
      ∧ for_each actions move_step (logged w1 (move_entries actions)) = (Returned tt, w2)
      ∧ save_history folder now actions w2 = (Returned (Some actions), w').
Proof.
  intros H. destruct (Os.isdir folder w) eqn:Hd.
  2:{ unfold scan_and_organize, abspath in H. unfold bind at 1, reads at 1 in H.
      rewrite Hd in H. cbn in H. done. }
  split; [done|]. rewrite organize_unfold in H by done.
  apply bind_Returned in H as (acts & w1 & H1 & H).
  apply bind_Returned in H as ([] & w1' & H2 & H).
  rewrite log_moves_run in H2. injection H2 as <-.
  apply bind_Returned in H as ([] & w2 & H3 & H).
  assert (acts = actions) as ->.
  { unfold save_history in H.
    apply bind_Returned in H as ([] & ? & _ & H).
    apply bind_Returned in H as ([] & ? & _ & H).
    unfold ret in H. congruence. }
  by exists w1, w2.
Qed.

Lemma save_history_Returned folder now actions w r w' :
  save_history folder now actions w = (Returned r, w') →
  r = Some actions ∧ fs w' = <[history_path folder now := File (Doc actions)]> (fs w).
Proof.
  unfold save_history. intros H.
  apply bind_Returned in H as ([] & w1 & H1 & H).
  apply write_json_Returned in H1 as ->.
  unfold bind, logging_info, ret in H. simpl in H. by injection H as <- <-.
Qed.

(** the history file of a completed pass holds the returned plan *)
Lemma organize_history_written folder prefix now w actions w' :
  scan_and_organize folder false prefix now w = (Returned (Some actions), w') →
  fs w' !! history_path folder now = Some (File (Doc actions)).
Proof.
  intros (_ & w1 & w2 & _ & _ & H)%organize_Returned.
  apply save_history_Returned in H as [_ ->]. apply lookup_insert_eq.
Qed.

(** * Undo: replaying a history file *)

Lemma rename_file_run s d c w :
  fs w !! s = Some (File c) → Os.parent_error d w = None →
  fs w !! d ≠ Some Dir → s ≠ d →
  Os.rename s d w
  = (Returned tt, mkWorld (<[d := File c]> (delete s (fs w))) (log w) (stdout w)).
Proof.
  intros Hs Hp Hd Hne. unfold Os.rename, set_fs. rewrite Hs, Hp.
  rewrite bool_decide_eq_false_2 by done.
  by destruct (fs w !! d) as [[|c']|].
Qed.

(** the body of the restoring loop returns, whatever happens in it *)
Lemma undo_step_total act w : ∃ w', undo_step act w = (Returned tt, w').
Proof.
  apply try_except_total. intros e w0. rewrite logging_error_run. by eexists.
Qed.


Lemma undo_last_selected folder w last_ :
  Os.isdir (OsPath.join folder LOGS_DIR) w = true →
  last (history_files (Os.entries (OsPath.join folder LOGS_DIR) (fs w))) = Some last_ →
  undo_last folder w = replay (OsPath.join (OsPath.join folder LOGS_DIR) last_) w.
Proof.
  intros Hdir Hlast. unfold undo_last, abspath, bind, reads. rewrite Hdir. simpl.
  unfold Os.listdir. apply bool_decide_eq_true in Hdir. by rewrite Hdir, Hlast.
Qed.


Lemma history_file_not_undone a b :
  Str.startswith b "history_" = true →
  OsPath.join a b ≠ Str.replace (OsPath.join a b) "history_" "undone_".
Proof.
  intros Hb Heq. pose proof (join_contains "history_" a b Hb) as Hc.
  rewrite Heq, undone_form_clean in Hc. done.
Qed.

(** * Creating directories *)

Section makedirs_facts.

Lemma rsplit_sep_all_slash s :
  Str.all_char Str.slash s = true → OsPath.rsplit_sep s = (s, "").
Proof.
  induction s as [|a s IH]; [done|]. cbn [Str.all_char OsPath.rsplit_sep].
  case_decide as Ha; [|done]. intros Hs. rewrite IH by done.
  by destruct s.
Qed.

Lemma rsplit_sep_tail s :
  s ≠ "" → Str.ends_with Str.slash s = false → snd (OsPath.rsplit_sep s) ≠ "".
Proof.
  induction s as [|a s IH]; [done|]. intros _ He.
  cbn [OsPath.rsplit_sep]. destruct s as [|b s].
  - cbn. cbn in He. apply bool_decide_eq_false in He. by rewrite decide_False.
  - specialize (IH ltac:(done) He).
    destruct (OsPath.rsplit_sep (String b s)) as [[|h0 h] t]; cbn in *; [|done].
    by destruct (decide (a = Str.slash)).
Qed.

Lemma split_snd p : snd (OsPath.split p) = snd (OsPath.rsplit_sep p).
Proof. unfold OsPath.split. destruct (OsPath.rsplit_sep p). by destruct (_ && _). Qed.

(** [mkdir] inside [try], as [makedirs] ends *)
Lemma make_run name w :
  Os.parent_error name w = None →
  try_except (Os.mkdir name)
    (fun e => d <- reads (Os.isdir name) ;; if d then ret tt else raise e) w
  = match fs w !! name with
    | Some Dir => (Returned tt, w)
    | Some (File _) => (Raised FileExistsError, w)
    | None => (Returned tt, mkWorld (<[name := Dir]> (fs w)) (log w) (stdout w))
    end.
Proof.
  intros Hp. unfold try_except, Os.mkdir, Os.exists_, Os.isdir, bind, reads, set_fs.
  destruct (fs w !! name) as [[|c]|] eqn:E.
  - rewrite bool_decide_eq_true_2 by eauto. by rewrite E.
  - rewrite bool_decide_eq_true_2 by eauto. by rewrite E.
  - rewrite bool_decide_eq_false_2 by (by intros [? ?]). by rewrite Hp.
Qed.

Lemma parent_error_child d n w :
  canonical d = true → Os.valid_name n = true → fs w !! d = Some Dir →
  Os.parent_error (OsPath.join d n) w = None.
Proof. intros Hc Hn Hd. unfold Os.parent_error. by rewrite dirname_join, Hd. Qed.

(** the directory [n] of an existing directory [d] *)
Lemma makedirs_child d n w :
  canonical d = true → Os.valid_name n = true → fs w !! d = Some Dir →
  Os.makedirs (OsPath.join d n) w
  = match fs w !! OsPath.join d n with
    | Some Dir => (Returned tt, w)
    | Some (File _) => (Raised FileExistsError, w)
    | None =>
        (Returned tt, mkWorld (<[OsPath.join d n := Dir]> (fs w)) (log w) (stdout w))
    end.
Proof.
  intros Hc Hn Hd. unfold Os.makedirs.
  assert (∀ fuel, Os.makedirs_rec fuel (OsPath.join d n) w
                  = try_except (Os.mkdir (OsPath.join d n))
                      (fun e => b <- reads (Os.isdir (OsPath.join d n)) ;;
                                if b then ret tt else raise e) w) as ->.
  { intros fuel. destruct fuel; cbn [Os.makedirs_rec];
      rewrite split_join by done;
      rewrite (bool_decide_eq_false_2 (n = "")) by (by apply valid_name_nonempty);
      unfold bind at 1, reads at 1, Os.exists_ at 1;
      rewrite (bool_decide_eq_true_2 (is_Some (fs w !! d))) by eauto;
      by rewrite andb_false_r. }
  apply make_run. by apply parent_error_child.
Qed.

(** an existing directory whose parent exists *)
Lemma makedirs_existing d w :
  canonical d = true → fs w !! d = Some Dir → Os.exists_ (OsPath.dirname d) w = true →
  Os.makedirs d w = (Returned tt, w).
Proof.
  intros Hc Hd Hp. unfold Os.makedirs.
  assert (∀ fuel, Os.makedirs_rec fuel d w
                  = try_except (Os.mkdir d)
                      (fun e => b <- reads (Os.isdir d) ;;
                                if b then ret tt else raise e) w) as ->.
  { intros fuel.
    apply andb_true_iff in Hc as [Hne Hc].
    apply negb_true_iff, bool_decide_eq_false in Hne.
    destruct (Str.all_char Str.slash d) eqn:Ha.
    - assert (OsPath.split d = (d, "")) as Hs.
      { unfold OsPath.split. rewrite rsplit_sep_all_slash by done.
        by rewrite Ha, andb_false_r. }
      destruct fuel; cbn [Os.makedirs_rec]; rewrite Hs;
        rewrite (bool_decide_eq_true_2 ("" = "")) by done; rewrite Hs;
        unfold bind at 1, reads at 1;
        rewrite (bool_decide_eq_true_2 ("" = "")) by done;
        by rewrite andb_false_r.
    - cbn in Hc. apply negb_true_iff in Hc.
      pose proof (rsplit_sep_tail d Hne Hc) as Ht. rewrite <- split_snd in Ht.
      unfold OsPath.dirname in Hp.
      destruct (OsPath.split d) as [h t] eqn:Hs. cbn in Ht, Hp.
      destruct fuel; cbn [Os.makedirs_rec]; rewrite Hs;
        rewrite (bool_decide_eq_false_2 (t = "")) by done;
        unfold bind at 1, reads at 1; rewrite Hp;
        by rewrite andb_false_r. }
  unfold try_except, Os.mkdir, Os.exists_, bind, reads, Os.isdir.
  rewrite bool_decide_eq_true_2 by eauto. by rewrite bool_decide_eq_true_2.
Qed.

End makedirs_facts.

(** * The scanning loop *)

Section scan_facts.
Variable folder : string.
Hypothesis folder_canonical : canonical folder = true.

Lemma grown_in_refl w : grown_in folder w w.
Proof. split_and!; [done..|]. intros p. by left. Qed.

Lemma grown_in_trans w1 w2 w3 :
  grown_in folder w1 w2 → grown_in folder w2 w3 → grown_in folder w1 w3.
Proof.
  intros (Hl1 & Ho1 & H1) (Hl2 & Ho2 & H2). split_and!; [congruence..|].
  intros p. destruct (H2 p) as [E2|(N2 & D2 & Hc2)], (H1 p) as [E1|(N1 & D1 & Hc1)].
  - left. congruence.
  - right. split_and!; [done|congruence|done].
  - right. split_and!; [congruence|done..].
  - congruence.
Qed.

Lemma grown_in_mkdir w c :
  Os.valid_name c = true → fs w !! OsPath.join folder c = None →
  grown_in folder w (mkWorld (<[OsPath.join folder c := Dir]> (fs w)) (log w) (stdout w)).
Proof.
  intros Hc Hn. split_and!; [done..|]. intros p. cbn.
  destruct (decide (p = OsPath.join folder c)) as [->|Hne].
  - right. rewrite lookup_insert_eq. eauto.
  - left. by rewrite lookup_insert_ne.
Qed.

Lemma grown_in_lookup w w' p x : grown_in folder w w' → fs w !! p = Some x → fs w' !! p = Some x.
Proof. intros (_ & _ & H) Hp. destruct (H p) as [->|(? & _)]; congruence. Qed.

Lemma grown_in_isfile w w' p : grown_in folder w w' → Os.isfile p w' = Os.isfile p w.
Proof.
  intros (_ & _ & H). unfold Os.isfile.
  destruct (H p) as [->|(-> & -> & _)]; done.
Qed.

Lemma grown_in_file w w' p c :
  grown_in folder w w' → fs w' !! p = Some (File c) ↔ fs w !! p = Some (File c).
Proof.
  intros (_ & _ & H). destruct (H p) as [->|(-> & -> & _)]; [done|]. split; done.
Qed.

Lemma grown_in_eligible w w' n : grown_in folder w w' → eligible folder w' n = eligible folder w n.
Proof. intros H. unfold eligible. by rewrite (grown_in_isfile w w'). Qed.

(** the body of the loop, in a folder that is a directory *)
Lemma scan_step_run actions n w :
  Os.valid_name n = true → fs w !! folder = Some Dir →
  scan_step folder actions n w
  = if eligible folder w n then
      match fs w !! OsPath.join folder (category n) with
      | Some Dir => (Returned (actions ++ [planned folder n]), w)
      | Some (File _) => (Raised FileExistsError, w)
      | None =>
          (Returned (actions ++ [planned folder n]),
           mkWorld (<[OsPath.join folder (category n) := Dir]> (fs w)) (log w) (stdout w))
      end
    else (Returned actions, w).
Proof using folder_canonical.
  intros Hn Hd. unfold scan_step, eligible. unfold bind at 1, reads at 1.
  destruct (_ && _); [|done].
  unfold bind. rewrite makedirs_child by (done || by apply valid_name_category).
  by destruct (fs w !! OsPath.join folder (category n)) as [[|c]|].
Qed.

(** the plan of a completed scan, and what the scan did to the world *)
Lemma scan_loop_spec names acc w actions w' :
  Forall (fun n => Os.valid_name n = true) names →
  fs w !! folder = Some Dir →
  scan_loop folder names acc w = (Returned actions, w') →
  actions = acc ++ (planned folder <$> filter (fun n => eligible folder w n = true) names)
  ∧ grown_in folder w w'
  ∧ ∀ n, n ∈ names → eligible folder w n = true →
         fs w' !! OsPath.join folder (category n) = Some Dir.
Proof using folder_canonical.
  intros Hv. revert acc w. induction Hv as [|n names Hn Hv IH]; intros acc w Hd Hrun.
  - cbn in Hrun. injection Hrun as <- <-. rewrite app_nil_r.
    split_and!; [done|apply grown_in_refl|]. intros n Hin. by apply not_elem_of_nil in Hin.
  - cbn [scan_loop] in Hrun. apply bind_Returned in Hrun as (acc1 & w1 & Hstep & Hrun).
    rewrite scan_step_run in Hstep by done.
    assert (grown_in folder w w1
            ∧ acc1 = acc ++ (if eligible folder w n then [planned folder n] else [])
            ∧ (eligible folder w n = true →
               fs w1 !! OsPath.join folder (category n) = Some Dir)) as (Hg & -> & Hdir).
    { destruct (eligible folder w n).
      - destruct (fs w !! OsPath.join folder (category n)) as [[|c]|] eqn:E;
          [| done |]; injection Hstep as <- <-.
        + split_and!; [apply grown_in_refl|done..].
        + split_and!; [|done|].
          * apply grown_in_mkdir; [|done]. by apply valid_name_category.
          * intros _. cbn. apply lookup_insert_eq.
      - injection Hstep as <- <-. rewrite app_nil_r.
        split_and!; [apply grown_in_refl|done..]. }
    destruct (IH _ _ (grown_in_lookup _ _ _ _ Hg Hd) Hrun) as (-> & Hg' & Hdirs).
    split_and!.
    + rewrite filter_cons.
      rewrite (list_filter_iff (fun n => eligible folder w1 n = true)
                               (fun n => eligible folder w n = true))
        by (intros x; by rewrite (grown_in_eligible w w1)).
      destruct (eligible folder w n) eqn:He.
      * rewrite decide_True by done. rewrite fmap_cons, <- app_assoc. done.
      * rewrite decide_False by done. by rewrite app_nil_r.
    + by eapply grown_in_trans.
    + intros x [->|Hin]%elem_of_cons He.
      * eapply grown_in_lookup; [done|]. by apply Hdir.
      * apply Hdirs; [done|]. by rewrite (grown_in_eligible w w1).
Qed.

End scan_facts.


(** * The name of a history file *)

Section history_name_facts.

Lemma digit_not_slash d : d < 10 → digit d ≠ Str.slash.
Proof. intros H. do 10 (destruct d as [|d]; [done|]). lia. Qed.

Lemma zero_padded_no_sep k n : Str.has_char Str.slash (zero_padded k n) = false.
Proof.
  revert n. induction k as [|k IH]; intros n; [done|].
  cbn [zero_padded]. rewrite has_char_app, IH. cbn [Str.has_char orb].
  rewrite decide_False; [done|]. apply digit_not_slash, Nat.mod_upper_bound. done.
Qed.

Lemma valid_history_name t : Os.valid_name (history_name t) = true.
Proof.
  unfold Os.valid_name, history_name, strftime.
  rewrite !has_char_app, !zero_padded_no_sep. done.
Qed.

Lemma history_name_active t : Str.startswith (history_name t) "history_" = true.
Proof. apply prefix_app. Qed.

(** a name that is active and above the other active names is the one
    chosen *)
Lemma greatest_is_selected names y :
  y ∈ names → Str.startswith y "history_" = true →
  (∀ g, g ∈ names → Str.startswith g "history_" = true → String.le g y) →
  last (history_files names) = Some y.
Proof.
  intros Hy Hact Hmax. unfold history_files.
  set (active := filter (fun f => Str.startswith f "history_" = true) names).
  assert (y ∈ active) as Hya by (by apply list_elem_of_filter).
  destruct (sorted_last_is_Some active y Hya) as [x Hx]. rewrite Hx. f_equal.
  pose proof (sorted_last_elem _ _ Hx) as [Hx1 Hx2]%list_elem_of_filter.
  apply (anti_symm String.le).
  - by apply Hmax.
  - by apply (sorted_last_greatest active).
Qed.

End history_name_facts.

(** * Moving the files of a plan, and moving them back *)

Section relocate_facts.
Implicit Types (m : gmap string node) (actions : list Action).

Lemma relocate_file s d c m :
  m !! s = Some (File c) → relocate s d m = <[d := File c]> (delete s m).
Proof. unfold relocate. by intros ->. Qed.

Lemma relocate_other s d m p : p ≠ s → p ≠ d → relocate s d m !! p = m !! p.
Proof.
  intros Hs Hd. unfold relocate. destruct (m !! s) as [[|c]|]; [done| |done].
  by rewrite lookup_insert_ne, lookup_delete_ne.
Qed.

Lemma moved_cons a actions m :
  moved (a :: actions) m = moved actions (relocate (src a) (dst a) m).
Proof. reflexivity. Qed.

Lemma moved_other actions m p :
  p ∉ (src <$> actions) → p ∉ (dst <$> actions) → moved actions m !! p = m !! p.
Proof.
  revert m. induction actions as [|a l IH]; intros m Hs Hd; [done|].
  rewrite fmap_cons in Hs, Hd. apply not_elem_of_cons in Hs as [Hs1 Hs2].
  apply not_elem_of_cons in Hd as [Hd1 Hd2].
  rewrite moved_cons, IH by done. by apply relocate_other.
Qed.

Lemma good_moves_cons a actions m :
  good_moves (a :: actions) m →
  (∃ c, m !! src a = Some (File c))
  ∧ (src a ∉ (src <$> actions)) ∧ (src a ∉ (dst <$> actions))
  ∧ (dst a ∉ (src <$> actions)) ∧ (dst a ∉ (dst <$> actions))
  ∧ src a ≠ dst a
  ∧ good_moves actions (relocate (src a) (dst a) m).
Proof.
  intros (Hns & Hnd & Hsd & Hall).
  rewrite fmap_cons in Hns, Hnd.
  apply NoDup_cons in Hns as [Hs1 Hs2]. apply NoDup_cons in Hnd as [Hd1 Hd2].
  destruct (Hall a) as [[c Hc] Hda]; [by left|].
  assert (src a ∉ (dst <$> actions)) as Hsd1.
  { intros (b & Hb & Hin)%list_elem_of_fmap. apply (Hsd a b); [by left|by right|done]. }
  assert (dst a ∉ (src <$> actions)) as Hds1.
  { intros (b & Hb & Hin)%list_elem_of_fmap. apply (Hsd b a); [by right|by left|done]. }
  assert (src a ≠ dst a) as Hne by (apply Hsd; by left).
  split_and!; eauto.
  split_and!; [done|done|intros x y ??; apply Hsd; by right|].
  intros b Hb. destruct (Hall b) as [[cb Hcb] Hdb]; [by right|].
  assert (src b ≠ src a) as N1.
  { intros E. apply Hs1. rewrite <- E. apply list_elem_of_fmap. eauto. }
  assert (src b ≠ dst a) as N2 by (apply Hsd; [by right|by left]).
  assert (dst b ≠ dst a) as N3.
  { intros E. apply Hd1. rewrite <- E. apply list_elem_of_fmap. eauto. }
  rewrite (relocate_file _ _ _ _ Hc). split.
  - exists cb. by rewrite lookup_insert_ne, lookup_delete_ne.
  - rewrite lookup_insert_ne by done.
    destruct (decide (dst b = src a)) as [->|N4]; [by rewrite lookup_delete_eq|].
    by rewrite lookup_delete_ne.
Qed.

(** the destination of a move holds what its source held *)
Lemma moved_dst actions m a :
  good_moves actions m → a ∈ actions → moved actions m !! dst a = m !! src a.
Proof.
  revert m. induction actions as [|b l IH]; intros m Hg Ha; [by apply not_elem_of_nil in Ha|].
  destruct (good_moves_cons _ _ _ Hg) as ([c Hc] & Hs1 & Hs2 & Hd1 & Hd2 & Hne & Hg').
  rewrite moved_cons. apply elem_of_cons in Ha as [->|Ha].
  - rewrite moved_other by done. rewrite (relocate_file _ _ _ _ Hc), Hc.
    apply lookup_insert_eq.
  - rewrite IH by done. apply relocate_other.
    + intros E. apply Hs1. rewrite <- E. apply list_elem_of_fmap. eauto.
    + intros E. apply Hd1. rewrite <- E. apply list_elem_of_fmap. eauto.
Qed.

(** and its source is free *)
Lemma moved_src actions m a :
  good_moves actions m → a ∈ actions → moved actions m !! src a = None.
Proof.
  revert m. induction actions as [|b l IH]; intros m Hg Ha; [by apply not_elem_of_nil in Ha|].
  destruct (good_moves_cons _ _ _ Hg) as ([c Hc] & Hs1 & Hs2 & Hd1 & Hd2 & Hne & Hg').
  rewrite moved_cons. apply elem_of_cons in Ha as [->|Ha].
  - rewrite moved_other by done. rewrite (relocate_file _ _ _ _ Hc).
    rewrite lookup_insert_ne by done. apply lookup_delete_eq.
  - by apply IH.
Qed.

Lemma flip_src actions : src <$> (flip <$> actions) = dst <$> actions.
Proof. by rewrite <- list_fmap_compose. Qed.

Lemma flip_dst actions : dst <$> (flip <$> actions) = src <$> actions.
Proof. by rewrite <- list_fmap_compose. Qed.

Lemma elem_of_flip actions b : b ∈ flip <$> actions ↔ ∃ a, a ∈ actions ∧ b = flip a.
Proof.
  rewrite list_elem_of_fmap. split; intros (a & H1 & H2); exists a; done.
Qed.

(** after the moves and the writing of a file at [h], the plan can be
    taken back *)
Lemma good_moves_back actions m h v :
  good_moves actions m → h ∉ (src <$> actions) → h ∉ (dst <$> actions) →
  good_moves (flip <$> actions) (<[h := v]> (moved actions m)).
Proof.
  intros Hg Hhs Hhd. pose proof Hg as (Hns & Hnd & Hsd & Hall).
  unfold good_moves. rewrite flip_src, flip_dst. split_and!; [done|done| |].
  - intros a' b' (a & Ha & ->)%elem_of_flip (b & Hb & ->)%elem_of_flip. cbn.
    intros E. by apply (Hsd b a).
  - intros a' (a & Ha & ->)%elem_of_flip. cbn.
    assert (dst a ≠ h) as N1.
    { intros E. apply Hhd. rewrite <- E. apply list_elem_of_fmap. eauto. }
    assert (src a ≠ h) as N2.
    { intros E. apply Hhs. rewrite <- E. apply list_elem_of_fmap. eauto. }
    rewrite !lookup_insert_ne by done.
    rewrite moved_dst, moved_src by done. split; [|done]. by apply Hall.
Qed.

(** taking the plan back restores the sources and frees the destinations *)
Lemma moved_back actions m h v p :
  good_moves actions m → h ∉ (src <$> actions) → h ∉ (dst <$> actions) →
  moved (flip <$> actions) (<[h := v]> (moved actions m)) !! p
  = if decide (p ∈ (src <$> actions)) then m !! p
    else if decide (p ∈ (dst <$> actions)) then None
    else <[h := v]> m !! p.
Proof.
  intros Hg Hhs Hhd. pose proof (good_moves_back _ _ h v Hg Hhs Hhd) as Hb.
  destruct (decide (p ∈ (src <$> actions))) as [Hs|Hs].
  - apply list_elem_of_fmap in Hs as (a & -> & Ha).
    assert (flip a ∈ flip <$> actions) as Hfa by (apply elem_of_flip; eauto).
    pose proof (moved_dst _ _ (flip a) Hb Hfa) as Hm. cbn [flip src dst] in Hm.
    rewrite Hm, lookup_insert_ne.
    + by apply moved_dst.
    + intros E. apply Hhd. rewrite E. apply list_elem_of_fmap. eauto.
  - destruct (decide (p ∈ (dst <$> actions))) as [Hd|Hd].
    + apply list_elem_of_fmap in Hd as (a & -> & Ha).
      assert (flip a ∈ flip <$> actions) as Hfa by (apply elem_of_flip; eauto).
      exact (moved_src _ _ (flip a) Hb Hfa).
    + rewrite moved_other by (by rewrite ?flip_src, ?flip_dst).
      destruct (decide (h = p)) as [->|N]; [by rewrite !lookup_insert_eq|].
      rewrite !lookup_insert_ne by done. by apply moved_other.
Qed.

End relocate_facts.

(** * The undone form of a history path *)

Section replace_app_facts.
Variables (o n : ascii) (old' new' : string).
Let old := String o old'.
Let new := String n new'.

Lemma prefix_app_inv q x k y :
  String.prefix q (x +:+ String k y) = true →
  String.prefix q x = true ∨ Str.has_char k q = true.
Proof using Type.
  revert x. induction q as [|a q IH]; intros x H; [left; apply prefix_nil|].
  destruct x as [|c x].
  - right. cbn [String.append] in H. apply prefix_cons in H as [-> _].
    cbn. by rewrite decide_True.
  - cbn [String.append] in H. apply prefix_cons in H as [-> H].
    destruct (IH _ H) as [Hp|Hk].
    + left. by apply prefix_cons.
    + right. cbn. by case_decide.
Qed.

(** a text without the first character of [old] is kept *)
Lemma replace_app_fresh m b :
  Str.has_char o m = false →
  Str.replace_from old new 0 (m +:+ b) = m +:+ Str.replace_from old new 0 b.
Proof using Type.
  induction m as [|c m IH]; intros Hm; [done|].
  cbn [Str.has_char] in Hm. case_decide as Hc; [done|].
  cbn [String.append Str.replace_from].
  assert (String.prefix old (String c (m +:+ b)) = false) as ->.
  { apply not_true_is_false. intros [E _]%prefix_cons. congruence. }
  by rewrite IH.
Qed.

(** a text without occurrence of [old] is kept, when the character
    [k] that follows it is not one of [old] *)
Lemma replace_app_clean x k K b :
  Str.contains old x = false → Str.has_char k old = false →
  Str.has_char o (String k K) = false →
  Str.replace_from old new 0 (x +:+ String k K +:+ b)
  = x +:+ String k K +:+ Str.replace_from old new 0 b.
Proof using Type.
  intros Hx Hk HK. induction x as [|c x IH].
  - cbn [String.append]. change (String k (K +:+ b)) with (String k K +:+ b).
    by apply replace_app_fresh.
  - cbn [Str.contains] in Hx. apply orb_false_iff in Hx as [Hp Hx].
    change (String c x +:+ String k K +:+ b)
      with (String c (x +:+ String k K +:+ b)).
    cbn [Str.replace_from].
    destruct (String.prefix old (String c (x +:+ String k K +:+ b))) eqn:E.
    + change (String c (x +:+ String k K +:+ b))
        with (String c x +:+ String k (K +:+ b)) in E.
      apply prefix_app_inv in E as [E|E]; congruence.
    + rewrite (IH Hx). done.
Qed.

Lemma has_char_replace c s k :
  Str.has_char c (Str.replace_from old new k s) = true →
  Str.has_char c s = true ∨ Str.has_char c new = true.
Proof using Type.
  revert k. induction s as [|a s IH]; intros k H; [done|].
  cbn [Str.replace_from] in H. destruct k as [|k].
  - destruct (String.prefix old (String a s)).
    + rewrite has_char_app in H. apply orb_true_iff in H as [H|H]; [by right|].
      destruct (IH _ H) as [H'|H']; [left|by right]. cbn. by case_decide.
    + cbn [Str.has_char] in *. case_decide; [by left|].
      destruct (IH _ H) as [H'|H']; [by left|by right].
  - destruct (IH _ H) as [H'|H']; [left|by right]. cbn. by case_decide.
Qed.

Lemma replace_nonempty s : s ≠ "" → Str.replace_from old new 0 s ≠ "".
Proof using Type.
  destruct s as [|a s]; [done|]. intros _. cbn [Str.replace_from].
  by destruct (String.prefix old (String a s)).
Qed.

End replace_app_facts.

Lemma valid_name_undone name :
  Os.valid_name name = true → Os.valid_name (Str.replace name "history_" "undone_") = true.
Proof.
  intros Hv. unfold Os.valid_name. apply andb_true_iff. split.
  - apply negb_true_iff, bool_decide_eq_false, replace_nonempty.
    by apply valid_name_nonempty.
  - apply negb_true_iff, not_true_is_false. intros H.
    apply has_char_replace in H as [H|H]; [|done].
    by rewrite valid_name_no_sep in H.
Qed.

(** in a folder whose path is free of the marker, the undone form of a
    path of the log directory is a path of the log directory *)
Lemma undone_in_logs folder name :
  Str.contains "history_" folder = false → Os.valid_name name = true →
  Str.replace (OsPath.join (OsPath.join folder LOGS_DIR) name) "history_" "undone_"
  = OsPath.join (OsPath.join folder LOGS_DIR) (Str.replace name "history_" "undone_").
Proof.
  intros Hf Hv. pose proof (valid_name_undone name Hv) as Hu.
  assert (Os.valid_name LOGS_DIR = true) as Hl by done.
  rewrite !(join_valid (OsPath.join folder LOGS_DIR)) by done.
  rewrite (join_valid folder LOGS_DIR) by done.
  assert (∀ a : string, Str.ends_with Str.slash (a +:+ LOGS_DIR) = false) as He.
  { intros a. by rewrite ends_with_app. }
  assert (∀ a : string, a +:+ LOGS_DIR ≠ "") as Hne by (by intros []).
  destruct (bool_decide (folder = "") || Str.ends_with Str.slash folder).
  - rewrite He, bool_decide_eq_false_2 by done. cbn [orb].
    rewrite !app_assoc_s. unfold Str.replace. by apply replace_app_clean.
  - rewrite He, bool_decide_eq_false_2 by done. cbn [orb].
    rewrite !app_assoc_s. unfold Str.replace. by apply replace_app_clean.
Qed.

(** * The loops over a plan whose moves do not meet *)

Section loop_facts.

Lemma move_file_run s d c w :
  fs w !! s = Some (File c) → fs w !! d ≠ Some Dir →
  fs w !! OsPath.dirname d = Some Dir → s ≠ d →
  Shutil.move s d w = (Returned tt, mkWorld (relocate s d (fs w)) (log w) (stdout w)).
Proof.
  intros Hs Hd Hp Hne. unfold Shutil.move, bind, reads, Os.isdir.
  rewrite bool_decide_eq_false_2 by done. unfold try_except.
  rewrite (rename_file_run s d c) by (done || by unfold Os.parent_error; rewrite Hp).
  by rewrite (relocate_file _ _ _ _ Hs).
Qed.

Lemma moved_dir actions (m : gmap string node) p :
  good_moves actions m → moved actions m !! p = Some Dir ↔ m !! p = Some Dir.
Proof.
  intros Hg. pose proof Hg as (_ & _ & _ & Hall).
  destruct (decide (p ∈ (src <$> actions))) as [Hs|Hs].
  - apply list_elem_of_fmap in Hs as (a & -> & Ha).
    rewrite moved_src by done. destruct (Hall a Ha) as [[c ->] _]. done.
  - destruct (decide (p ∈ (dst <$> actions))) as [Hd|Hd].
    + apply list_elem_of_fmap in Hd as (a & -> & Ha).
      rewrite moved_dst by done. destruct (Hall a Ha) as [[c ->] Hn]. done.
    + by rewrite moved_other.
Qed.

Lemma move_loop_run actions w :
  good_moves actions (fs w) →
  (∀ a, a ∈ actions → fs w !! OsPath.dirname (dst a) = Some Dir) →
  for_each actions move_step w
  = (Returned tt, mkWorld (moved actions (fs w)) (log w) (stdout w)).
Proof.
  revert w. induction actions as [|a l IH]; intros w Hg Hp.
  - by destruct w.
  - destruct (good_moves_cons _ _ _ Hg) as ([c Hc] & Hs1 & Hs2 & Hd1 & Hd2 & Hne & Hg').
    pose proof Hg as (_ & _ & _ & Hall). destruct (Hall a) as [_ Hnd]; [by left|].
    cbn [for_each].
    assert (move_step a w
            = (Returned tt, mkWorld (relocate (src a) (dst a) (fs w)) (log w) (stdout w)))
      as Hstep.
    { unfold move_step, try_except.
      rewrite (move_file_run _ _ c) by (done || apply Hp; by left). done. }
    rewrite (bind_run _ _ _ _ _ Hstep), IH; [done|done|].
    intros b Hb. cbn [fs]. specialize (Hp b ltac:(by right)).
    rewrite relocate_other; [done| |]; intros E; rewrite E in Hp; congruence.
Qed.

Lemma undo_loop_run folder actions w :
  canonical folder = true →
  fs w !! folder = Some Dir → fs w !! OsPath.dirname folder = Some Dir →
  good_moves (flip <$> actions) (fs w) →
  (∀ a, a ∈ actions → OsPath.dirname (src a) = folder) →
  for_each actions undo_step w
  = (Returned tt,
     mkWorld (moved (flip <$> actions) (fs w)) (log w ++ restored_entries actions) (stdout w)).
Proof.
  intros Hcan. revert w. induction actions as [|a l IH]; intros w Hf Hpf Hg Hdn.
  - cbn. rewrite app_nil_r. by destruct w.
  - rewrite fmap_cons in Hg.
    destruct (good_moves_cons _ _ _ Hg) as ([c Hc] & Hs1 & Hs2 & Hd1 & Hd2 & Hne & Hg').
    pose proof Hg as (_ & _ & _ & Hall). destruct (Hall (flip a)) as [_ Hnd]; [by left|].
    cbn [flip src dst] in Hc, Hne, Hnd, Hg'.
    cbn [for_each].
    assert (undo_step a w
            = (Returned tt,
               mkWorld (relocate (dst a) (src a) (fs w))
                       (log w ++ [(INFO, Restored (dst a) (src a))]) (stdout w))) as Hstep.
    { unfold undo_step, try_except.
      unfold bind at 1, reads at 1, Os.exists_.
      rewrite bool_decide_eq_true_2 by eauto.
      rewrite (Hdn a) by (by left).
      erewrite bind_run; [|apply makedirs_existing; [done..|]].
      2:{ unfold Os.exists_. apply bool_decide_eq_true_2. eauto. }
      erewrite bind_run; [|apply (move_file_run _ _ c); [done..| |done]].
      2:{ by rewrite (Hdn a) by (by left). }
      reflexivity. }
    rewrite (bind_run _ _ _ _ _ Hstep), IH; cbn [fs log stdout].
    + rewrite fmap_cons, moved_cons. cbn [flip src dst].
      unfold restored_entries. rewrite fmap_cons, <- app_assoc. done.
    + rewrite relocate_other; [done| |]; intros E; rewrite E in Hf; congruence.
    + rewrite relocate_other; [done| |]; intros E; rewrite E in Hpf; congruence.
    + done.
    + intros b Hb. apply Hdn. by right.
Qed.

End loop_facts.

(** * The paths of a plan *)

Section plan_facts.
Variable folder : string.
Hypothesis folder_canonical : canonical folder = true.

Lemma join_ne_self d n : Os.valid_name n = true → OsPath.join d n ≠ d.
Proof using Type.
  intros Hn. rewrite join_valid by done. intros E.
  pose proof (valid_name_nonempty n Hn) as Hne.
  destruct (_ || _).
  - rewrite <- (app_nil_r_s d) in E at 2. by apply String.app_inj in E.
  - rewrite app_assoc_s in E. rewrite <- (app_nil_r_s d) in E at 2.
    by apply String.app_inj in E.
Qed.

Lemma valid_logs_dir : Os.valid_name LOGS_DIR = true.
Proof using Type. reflexivity. Qed.

Lemma canonical_logs : canonical (OsPath.join folder LOGS_DIR) = true.
Proof using folder_canonical. by apply canonical_join. Qed.

Lemma canonical_category n :
  Os.valid_name n = true → canonical (OsPath.join folder (category n)) = true.
Proof using folder_canonical. intros. by apply canonical_join, valid_name_category. Qed.

(** a path of the log directory is not the source of a planned action,
    not its destination and not a directory of the folder *)
Lemma logs_entry_not_src g n :
  Os.valid_name g = true → Os.valid_name n = true →
  OsPath.join (OsPath.join folder LOGS_DIR) g ≠ src (planned folder n).
Proof using folder_canonical.
  intros Hg Hn E. cbn in E. apply join_inj in E as [E _]; [|by apply canonical_logs|done..].
  by apply join_ne_self in E.
Qed.

Lemma logs_entry_not_dst g n :
  Os.valid_name g = true → Os.valid_name n = true →
  OsPath.join (OsPath.join folder LOGS_DIR) g ≠ dst (planned folder n).
Proof using folder_canonical.
  intros Hg Hn E. cbn in E.
  apply join_inj in E as [E _]; [|by apply canonical_logs|by apply canonical_category|done..].
  apply join_inj_name in E; [|done|by apply valid_name_category].
  by apply (category_not_logs n).
Qed.

Lemma logs_entry_not_child g c :
  Os.valid_name g = true → Os.valid_name c = true →
  OsPath.join (OsPath.join folder LOGS_DIR) g ≠ OsPath.join folder c.
Proof using folder_canonical.
  intros Hg Hc E. apply join_inj in E as [E _]; [|by apply canonical_logs|done..].
  by apply join_ne_self in E.
Qed.

Lemma planned_dst_not_child n c :
  Os.valid_name n = true → Os.valid_name c = true →
  dst (planned folder n) ≠ OsPath.join folder c.
Proof using folder_canonical.
  intros Hn Hc E. cbn in E.
  apply join_inj in E as [E _]; [|by apply canonical_category|done..].
  apply join_ne_self in E; [done|]. by apply valid_name_category.
Qed.

Lemma planned_src_not_dst n n' :
  Os.valid_name n = true → Os.valid_name n' = true →
  src (planned folder n) ≠ dst (planned folder n').
Proof using folder_canonical.
  intros Hn Hn' E. symmetry in E. by apply planned_dst_not_child in E.
Qed.

Lemma planned_dirname_src n :
  Os.valid_name n = true → OsPath.dirname (src (planned folder n)) = folder.
Proof using folder_canonical. intros. cbn. by apply dirname_join. Qed.

Lemma planned_dirname_dst n :
  Os.valid_name n = true →
  OsPath.dirname (dst (planned folder n)) = OsPath.join folder (category n).
Proof using folder_canonical. intros. cbn. apply dirname_join; [by apply canonical_category|done]. Qed.

(** the plan of a scan is a plan whose moves do not meet, when no
    destination is a directory *)
Lemma plan_good_moves names w wp :
  NoDup names → Forall (fun n => Os.valid_name n = true) names →
  grown_in folder w wp →
  (∀ n, n ∈ names → eligible folder w n = true →
        fs w !! dst (planned folder n) ≠ Some Dir) →
  good_moves (planned folder <$> filter (fun n => eligible folder w n = true) names) (fs wp).
Proof using folder_canonical.
  intros Hnd Hv Hg Hdst. rewrite Forall_forall in Hv.
  set (ns := filter (fun n => eligible folder w n = true) names).
  assert (∀ n, n ∈ ns → n ∈ names ∧ eligible folder w n = true ∧ Os.valid_name n = true) as Hns.
  { intros n [He Hn]%list_elem_of_filter. split_and!; [done..|]. by apply Hv. }
  unfold good_moves. rewrite <- !list_fmap_compose. split_and!.
  - apply NoDup_fmap_2_strong; [|by apply NoDup_filter].
    intros x y Hx Hy E. cbn in E. apply Hns in Hx as (_ & _ & Hx), Hy as (_ & _ & Hy).
    by apply join_inj_name in E.
  - apply NoDup_fmap_2_strong; [|by apply NoDup_filter].
    intros x y Hx Hy E. cbn in E. apply Hns in Hx as (_ & _ & Hx), Hy as (_ & _ & Hy).
    apply join_inj in E as [_ E]; [done|by apply canonical_category..|done|done].
  - intros a b (x & -> & Hx)%list_elem_of_fmap (y & -> & Hy)%list_elem_of_fmap.
    apply Hns in Hx as (_ & _ & Hx), Hy as (_ & _ & Hy). by apply planned_src_not_dst.
  - intros a (x & -> & Hx)%list_elem_of_fmap. apply Hns in Hx as (Hin & He & Hx). split.
    + unfold eligible in He. apply andb_true_iff in He as [He _].
      unfold Os.isfile in He. cbn [planned src].
      destruct (fs w !! OsPath.join folder x) as [[|c]|] eqn:E; [done| |done].
      exists c. by eapply grown_in_lookup.
    + destruct Hg as (_ & _ & Hg).
      destruct (Hg (dst (planned folder x))) as [->|(_ & _ & c & Hc & E)]; [by apply Hdst|].
      by apply planned_dst_not_child in E.
Qed.

End plan_facts.

(** * The state a pass leaves *)

Lemma write_json_Returned_inv p actions w w' :
  Os.write_json p actions w = (Returned tt, w') →
  fs w !! OsPath.dirname p = Some Dir ∧ fs w !! p ≠ Some Dir.
Proof.
  unfold Os.write_json, Os.parent_error.
  destruct (fs w !! OsPath.dirname p) as [[|c]|]; [|done..].
  destruct (fs w !! p) as [[|c]|]; done.
Qed.


(** * What a scan plans and what a dry run changes *)

Lemma prefix_app_cancel a b c : String.prefix (a +:+ b) (a +:+ c) = String.prefix b c.
Proof.
  induction a as [|x a IH]; [done|].
  cbn [String.append String.prefix]. by destruct (ascii_dec x x).
Qed.

(** the test of line 46 looks at the name only: the entries left out are
    those whose name starts with the name of the log directory *)
Lemma eligible_by_name folder w n :
  Os.valid_name n = true →
  eligible folder w n
  = Os.isfile (OsPath.join folder n) w && negb (Str.startswith n LOGS_DIR).
Proof.
  intros Hn. unfold eligible. f_equal. f_equal. unfold Str.startswith.
  rewrite !join_valid by done. apply prefix_app_cancel.
Qed.

Lemma dry_run_Returned folder prefix now w actions w1 :
  scan_and_organize folder true prefix now w = (Returned (Some actions), w1) →
  Os.isdir folder w = true
  ∧ ∃ wp, scan_loop folder (Os.entries folder (fs w)) [] w = (Returned actions, wp)
          ∧ w1 = logged wp (move_entries actions ++ [(INFO, DryRunNoChanges)]).
Proof.
  intros H. unfold scan_and_organize, abspath in H.
  unfold bind at 1, reads at 1 in H.
  destruct (Os.isdir folder w) eqn:Hd; [|done]. split; [done|]. cbn [negb] in H.
  unfold bind at 1, Os.listdir at 1 in H.
  apply bool_decide_eq_true in Hd. rewrite Hd in H.
  apply bind_Returned in H as (acts & wp & Hscan & H).
  apply bind_Returned in H as ([] & wl & Hlog & H).
  rewrite log_moves_run in Hlog. injection Hlog as <-.
  unfold bind, logging_info, ret in H. cbn in H. injection H as -> <-.
  exists wp. split; [done|]. unfold logged. cbn. by rewrite <- app_assoc.
Qed.

(** the plan of a pass, dry run or not: the eligible entries in the order
    of the listing, each sent to the directory of its category *)
Lemma plan_of_scan folder dry_run prefix now w actions w1 :
  canonical folder = true →
  scan_and_organize folder dry_run prefix now w = (Returned (Some actions), w1) →
  actions
  = planned folder <$> filter (fun n => eligible folder w n = true) (Os.entries folder (fs w)).
Proof.
  intros Hcan H.
  assert (Os.isdir folder w = true
          ∧ ∃ wp, scan_loop folder (Os.entries folder (fs w)) [] w = (Returned actions, wp))
    as (Hd & wp & Hscan).
  { destruct dry_run.
    - apply dry_run_Returned in H as (? & wp & ? & _). eauto.
    - apply organize_Returned in H as (? & wp & _ & ? & _). eauto. }
  apply bool_decide_eq_true in Hd.
  assert (Forall (fun n => Os.valid_name n = true) (Os.entries folder (fs w))) as Hv.
  { apply Forall_forall. by intros n [? _]%elem_of_entries. }
  by destruct (scan_loop_spec folder Hcan _ _ _ _ _ Hv Hd Hscan) as (Hplan & _).
Qed.

(** a dry run and a real pass on the same world have the same plan *)
Lemma dry_run_same_plan folder p1 p2 t1 t2 w a1 w1 a2 w2 :
  canonical folder = true →
  scan_and_organize folder true p1 t1 w = (Returned (Some a1), w1) →
  scan_and_organize folder false p2 t2 w = (Returned (Some a2), w2) →
  a1 = a2.
Proof.
  intros Hcan H1%plan_of_scan H2%plan_of_scan; [|done..]. congruence.
Qed.

(** a dry run keeps every regular file and every directory; what it adds
    are directories directly inside the folder *)
Lemma dry_run_effect folder prefix now w actions w1 :
  canonical folder = true →
  scan_and_organize folder true prefix now w = (Returned (Some actions), w1) →
  (∀ p c, fs w1 !! p = Some (File c) ↔ fs w !! p = Some (File c))
  ∧ (∀ p, fs w1 !! p = fs w !! p
          ∨ (fs w !! p = None ∧ fs w1 !! p = Some Dir
             ∧ ∃ c, Os.valid_name c = true ∧ p = OsPath.join folder c))
  ∧ (∀ a, a ∈ actions → fs w1 !! OsPath.dirname (dst a) = Some Dir).
Proof.
  intros Hcan H. pose proof (plan_of_scan _ _ _ _ _ _ _ Hcan H) as Hplan.
  apply dry_run_Returned in H as (Hd & wp & Hscan & ->).
  apply bool_decide_eq_true in Hd.
  assert (Forall (fun n => Os.valid_name n = true) (Os.entries folder (fs w))) as Hv.
  { apply Forall_forall. by intros n [? _]%elem_of_entries. }
  destruct (scan_loop_spec folder Hcan _ _ _ _ _ Hv Hd Hscan) as (_ & Hg & Hdirs).
  cbn [logged fs]. split_and!.
  - intros p c. by apply (grown_in_file folder).
  - by destruct Hg as (_ & _ & Hg).
  - intros a Ha. rewrite Hplan in Ha.
    apply list_elem_of_fmap in Ha as (n & -> & [He Hn]%list_elem_of_filter).
    rewrite Forall_forall in Hv.
    rewrite planned_dirname_dst by (done || by apply Hv). by apply Hdirs.
Qed.

(** * The undone path is outside the plan *)

Section replace_differs_facts.
Variables (o n : ascii) (old' new' : string).
Let old := String o old'.
Let new := String n new'.
Hypothesis heads_differ : n ≠ o.

Lemma prefix_app_r q x y : String.prefix q x = true → String.prefix q (x +:+ y) = true.
Proof using Type.
  revert x. induction q as [|a q IH]; intros x H; [apply prefix_nil|].
  destruct x as [|c x]; [done|]. cbn [String.append].
  apply prefix_cons in H as [-> H]. apply prefix_cons. eauto.
Qed.

(** a text with an occurrence of [old] is changed at that occurrence,
    whatever follows the text *)
Lemma replace_differs x y z :
  Str.contains old x = true → Str.replace_from old new 0 (x +:+ y) ≠ x +:+ z.
Proof using heads_differ.
  induction x as [|c x IH]; [done|]. intros Hc.
  cbn [String.append Str.replace_from].
  destruct (String.prefix old (String c (x +:+ y))) eqn:E.
  - apply prefix_cons in E as [<- _]. intros [= ? _]. done.
  - cbn [Str.contains] in Hc. apply orb_true_iff in Hc as [Hp|Hc].
    + apply (prefix_app_r _ _ y) in Hp. cbn [String.append] in Hp. congruence.
    + intros [= H]. by apply IH in H.
Qed.

End replace_differs_facts.

Lemma join_under folder n : Os.valid_name n = true → ∃ r, OsPath.join folder n = folder +:+ r.
Proof.
  intros Hn. rewrite join_valid by done. destruct (_ || _); [by eexists|].
  rewrite app_assoc_s. by eexists.
Qed.

Section undone_facts.
Variables (folder : string) (now : datetime).
Hypothesis folder_canonical : canonical folder = true.
Let undone_file := Str.replace (history_path folder now) "history_" "undone_".

(** the undone path is no path below the folder, unless it is a path of
    the log directory *)
Lemma undone_cases :
  (∃ u, Os.valid_name u = true ∧ undone_file = OsPath.join (OsPath.join folder LOGS_DIR) u)
  ∨ (∀ z, undone_file ≠ folder +:+ z).
Proof using Type.
  destruct (Str.contains "history_" folder) eqn:Hc.
  - right. intros z. unfold undone_file, history_path.
    destruct (join_under folder LOGS_DIR) as [r0 ->]; [done|].
    destruct (join_under (folder +:+ r0) (history_name now)) as [r1 ->];
      [apply valid_history_name|].
    rewrite app_assoc_s. unfold Str.replace. by apply replace_differs.
  - left. exists (Str.replace (history_name now) "history_" "undone_"). split.
    + apply valid_name_undone, valid_history_name.
    + apply undone_in_logs; [done|apply valid_history_name].
Qed.

Lemma undone_not_src n : Os.valid_name n = true → undone_file ≠ src (planned folder n).
Proof using folder_canonical.
  intros Hn. destruct undone_cases as [(u & Hu & ->)|H].
  - by apply logs_entry_not_src.
  - cbn [planned src]. destruct (join_under folder n Hn) as [r ->]. apply H.
Qed.

Lemma undone_not_dst n : Os.valid_name n = true → undone_file ≠ dst (planned folder n).
Proof using folder_canonical.
  intros Hn. destruct undone_cases as [(u & Hu & ->)|H].
  - by apply logs_entry_not_dst.
  - cbn [planned dst].
    destruct (join_under folder (category n)) as [r0 ->]; [by apply valid_name_category|].
    destruct (join_under (folder +:+ r0) n Hn) as [r1 ->]. rewrite app_assoc_s. apply H.
Qed.

End undone_facts.


(** * The names of history files follow the clock *)

Section chronology_facts.

Lemma compare_refl_s s : String.compare s s = Eq.
Proof.
  induction s as [|a s IH]; [done|]. cbn [String.compare].
  unfold Ascii.compare. by rewrite N.compare_refl.
Qed.

Lemma compare_single a b :
  String.compare (String a "") (String b "") = Ascii.compare a b.
Proof. cbn [String.compare]. by destruct (Ascii.compare a b). Qed.

Lemma length_app_s a b : String.length (a +:+ b) = String.length a + String.length b.
Proof. induction a as [|x a IH]; [done|]. cbn [String.append String.length]. by rewrite IH. Qed.

(** texts of one length are compared before what follows them *)
Lemma compare_app x y u v :
  String.length x = String.length y →
  String.compare (x +:+ u) (y +:+ v) = lexc (String.compare x y) (String.compare u v).
Proof.
  revert y. induction x as [|a x IH]; intros [|b y] Hl; try done.
  cbn [String.append String.compare].
  destruct (Ascii.compare a b); [|done..]. apply IH. by injection Hl.
Qed.

Lemma length_zero_padded k n : String.length (zero_padded k n) = k.
Proof.
  revert n. induction k as [|k IH]; intros n; [done|].
  cbn [zero_padded]. rewrite length_app_s, IH. cbn. lia.
Qed.

Lemma compare_digit i j :
  i < 10 → j < 10 → Ascii.compare (digit i) (digit j) = (i ?= j).
Proof.
  intros Hi Hj.
  do 10 (destruct i as [|i]; [do 10 (destruct j as [|j]; [done|]); lia|]). lia.
Qed.

Lemma compare_div_mod a b :
  lexc (a / 10 ?= b / 10) (a mod 10 ?= b mod 10) = (a ?= b).
Proof.
  pose proof (Nat.div_mod_eq a 10) as Ha. pose proof (Nat.div_mod_eq b 10) as Hb.
  pose proof (Nat.mod_upper_bound a 10 ltac:(done)) as Ha'.
  pose proof (Nat.mod_upper_bound b 10 ltac:(done)) as Hb'.
  destruct (Nat.compare_spec (a / 10) (b / 10)) as [E|E|E]; cbn [lexc].
  - destruct (Nat.compare_spec (a mod 10) (b mod 10)) as [E'|E'|E']; symmetry.
    + apply Nat.compare_eq_iff. lia.
    + apply Nat.compare_lt_iff. lia.
    + apply Nat.compare_gt_iff. lia.
  - symmetry. apply Nat.compare_lt_iff. lia.
  - symmetry. apply Nat.compare_gt_iff. lia.
Qed.

(** numbers printed with one width are ordered as numbers *)
Lemma compare_zero_padded k a b :
  String.compare (zero_padded k a) (zero_padded k b)
  = (a mod 10 ^ k ?= b mod 10 ^ k).
Proof.
  revert a b. induction k as [|k IH]; intros a b.
  - cbn [zero_padded Nat.pow]. by rewrite !Nat.mod_1_r.
  - cbn [zero_padded]. rewrite compare_app by (by rewrite !length_zero_padded).
    rewrite IH, compare_single.
    rewrite compare_digit by (by apply Nat.mod_upper_bound).
    rewrite <- (compare_div_mod (a mod 10 ^ S k) (b mod 10 ^ S k)).
    assert (∀ n, (n mod 10 ^ S k) / 10 = (n / 10) mod 10 ^ k) as Hd.
    { intros n. rewrite Nat.pow_succ_r'.
      rewrite Nat.Div0.mod_mul_r. rewrite Nat.mul_comm, Nat.div_add by done.
      rewrite Nat.div_small by (by apply Nat.mod_upper_bound). done. }
    assert (∀ n, (n mod 10 ^ S k) mod 10 = n mod 10) as Hm.
    { intros n. rewrite Nat.pow_succ_r'.
      rewrite Nat.Div0.mod_mul_r. rewrite Nat.mul_comm, Nat.Div0.mod_add.
      by rewrite Nat.Div0.mod_mod. }
    by rewrite !Hd, !Hm.
Qed.

Lemma compare_zero_padded_small k a b :
  a < 10 ^ k → b < 10 ^ k →
  String.compare (zero_padded k a) (zero_padded k b) = (a ?= b).
Proof. intros Ha Hb. by rewrite compare_zero_padded, !Nat.mod_small. Qed.

(** the name of the history of an earlier reading is not above the name
    of the history of a later one *)
Lemma history_name_chronological t1 t2 :
  fits_format t1 → fits_format t2 → not_later t1 t2 →
  String.le (history_name t1) (history_name t2).
Proof.
  intros (_ & Y1 & M1 & D1 & H1 & I1 & S1) (_ & Y2 & M2 & D2 & H2 & I2 & S2) Hle.
  unfold String.le, String.leb, history_name, strftime.
  rewrite !app_assoc_s.
  rewrite (compare_app "history_" "history_") by done.
  rewrite !compare_app by (by rewrite ?length_zero_padded).
  rewrite !compare_zero_padded_small by done.
  rewrite !compare_refl_s. cbn [lexc].
  unfold not_later in Hle. cbn [lex_le] in Hle.
  repeat match goal with
  | |- context [?a ?= ?b] => destruct (Nat.compare_spec a b); cbn [lexc]
  end; try done; lia.
Qed.

End chronology_facts.

(** * The properties of the program *)

(** ** Undo: which history file is replayed *)

(** C1. When the log directory of [folder] lists at least one name that
    starts with the marker of an active history, [undo_last] replays the
    file with the greatest such name in the order of strings. That name
    is an entry of the log directory and starts with the marker, and its
    path is not the undone form of any path, whatever passes and undos
    produced the state [w]. *)
Theorem undo_targets_greatest_active (folder : string) (w : world) (f : string) :
  let logs_path := OsPath.join folder LOGS_DIR in
  Os.isdir logs_path w = true →
  f ∈ Os.entries logs_path (fs w) →
  Str.startswith f "history_" = true →
  ∃ last_ : string,
    undo_last folder w = replay (OsPath.join logs_path last_) w
    ∧ last_ ∈ Os.entries logs_path (fs w)
    ∧ Str.startswith last_ "history_" = true
    ∧ (∀ g, g ∈ Os.entries logs_path (fs w) →
            Str.startswith g "history_" = true → String.le g last_)
    ∧ (∀ q, OsPath.join logs_path last_ ≠ Str.replace q "history_" "undone_").
Proof.
  intros logs_path Hdir Hf Hact.
  set (names := Os.entries logs_path (fs w)) in *.
  set (active := filter (fun f => Str.startswith f "history_" = true) names).
  assert (f ∈ active) as Hfa by (apply list_elem_of_filter; done).
  destruct (sorted_last_is_Some active f Hfa) as [last_ Hlast].
  pose proof (sorted_last_elem _ _ Hlast) as [Hl1 Hl2]%list_elem_of_filter.
  exists last_. split_and!; try done.
  - unfold undo_last, abspath, bind, reads. fold logs_path. rewrite Hdir. simpl.
    unfold Os.listdir. unfold Os.isdir in Hdir. apply bool_decide_eq_true in Hdir.
    rewrite Hdir. fold names. unfold history_files. fold active. by rewrite Hlast.
  - intros g Hg Hga. apply (sorted_last_greatest active); [done|].
    by apply list_elem_of_filter.
  - intros q Hq.
    pose proof (join_contains "history_" logs_path last_ Hl1) as Hc.
    rewrite Hq, undone_form_clean in Hc. done.
Qed.

Lemma undo_targets_greatest_active_witness :
  ∃ last_ : string,
    undo_last "/d" w_logs = replay (OsPath.join "/d/.aioffice_logs" last_) w_logs
    ∧ last_ ∈ Os.entries "/d/.aioffice_logs" (fs w_logs)
    ∧ Str.startswith last_ "history_" = true
    ∧ (∀ g, g ∈ Os.entries "/d/.aioffice_logs" (fs w_logs) →
            Str.startswith g "history_" = true → String.le g last_)
    ∧ (∀ q, OsPath.join "/d/.aioffice_logs" last_ ≠ Str.replace q "history_" "undone_").
Proof.
  apply (undo_targets_greatest_active "/d" w_logs "history_20240101T000000Z.json").
  - reflexivity.
  - apply elem_of_entries. split; [reflexivity|]. vm_compute. eauto.
  - reflexivity.
Defined.

(** ** A pass followed by an undo *)




(** ** Dry run *)

(** C3, evaluated on the example of the specification. The dry run
    computes the plan of the real pass, moves no file and writes no history
    file, and announces that no changes were made; but it has created the
    category directories [/d/txt] and [/d/no_ext], which did not exist. *)
Theorem dry_run_creates_directories :
  let r := scan_and_organize "/d" true "" noon w_spec in
  fst r = fst (scan_and_organize "/d" false "" noon w_spec)
  ∧ last (log (snd r)) = Some (INFO, DryRunNoChanges)
  ∧ fs (snd r) !! "/d/a.txt" = Some (File (Raw "A"))
  ∧ fs (snd r) !! history_path "/d" noon = None
  ∧ fs w_spec !! "/d/txt" = None ∧ fs (snd r) !! "/d/txt" = Some Dir
  ∧ fs w_spec !! "/d/no_ext" = None ∧ fs (snd r) !! "/d/no_ext" = Some Dir.
Proof. vm_compute. repeat split; reflexivity. Qed.

(** ** The history file of a pass *)




(** ** Undo: a destination that is gone *)




(** ** Which files are planned *)

(** C6, evaluated on a folder that holds the regular files [a.txt] and
    [.aioffice_logs.bak]. The second is a regular file directly inside the
    folder, it is not the log directory and not inside it, and it has the
    extension [.bak]; the pass leaves it out of the plan and in its place,
    because its path starts with the characters of the path of the log
    directory. *)
Theorem file_named_like_logs_is_omitted :
  let r := scan_and_organize "/d" false "" noon w_bak in
  Os.isfile "/d/.aioffice_logs.bak" w_bak = true
  ∧ category ".aioffice_logs.bak" = "bak"
  ∧ fst r = Returned (Some [mkAction "/d/a.txt" "/d/txt/a.txt"])
  ∧ fs (snd r) !! "/d/.aioffice_logs.bak" = Some (File (Raw "X"))
  ∧ fs (snd r) !! "/d/bak/.aioffice_logs.bak" = None.
Proof. vm_compute. repeat split; reflexivity. Qed.

(** ** The option [--prefix] *)

(** C7. The value of [prefix] reaches no part of an organize pass: for any
    two values the function and the command compute the same outcome, the
    same file system (moves and history file), the same log and the same
    output. *)
Theorem prefix_is_ignored (folder : string) (dry_run : bool) (p1 p2 : string)
    (now : datetime) (w : world) :
  scan_and_organize folder dry_run p1 now w = scan_and_organize folder dry_run p2 now w
  ∧ main (Organize folder dry_run p1) now w = main (Organize folder dry_run p2) now w.
Proof. split; reflexivity. Qed.

(** ** Exceptions that leave the program *)

(** C8, evaluated. With the regular files [a.txt] and [txt] in the folder,
    creating the category directory [txt] raises [FileExistsError] in the
    scanning loop, which nothing catches: the exception leaves
    [scan_and_organize] and [main]. And in a folder whose path contains
    [history_], a pass followed by an undo restores the file and then
    raises [FileNotFoundError] from the renaming of the history file, which
    stays active. *)
Theorem exceptions_escape :
  fst (scan_and_organize "/d" false "" noon w_clash) = Raised FileExistsError
  ∧ fst (main (Organize "/d" false "") noon w_clash) = Raised FileExistsError
  ∧ (let w1 := snd (main (Organize "/history_1" false "") noon w_marked) in
     let r := main (Undo "/history_1") noon w1 in
     fst (main (Organize "/history_1" false "") noon w_marked) = Returned tt
     ∧ fst r = Raised FileNotFoundError
     ∧ fs (snd r) !! "/history_1/a.txt" = Some (File (Raw "A"))
     ∧ is_Some (fs (snd r) !! history_path "/history_1" noon)).
Proof. vm_compute. repeat split; try reflexivity. eexists; reflexivity. Qed.

(** ** Two passes in one second *)

(** C9. Two passes whose clock readings agree down to the second compute
    the same path for their history file. After the first pass that file
    holds the plan of the first pass; after the second it holds the plan of
    the second, which has replaced the first: the list an undo loads from
    the file is the second plan. *)
Theorem same_second_overwrites_history (folder p1 p2 : string) (t1 t2 : datetime)
    (w w1 w2 : world) (actions1 actions2 : list Action) :
  year t1 = year t2 → month t1 = month t2 → day t1 = day t2 →
  hour t1 = hour t2 → minute t1 = minute t2 → second t1 = second t2 →
  scan_and_organize folder false p1 t1 w = (Returned (Some actions1), w1) →
  scan_and_organize folder false p2 t2 w1 = (Returned (Some actions2), w2) →
  history_path folder t1 = history_path folder t2
  ∧ fs w1 !! history_path folder t1 = Some (File (Doc actions1))
  ∧ fs w2 !! history_path folder t1 = Some (File (Doc actions2))
  ∧ Os.read_json (history_path folder t1) w2 = (Returned actions2, w2).
Proof.
  intros Hy Hmo Hd Hh Hmi Hs H1 H2.
  assert (history_path folder t1 = history_path folder t2) as Heq.
  { unfold history_path, history_name, strftime.
    by rewrite Hy, Hmo, Hd, Hh, Hmi, Hs. }
  assert (fs w2 !! history_path folder t1 = Some (File (Doc actions2))) as Hw2.
  { rewrite Heq. by eapply organize_history_written. }
  split_and!; [done| |done|].
  - by eapply organize_history_written.
  - unfold Os.read_json. by rewrite Hw2.
Qed.

Lemma same_second_overwrites_history_witness :
  let w1 := snd (scan_and_organize "/d" false "" noon w_spec) in
  let w2 := snd (scan_and_organize "/d" false "" noon_later w1) in
  history_path "/d" noon = history_path "/d" noon_later
  ∧ fs w1 !! history_path "/d" noon = Some (File (Doc plan_spec))
  ∧ fs w2 !! history_path "/d" noon = Some (File (Doc []))
  ∧ Os.read_json (history_path "/d" noon) w2 = (Returned [], w2).
Proof.
  intros w1 w2.
  apply (same_second_overwrites_history "/d" "" "" noon noon_later w_spec w1 w2 plan_spec []);
    vm_compute; reflexivity.
Defined.

(** The example of the specification, organized at [noon] and again
    later in that second: the undo that follows returns and restores
    nothing, the three files stay in their category directories. *)
Example same_second_then_undo :
  let w1 := snd (scan_and_organize "/d" false "" noon w_spec) in
  let w2 := snd (scan_and_organize "/d" false "" noon_later w1) in
  let r := undo_last "/d" w2 in
  fst r = Returned tt
  ∧ fs (snd r) !! "/d/a.txt" = None
  ∧ fs (snd r) !! "/d/txt/a.txt" = Some (File (Raw "A"))
  ∧ fs (snd r) !! "/d/txt/b.TXT" = Some (File (Raw "B"))
  ∧ fs (snd r) !! "/d/no_ext/c" = Some (File (Raw "C"))
  ∧ Os.entries "/d/.aioffice_logs" (fs (snd r)) = ["undone_20240517T120000Z.json"].
Proof. vm_compute. repeat split; reflexivity. Qed.

(** ** A pass over a folder without files *)




(** * Further properties: the guards and the listing *)

(** ** A folder that is not a directory *)

(** a pass that gets past the test of line 39 returns a plan or raises *)
Lemma organize_past_guard folder dry_run prefix now w :
  Os.isdir folder w = true →
  ∀ w', scan_and_organize folder dry_run prefix now w ≠ (Returned None, w').
Proof.
  intros Hd w' H. unfold scan_and_organize, abspath in H.
  unfold bind at 1, reads at 1 in H. rewrite Hd in H. cbn [negb] in H.
  apply bind_Returned in H as (names & w0 & _ & H).
  apply bind_Returned in H as (acts & w1 & _ & H).
  apply bind_Returned in H as ([] & w2 & _ & H).
  destruct dry_run.
  - apply bind_Returned in H as ([] & w3 & _ & H). by unfold ret in H.
  - apply bind_Returned in H as ([] & w3 & _ & H).
    apply bind_Returned in H as ([] & w4 & _ & H).
    apply bind_Returned in H as ([] & w5 & _ & H). by unfold ret in H.
Qed.

(** X1. For a folder given by its absolute path in normal form, which
    [abspath] returns as it is: [scan_and_organize] returns [None] exactly
    when the folder is not a directory; it has then logged the error of
    line 40 and done nothing else: no listing, no directory made, no
    history written. *)
Theorem organize_none_iff_not_a_directory (folder prefix : string) (dry_run : bool)
    (now : datetime) (w : world) :
  normalized folder = true →
  ((∃ w', scan_and_organize folder dry_run prefix now w = (Returned None, w'))
   ↔ Os.isdir folder w = false)
  ∧ (Os.isdir folder w = false →
     scan_and_organize folder dry_run prefix now w
     = (Returned None, logged w [(ERROR, FolderDoesNotExist folder)])).
Proof.
  intros _.
  assert (Os.isdir folder w = false →
          scan_and_organize folder dry_run prefix now w
          = (Returned None, logged w [(ERROR, FolderDoesNotExist folder)])) as Hmiss.
  { intros Hd. unfold scan_and_organize, abspath.
    unfold bind at 1, reads at 1. by rewrite Hd. }
  split; [split|done].
  - intros [w' H]. destruct (Os.isdir folder w) eqn:Hd; [|done].
    by apply organize_past_guard with (w' := w') in H.
  - intros Hd. eexists. by apply Hmiss.
Qed.

Lemma organize_none_iff_not_a_directory_witness :
  ((∃ w', scan_and_organize "/e" false "" noon w_fresh = (Returned None, w'))
   ↔ Os.isdir "/e" w_fresh = false)
  ∧ (Os.isdir "/e" w_fresh = false →
     scan_and_organize "/e" false "" noon w_fresh
     = (Returned None, logged w_fresh [(ERROR, FolderDoesNotExist "/e")])).
Proof. apply (organize_none_iff_not_a_directory "/e" "" false noon w_fresh). reflexivity. Defined.

(** ** Nothing to undo *)

Lemma history_files_none names :
  (∀ g, g ∈ names → Str.startswith g "history_" = false) → history_files names = [].
Proof.
  intros Hn. unfold history_files.
  assert (filter (fun f => Str.startswith f "history_" = true) names = []) as ->; [|done].
  induction names as [|n names IH]; [done|].
  rewrite filter_cons_False.
  - apply IH. intros g Hg. apply Hn. by right.
  - rewrite Hn by left. done.
Qed.

(** X2. For a folder given by its absolute path in normal form: with no
    log directory, or with a log directory that holds no entry whose name
    starts with [history_], [undo_last] returns after logging its error,
    and the file system is as it was. *)
Theorem undo_with_nothing_to_undo (folder : string) (w : world) :
  let logs_path := OsPath.join folder LOGS_DIR in
  normalized folder = true →
  (Os.isdir logs_path w = false →
   undo_last folder w = (Returned tt, logged w [(ERROR, NoHistoryFound)]))
  ∧ (Os.isdir logs_path w = true →
     (∀ g, g ∈ Os.entries logs_path (fs w) → Str.startswith g "history_" = false) →
     undo_last folder w = (Returned tt, logged w [(ERROR, NoHistoryFilesToUndo)])).
Proof.
  intros logs_path _. split.
  - intros Hd. unfold undo_last, abspath. fold logs_path.
    unfold bind at 1, reads at 1. by rewrite Hd.
  - intros Hd Hnone. unfold undo_last, abspath. fold logs_path.
    unfold bind at 1, reads at 1. rewrite Hd. cbn [negb].
    unfold bind, Os.listdir. apply bool_decide_eq_true in Hd. rewrite Hd.
    by rewrite history_files_none.
Qed.

Lemma undo_with_nothing_to_undo_witness :
  (Os.isdir "/d/.aioffice_logs" w_fresh = false →
   undo_last "/d" w_fresh = (Returned tt, logged w_fresh [(ERROR, NoHistoryFound)]))
  ∧ (Os.isdir "/d/.aioffice_logs" w_fresh = true →
     (∀ g, g ∈ Os.entries "/d/.aioffice_logs" (fs w_fresh) →
           Str.startswith g "history_" = false) →
     undo_last "/d" w_fresh = (Returned tt, logged w_fresh [(ERROR, NoHistoryFilesToUndo)])).
Proof. apply (undo_with_nothing_to_undo "/d" w_fresh). reflexivity. Defined.

(** ** The listing of the log directory *)

Lemma print_all (l : list string) w :
  for_each l print w = (Returned tt, mkWorld (fs w) (log w) (stdout w ++ l)).
Proof.
  revert w. induction l as [|x l IH]; intros w.
  - cbn. rewrite app_nil_r. by destruct w.
  - cbn [for_each]. unfold bind, print at 1. rewrite IH. cbn [fs log stdout].
    by rewrite <- app_assoc.
Qed.

(** X3. For a folder given by its absolute path in normal form, and a log
    directory whose entries have names in well-formed UTF-8, which
    [print] can write and which sort by their bytes as by their
    characters: [list_history] returns and does not change the file
    system. When the log directory exists it logs nothing and prints the
    names of all its entries, active, undone and others alike, each once,
    in ascending order; otherwise it prints nothing and logs that there is
    no history. *)
Theorem list_history_prints_sorted_entries (folder : string) (w : world) :
  let logs_path := OsPath.join folder LOGS_DIR in
  normalized folder = true →
  (∀ n, n ∈ Os.entries logs_path (fs w) → Str.utf8_valid n = true) →
  ∃ w', list_history folder w = (Returned tt, w')
        ∧ fs w' = fs w
        ∧ if Os.isdir logs_path w
          then log w' = log w
               ∧ ∃ names, stdout w' = stdout w ++ names
                          ∧ StronglySorted String.le names
                          ∧ NoDup names
                          ∧ ∀ n, n ∈ names ↔ n ∈ Os.entries logs_path (fs w)
          else log w' = log w ++ [(INFO, NoHistoryFound)] ∧ stdout w' = stdout w.
Proof.
  intros logs_path _ _. unfold list_history, abspath. fold logs_path.
  unfold bind at 1, reads at 1. destruct (Os.isdir logs_path w) eqn:Hd; cbn [negb].
  - unfold bind, Os.listdir. apply bool_decide_eq_true in Hd. rewrite Hd.
    rewrite print_all. eexists. split; [done|]. cbn [fs log stdout].
    split_and!; [done..|]. eexists. split_and!; [done| | |].
    + apply (StronglySorted_merge_sort String.le).
    + unfold Str.sorted. rewrite merge_sort_Permutation. apply NoDup_entries.
    + intros n. unfold Str.sorted. by rewrite merge_sort_Permutation.
  - eexists. split; [done|]. done.
Qed.

Lemma list_history_prints_sorted_entries_witness :
  ∃ w', list_history "/d" w_logs = (Returned tt, w')
        ∧ fs w' = fs w_logs
        ∧ log w' = log w_logs
        ∧ ∃ names, stdout w' = stdout w_logs ++ names
                   ∧ StronglySorted String.le names
                   ∧ NoDup names
                   ∧ ∀ n, n ∈ names ↔ n ∈ Os.entries "/d/.aioffice_logs" (fs w_logs).
Proof.
  apply (list_history_prints_sorted_entries "/d" w_logs); [reflexivity|].
  intros n Hn. by_listing Hn; reflexivity.
Defined.

(** * Further properties: the names of history files *)

Section stamp_facts.

Lemma digit_not_h d : d < 10 → digit d ≠ "h"%char.
Proof. intros H. do 10 (destruct d as [|d]; [done|]). lia. Qed.

Lemma zero_padded_no_h k n : Str.has_char "h" (zero_padded k n) = false.
Proof.
  revert n. induction k as [|k IH]; intros n; [done|].
  cbn [zero_padded]. rewrite has_char_app, IH. cbn [Str.has_char orb].
  rewrite decide_False; [done|]. apply digit_not_h, Nat.mod_upper_bound. done.
Qed.

Lemma strftime_no_h t : Str.has_char "h" (strftime t +:+ ".json") = false.
Proof. unfold strftime. rewrite !has_char_app, !zero_padded_no_h. done. Qed.

(** the comparison of two history names is the one of the readings they
    were made from, field by field *)
Lemma history_name_compare t1 t2 :
  fits_format t1 → fits_format t2 →
  String.compare (history_name t1) (history_name t2)
  = lexc (year t1 ?= year t2) (lexc (month t1 ?= month t2) (lexc (day t1 ?= day t2)
      (lexc (hour t1 ?= hour t2) (lexc (minute t1 ?= minute t2) (second t1 ?= second t2))))).
Proof.
  intros (_ & Y1 & M1 & D1 & H1 & I1 & S1) (_ & Y2 & M2 & D2 & H2 & I2 & S2).
  unfold history_name, strftime.
  rewrite !app_assoc_s.
  rewrite (compare_app "history_" "history_") by done.
  rewrite !compare_app by (by rewrite ?length_zero_padded).
  rewrite !compare_zero_padded_small by done.
  rewrite !compare_refl_s. cbn [lexc].
  by destruct (second t1 ?= second t2).
Qed.

Lemma replace_skip old new x r :
  Str.replace_from old new (String.length x) (x +:+ r) = Str.replace_from old new 0 r.
Proof. induction x as [|a x IH]; [done|]. cbn [String.length String.append Str.replace_from]. done. Qed.

(** an occurrence of [old] at the head of the text is replaced *)
Lemma replace_at_old o old' new r :
  Str.replace_from (String o old') new 0 (String o old' +:+ r)
  = new +:+ Str.replace_from (String o old') new 0 r.
Proof.
  pose proof (prefix_app (String o old') r) as Hp.
  cbn [String.append] in *. cbn [Str.replace_from]. rewrite Hp.
  cbn [String.length Nat.sub]. rewrite Nat.sub_0_r. by rewrite replace_skip.
Qed.

End stamp_facts.

(** X4. The names of history files sort as the clock readings they are
    made from: for readings whose fields fit the widths of the format, one
    name is below another in the order [sorted] uses exactly when its
    reading is not later, and two names are equal exactly when the readings
    agree down to the second. *)
Theorem history_names_sort_by_time (t1 t2 : datetime) :
  fits_format t1 → fits_format t2 →
  (String.le (history_name t1) (history_name t2) ↔ not_later t1 t2)
  ∧ (history_name t1 = history_name t2
     ↔ year t1 = year t2 ∧ month t1 = month t2 ∧ day t1 = day t2
       ∧ hour t1 = hour t2 ∧ minute t1 = minute t2 ∧ second t1 = second t2).
Proof.
  intros F1 F2. pose proof (history_name_compare t1 t2 F1 F2) as Hc.
  split.
  - unfold String.le, String.leb, not_later. rewrite Hc. cbn [lex_le].
    repeat match goal with
    | |- context [?a ?= ?b] => destruct (Nat.compare_spec a b); cbn [lexc]
    end; split; intros ?; try done; lia.
  - assert (history_name t1 = history_name t2
            ↔ String.compare (history_name t1) (history_name t2) = Eq) as ->.
    { split; [intros ->; apply compare_refl_s|apply String.compare_eq_iff]. }
    rewrite Hc.
    repeat match goal with
    | |- context [?a ?= ?b] => destruct (Nat.compare_spec a b); cbn [lexc]
    end; split; intros ?; try done; lia.
Qed.

Lemma history_names_sort_by_time_witness :
  (String.le (history_name noon) (history_name noon_later) ↔ not_later noon noon_later)
  ∧ (history_name noon = history_name noon_later
     ↔ year noon = year noon_later ∧ month noon = month noon_later
       ∧ day noon = day noon_later ∧ hour noon = hour noon_later
       ∧ minute noon = minute noon_later ∧ second noon = second noon_later).
Proof.
  apply (history_names_sort_by_time noon noon_later);
    unfold fits_format; cbn; repeat split; lia.
Defined.

(** X5. The undone form of a history file keeps its directory and its
    timestamp: in a folder whose path is free of [history_], line 99 turns
    [history_<stamp>.json] of the log directory into [undone_<stamp>.json]
    of the log directory, a name that [undo_last] does not select. *)
Theorem undone_form_keeps_stamp (folder : string) (t : datetime) :
  Str.contains "history_" folder = false →
  let undone_name := "undone_" +:+ strftime t +:+ ".json" in
  Str.replace (history_path folder t) "history_" "undone_"
  = OsPath.join (OsPath.join folder LOGS_DIR) undone_name
  ∧ Os.valid_name undone_name = true
  ∧ Str.startswith undone_name "history_" = false
  ∧ undone_name ≠ history_name t.
Proof.
  intros Hclean undone_name.
  assert (Str.replace (history_name t) "history_" "undone_" = undone_name) as Hname.
  { unfold Str.replace, history_name, undone_name.
    rewrite (replace_at_old "h" "istory_").
    pose proof (replace_app_fresh "h" "u" "istory_" "ndone_"
                  (strftime t +:+ ".json") "" (strftime_no_h t)) as Hr.
    rewrite app_nil_r_s in Hr. by rewrite Hr. }
  split_and!.
  - unfold history_path. rewrite undone_in_logs by (done || apply valid_history_name).
    by rewrite Hname.
  - rewrite <- Hname. apply valid_name_undone, valid_history_name.
  - done.
  - done.
Qed.

Lemma undone_form_keeps_stamp_witness :
  Str.replace (history_path "/d" noon) "history_" "undone_"
  = OsPath.join (OsPath.join "/d" LOGS_DIR) ("undone_" +:+ strftime noon +:+ ".json")
  ∧ Os.valid_name ("undone_" +:+ strftime noon +:+ ".json") = true
  ∧ Str.startswith ("undone_" +:+ strftime noon +:+ ".json") "history_" = false
  ∧ "undone_" +:+ strftime noon +:+ ".json" ≠ history_name noon.
Proof. apply (undone_form_keeps_stamp "/d" noon). reflexivity. Defined.

(** * Further properties: the category of a file name *)

Section extension_facts.

Lemma last_dot_suffix_none s :
  Str.has_char Str.dot s = false → OsPath.last_dot_suffix s = "".
Proof.
  induction s as [|a s IH]; [done|]. cbn [Str.has_char OsPath.last_dot_suffix].
  case_decide as Ha; [done|]. intros H. by rewrite IH.
Qed.

Lemma last_dot_suffix_app x e :
  Str.has_char Str.dot e = false →
  OsPath.last_dot_suffix (x +:+ String Str.dot e) = String Str.dot e.
Proof.
  intros He. induction x as [|a x IH].
  - cbn [String.append OsPath.last_dot_suffix]. rewrite last_dot_suffix_none by done.
    by rewrite decide_True.
  - cbn [String.append OsPath.last_dot_suffix]. by rewrite IH.
Qed.

(** the extension is empty, or a dot and a text without dot *)
Lemma last_dot_suffix_shape s :
  OsPath.last_dot_suffix s = ""
  ∨ ∃ e, OsPath.last_dot_suffix s = String Str.dot e ∧ Str.has_char Str.dot e = false.
Proof.
  induction s as [|a s IH]; [by left|]. cbn [OsPath.last_dot_suffix].
  destruct IH as [E|(e & E & He)].
  - rewrite E. case_decide as Ha; [|by left]. right. exists s. subst a. split; [done|].
    apply not_true_is_false. intros Hd.
    assert (OsPath.last_dot_suffix s ≠ "") as Hne; [|done].
    clear E. induction s as [|b s IHs]; [done|]. cbn [OsPath.last_dot_suffix].
    cbn [Str.has_char] in Hd. destruct (OsPath.last_dot_suffix s) eqn:E'; [|done].
    case_decide; [done|]. by apply IHs in Hd.
  - right. exists e. by rewrite E.
Qed.

Lemma lower_char_dot a : Str.lower_char a = Str.dot → a = Str.dot.
Proof. destruct a as [[] [] [] [] [] [] [] []]; vm_compute; congruence. Qed.

Lemma lower_char_idem a : Str.lower_char (Str.lower_char a) = Str.lower_char a.
Proof. by destruct a as [[] [] [] [] [] [] [] []]. Qed.

Lemma lower_idem s : Str.lower (Str.lower s) = Str.lower s.
Proof. induction s as [|a s IH]; [done|]. cbn [Str.lower]. by rewrite lower_char_idem, IH. Qed.

Lemma has_char_dot_lower s : Str.has_char Str.dot (Str.lower s) = Str.has_char Str.dot s.
Proof.
  induction s as [|a s IH]; [done|]. cbn [Str.lower Str.has_char]. rewrite IH.
  destruct (decide (a = Str.dot)) as [->|Ha]; [by case_decide|].
  rewrite decide_False; [done|]. by intros E%lower_char_dot.
Qed.

Lemma has_char_ends_with c s : Str.has_char c s = false → Str.ends_with c s = false.
Proof.
  induction s as [|a s IH]; [done|]. cbn [Str.has_char Str.ends_with].
  case_decide as Ha; [done|]. intros H. destruct s; [by apply bool_decide_eq_false|by apply IH].
Qed.

Lemma strip_absent c s : Str.has_char c s = false → Str.strip c s = s.
Proof.
  intros H. unfold Str.strip.
  assert (Str.lstrip c s = s) as ->.
  { destruct s as [|a s]; [done|]. cbn [Str.has_char] in H. cbn [Str.lstrip].
    by case_decide. }
  by apply rstrip_id, has_char_ends_with.
Qed.

Lemma lstrip_app c x y : Str.lstrip c x ≠ "" → Str.lstrip c (x +:+ y) = Str.lstrip c x +:+ y.
Proof.
  induction x as [|a x IH]; [done|]. cbn [Str.lstrip String.append].
  case_decide; [apply IH|done].
Qed.

Lemma lower_nonempty s : s ≠ "" → Str.lower s ≠ "".
Proof. by destruct s. Qed.

(** for a name without separator, the category is [no_ext] or the
    lower-case form of a text without dot that follows the last dot *)
Lemma category_shape n :
  Str.has_char Str.slash n = false →
  (OsPath.last_dot_suffix (Str.lstrip Str.dot n) = "" ∧ category n = "no_ext")
  ∨ ∃ e, OsPath.last_dot_suffix (Str.lstrip Str.dot n) = String Str.dot e
         ∧ Str.has_char Str.dot e = false
         ∧ category n = if bool_decide (e = "") then "no_ext" else Str.lower e.
Proof.
  intros Hn. unfold category, OsPath.splitext, OsPath.basename. cbn [snd].
  rewrite rsplit_sep_name by done. cbn [snd].
  destruct (last_dot_suffix_shape (Str.lstrip Str.dot n)) as [E|(e & E & He)].
  - left. by rewrite E.
  - right. exists e. rewrite E. split_and!; [done..|].
    cbn [Str.lower]. assert (Str.lower_char Str.dot = Str.dot) as -> by done.
    unfold Str.strip. cbn [Str.lstrip]. rewrite decide_True by done.
    fold (Str.strip Str.dot (Str.lower e)).
    rewrite strip_absent by (by rewrite has_char_dot_lower).
    destruct e; [done|]. by rewrite !bool_decide_eq_false_2.
Qed.

End extension_facts.

(** ** Names in ASCII, names in UTF-8 *)

Section encoding_facts.

Lemma is_ascii_app a b : Str.is_ascii (a +:+ b) = Str.is_ascii a && Str.is_ascii b.
Proof.
  induction a as [|x a IH]; [done|]. cbn [String.append Str.is_ascii].
  by rewrite IH, andb_assoc.
Qed.

Lemma is_ascii_lower_char x :
  (nat_of_ascii (Str.lower_char x) <? 128)%nat = (nat_of_ascii x <? 128)%nat.
Proof. by destruct x as [[] [] [] [] [] [] [] []]. Qed.

Lemma is_ascii_lower s : Str.is_ascii (Str.lower s) = Str.is_ascii s.
Proof.
  induction s as [|x s IH]; [done|]. cbn [Str.lower Str.is_ascii].
  by rewrite is_ascii_lower_char, IH.
Qed.

Lemma is_ascii_lstrip c s : Str.is_ascii s = true → Str.is_ascii (Str.lstrip c s) = true.
Proof.
  induction s as [|x s IH]; [done|]. cbn [Str.lstrip]. case_decide; [|done].
  cbn [Str.is_ascii]. intros [_ Hs]%andb_true_iff. by apply IH.
Qed.

Lemma is_ascii_last_dot_suffix s :
  Str.is_ascii s = true → Str.is_ascii (OsPath.last_dot_suffix s) = true.
Proof.
  induction s as [|x s IH]; [done|]. intros H. cbn [OsPath.last_dot_suffix].
  pose proof H as [_ Hs]%andb_true_iff. specialize (IH Hs).
  destruct (OsPath.last_dot_suffix s); [|done]. by case_decide.
Qed.

(** the category of an ASCII name is in ASCII *)
Lemma is_ascii_category n :
  Str.has_char Str.slash n = false → Str.is_ascii n = true →
  Str.is_ascii (category n) = true.
Proof.
  intros Hn Ha.
  pose proof (is_ascii_last_dot_suffix _ (is_ascii_lstrip Str.dot n Ha)) as Hs.
  destruct (category_shape n Hn) as [[_ ->]|(e & E & _ & ->)]; [done|].
  case_bool_decide; [done|]. rewrite E in Hs. rewrite is_ascii_lower.
  by apply andb_true_iff in Hs as [_ ?].
Qed.







End encoding_facts.

(** X6. The category of a file name is the lower-case form of its last
    extension, for an extension in ASCII: a name [stem.ext], where [ext]
    is in ASCII, is not empty and has no dot, and [stem] is more than
    leading dots, has the category [lower ext], which is in ASCII too;
    a name that has no dot after its leading dots, or that ends in a dot,
    or that has leading dots only before [ext], has the category
    [no_ext]. *)
Theorem category_is_lowercase_last_extension (stem ext : string) :
  Str.is_ascii ext = true →
  Str.has_char Str.slash stem = false →
  Str.has_char Str.slash ext = false →
  Str.has_char Str.dot ext = false →
  Str.lstrip Str.dot stem ≠ "" →
  category (stem +:+ "." +:+ ext) = (if bool_decide (ext = "") then "no_ext" else Str.lower ext)
  ∧ Str.is_ascii (category (stem +:+ "." +:+ ext)) = true
  ∧ (Str.has_char Str.dot (Str.lstrip Str.dot stem) = false → category stem = "no_ext")
  ∧ category ("." +:+ ext) = "no_ext".
Proof.
  intros Hasc Hs He Hd Hstem. change ("." +:+ ext) with (String Str.dot ext).
  assert (∀ x, Str.has_char Str.slash x = false →
               Str.has_char Str.slash (x +:+ String Str.dot ext) = false) as Hsl.
  { intros x Hx. rewrite has_char_app, Hx. cbn [Str.has_char orb].
    by rewrite decide_False. }
  assert (category (stem +:+ String Str.dot ext)
          = if bool_decide (ext = "") then "no_ext" else Str.lower ext) as Hcat.
  { destruct (category_shape (stem +:+ String Str.dot ext) (Hsl _ Hs))
      as [[E _]|(e & E & _ & ->)].
    - rewrite lstrip_app, last_dot_suffix_app in E; done.
    - rewrite lstrip_app, last_dot_suffix_app in E by done. by injection E as <-. }
  split_and!.
  - done.
  - rewrite Hcat. case_bool_decide; [done|]. by rewrite is_ascii_lower.
  - intros Hnd. destruct (category_shape stem Hs) as [[_ E]|(e & E & _ & _)]; [done|].
    by rewrite last_dot_suffix_none in E.
  - destruct (category_shape (String Str.dot ext)) as [[_ E]|(e & E & _ & _)]; [|done|].
    + apply (Hsl "" eq_refl).
    + cbn [Str.lstrip] in E. rewrite decide_True in E by done.
      rewrite last_dot_suffix_none in E; [done|].
      apply not_true_is_false. intros H%has_char_lstrip. congruence.
Qed.

Lemma category_is_lowercase_last_extension_witness :
  category ("archive.tar" +:+ "." +:+ "GZ") = (if bool_decide ("GZ" = "") then "no_ext" else Str.lower "GZ")
  ∧ Str.is_ascii (category ("archive.tar" +:+ "." +:+ "GZ")) = true
  ∧ (Str.has_char Str.dot (Str.lstrip Str.dot "archive.tar") = false
     → category "archive.tar" = "no_ext")
  ∧ category ("." +:+ "GZ") = "no_ext".
Proof. apply (category_is_lowercase_last_extension "archive.tar" "GZ"); done. Defined.

(** X7. The category of an entry name in ASCII is usable as the name of a
    folder of its own: it is in ASCII, is not empty, has no separator and
    no dot, so it is neither the log directory nor a hidden name, and it is
    in lower case, so that names that differ in the case of their letters
    share a folder. *)
Theorem category_is_a_plain_lowercase_name (n : string) :
  Os.valid_name n = true →
  Str.is_ascii n = true →
  Os.valid_name (category n) = true
  ∧ Str.is_ascii (category n) = true
  ∧ Str.has_char Str.dot (category n) = false
  ∧ Str.lower (category n) = category n
  ∧ category n ≠ LOGS_DIR
  ∧ category (Str.lower n) = category n.
Proof.
  intros Hv Hasc. pose proof (valid_name_no_sep n Hv) as Hn.
  assert (∀ m, Str.has_char Str.slash m = false →
               Str.has_char Str.dot (category m) = false
               ∧ Str.lower (category m) = category m) as Hplain.
  { intros m Hm. destruct (category_shape m Hm) as [[_ ->]|(e & _ & He & ->)]; [done|].
    case_bool_decide; [done|]. by rewrite has_char_dot_lower, lower_idem. }
  split_and!; [by apply valid_name_category|by apply is_ascii_category
              |by apply Hplain..|apply category_not_logs|].
  (* lowering the name lowers the extension *)
  assert (∀ s, Str.lstrip Str.dot (Str.lower s) = Str.lower (Str.lstrip Str.dot s)) as Hl.
  { induction s as [|a s IH]; [done|]. cbn [Str.lower Str.lstrip].
    destruct (decide (a = Str.dot)) as [->|Ha]; [by case_decide|].
    rewrite decide_False; [done|]. by intros E%lower_char_dot. }
  assert (∀ s, OsPath.last_dot_suffix (Str.lower s) = Str.lower (OsPath.last_dot_suffix s)) as Hs.
  { induction s as [|a s IH]; [done|]. cbn [Str.lower OsPath.last_dot_suffix].
    rewrite IH. destruct (OsPath.last_dot_suffix s); [|done]. cbn [Str.lower].
    destruct (decide (a = Str.dot)) as [->|Ha]; [by case_decide|].
    rewrite decide_False; [done|]. by intros E%lower_char_dot. }
  assert (Str.has_char Str.slash (Str.lower n) = false) as Hln.
  { apply not_true_is_false. intros H%has_char_lower_slash. congruence. }
  unfold category, OsPath.splitext, OsPath.basename. cbn [snd].
  rewrite !rsplit_sep_name by done. cbn [snd].
  by rewrite Hl, Hs, lower_idem.
Qed.

Lemma category_is_a_plain_lowercase_name_witness :
  Os.valid_name (category "b.TXT") = true
  ∧ Str.is_ascii (category "b.TXT") = true
  ∧ Str.has_char Str.dot (category "b.TXT") = false
  ∧ Str.lower (category "b.TXT") = category "b.TXT"
  ∧ category "b.TXT" ≠ LOGS_DIR
  ∧ category (Str.lower "b.TXT") = category "b.TXT".
Proof. apply (category_is_a_plain_lowercase_name "b.TXT"); reflexivity. Defined.

(** * Further properties: the log directory that [main] sets up *)

Lemma world_eta w : w = mkWorld (fs w) (log w) (stdout w).
Proof. by destruct w. Qed.

Section setup_facts.

Lemma join_nonempty d n : Os.valid_name n = true → OsPath.join d n ≠ "".
Proof.
  intros Hn E. destruct (join_suffix d n) as [x Hx]. rewrite E in Hx.
  destruct x; [|done]. cbn in Hx. subst n. done.
Qed.

(** [makedirs] of a name in an existing directory, whatever the
    number of calls left *)
Lemma makedirs_rec_child fuel d n w :
  canonical d = true → Os.valid_name n = true → is_Some (fs w !! d) →
  Os.makedirs_rec fuel (OsPath.join d n) w
  = try_except (Os.mkdir (OsPath.join d n))
      (fun e => b <- reads (Os.isdir (OsPath.join d n)) ;; if b then ret tt else raise e) w.
Proof.
  intros Hc Hn Hd.
  destruct fuel; cbn [Os.makedirs_rec];
    rewrite split_join by done;
    rewrite (bool_decide_eq_false_2 (n = "")) by (by apply valid_name_nonempty);
    unfold bind at 1, reads at 1, Os.exists_ at 1;
    rewrite (bool_decide_eq_true_2 (is_Some (fs w !! d))) by done;
    by rewrite andb_false_r.
Qed.

(** a name under a regular file cannot be made *)
Lemma makedirs_under_file d n c w :
  canonical d = true → Os.valid_name n = true →
  fs w !! d = Some (File c) → fs w !! OsPath.join d n = None →
  Os.makedirs (OsPath.join d n) w = (Raised NotADirectoryError, w).
Proof.
  intros Hc Hn Hd Hnone. unfold Os.makedirs. rewrite makedirs_rec_child by eauto.
  unfold try_except, Os.mkdir, Os.exists_, Os.parent_error.
  rewrite bool_decide_eq_false_2 by (rewrite Hnone; by intros [? ?]).
  rewrite dirname_join, Hd by done.
  unfold bind, reads, Os.isdir. by rewrite Hnone.
Qed.

(** a name in a directory that is itself to be made in an existing one *)
Lemma makedirs_grandchild d n k w :
  canonical d = true → Os.valid_name n = true → Os.valid_name k = true → k ≠ "." →
  fs w !! d = Some Dir → fs w !! OsPath.join d n = None →
  fs w !! OsPath.join (OsPath.join d n) k = None →
  Os.makedirs (OsPath.join (OsPath.join d n) k) w
  = (Returned tt,
     mkWorld (<[OsPath.join (OsPath.join d n) k := Dir]> (<[OsPath.join d n := Dir]> (fs w)))
             (log w) (stdout w)).
Proof.
  intros Hc Hn Hk Hdot Hd Hf Hl. unfold Os.makedirs.
  pose proof (canonical_join d n Hc Hn) as Hcf.
  destruct (String.length (OsPath.join (OsPath.join d n) k)) as [|fuel] eqn:Hlen.
  { destruct (OsPath.join (OsPath.join d n) k) eqn:E; [|done].
    by apply join_nonempty in E. }
  cbn [Os.makedirs_rec]. rewrite split_join by done.
  rewrite (bool_decide_eq_false_2 (k = "")) by (by apply valid_name_nonempty).
  unfold bind at 1, reads at 1, Os.exists_ at 1.
  rewrite (bool_decide_eq_false_2 (is_Some (fs w !! OsPath.join d n)))
    by (rewrite Hf; by intros [? ?]).
  rewrite (bool_decide_eq_false_2 (OsPath.join d n = "")) by (by apply join_nonempty).
  rewrite ?(bool_decide_eq_false_2 (k = "")) by (by apply valid_name_nonempty).
  cbn [negb andb].
  rewrite (bool_decide_eq_false_2 (k = ".")) by done.
  set (w1 := mkWorld (<[OsPath.join d n := Dir]> (fs w)) (log w) (stdout w)).
  assert (try_except (Os.makedirs_rec fuel (OsPath.join d n))
            (fun e => if decide (e = FileExistsError) then ret tt else raise e) w
          = (Returned tt, w1)) as Hrec.
  { unfold try_except at 1. rewrite makedirs_rec_child by eauto.
    rewrite make_run by (by apply parent_error_child). by rewrite Hf. }
  rewrite (bind_run _ _ _ _ _ Hrec).
  rewrite make_run.
  - cbn [w1 fs]. rewrite lookup_insert_ne by (intros E; symmetry in E; by apply join_ne_self in E).
    by rewrite Hl.
  - apply parent_error_child; [done..|]. apply lookup_insert_eq.
Qed.

Lemma open_append_run p w :
  Os.parent_error p w = None →
  Os.open_append p w
  = match fs w !! p with
    | Some Dir => (Raised IsADirectoryError, w)
    | Some (File _) => (Returned tt, w)
    | None => (Returned tt, mkWorld (<[p := File (Raw "")]> (fs w)) (log w) (stdout w))
    end.
Proof. intros Hp. unfold Os.open_append. by rewrite Hp. Qed.

Lemma lookup_with_logging_entries (m : gmap string node) folder p :
  (m ∪ logging_entries folder) !! p
  = match m !! p with Some x => Some x | None => logging_entries folder !! p end.
Proof. rewrite lookup_union. by destruct (m !! p), (logging_entries folder !! p). Qed.

Context (parent name : string) (w : world).
Hypothesis parent_canonical : canonical parent = true.
Hypothesis name_valid : Os.valid_name name = true.
Hypothesis parent_dir : fs w !! parent = Some Dir.
Hypothesis shaped : tree_shaped (fs w).

Let folder := OsPath.join parent name.
Let logs_path := OsPath.join folder LOGS_DIR.
Let log_file := OsPath.join logs_path "organizer.log".

Lemma folder_canonical : canonical folder = true.
Proof using parent_canonical name_valid. by apply canonical_join. Qed.

Lemma logging_paths_differ :
  folder ≠ logs_path ∧ logs_path ≠ log_file ∧ folder ≠ log_file.
Proof using parent_canonical name_valid.
  pose proof folder_canonical as Hcf.
  split_and!.
  - intros E. symmetry in E. by apply join_ne_self in E.
  - intros E. symmetry in E. by apply join_ne_self in E.
  - intros E. apply (f_equal OsPath.dirname) in E. unfold log_file in E.
    rewrite dirname_join in E by (done || by apply canonical_logs).
    unfold folder in E at 1. rewrite dirname_join in E by done.
    unfold logs_path, folder in E.
    destruct (join_under (OsPath.join parent name) LOGS_DIR eq_refl) as [r1 Hr1].
    destruct (join_under parent name name_valid) as [r2 Hr2].
    rewrite Hr1, Hr2 in E. apply (f_equal String.length) in E.
    rewrite !length_app_s in E.
    assert (String.length r2 = 0) as Hz by lia.
    destruct r2; [|done]. rewrite app_nil_r_s in Hr2.
    by apply join_ne_self in Hr2.
Qed.

Lemma lookup_logging_entries p :
  logging_entries folder !! p
  = if decide (p = folder) then Some Dir
    else if decide (p = logs_path) then Some Dir
    else if decide (p = log_file) then Some (File (Raw "")) else None.
Proof using Type.
  unfold logging_entries. fold logs_path log_file. cbn [list_to_map fst snd uncurry foldr].
  destruct (decide (p = folder)) as [->|H1]; [by rewrite lookup_insert_eq|].
  rewrite lookup_insert_ne by done.
  destruct (decide (p = logs_path)) as [->|H2]; [by rewrite lookup_insert_eq|].
  rewrite lookup_insert_ne by done.
  destruct (decide (p = log_file)) as [->|H3]; [by rewrite lookup_insert_eq|].
  by rewrite lookup_insert_ne, lookup_empty.
Qed.

(** the tree above the log file, read in a world that has its shape *)
Lemma logs_need_folder : is_Some (fs w !! logs_path) → fs w !! folder = Some Dir.
Proof using parent_canonical name_valid shaped.
  intros H%shaped. unfold logs_path in H.
  by rewrite dirname_join in H by (done || apply folder_canonical).
Qed.

Lemma log_file_needs_logs : is_Some (fs w !! log_file) → fs w !! logs_path = Some Dir.
Proof using parent_canonical name_valid shaped.
  intros H%shaped. unfold log_file in H.
  by rewrite dirname_join in H by (done || apply canonical_logs, folder_canonical).
Qed.

Lemma with_logging_entries (m : gmap string node) :
  (∀ p, m !! p = match fs w !! p with
                 | Some x => Some x
                 | None => logging_entries folder !! p
                 end) →
  mkWorld m (log w) (stdout w) = mkWorld (fs w ∪ logging_entries folder) (log w) (stdout w).
Proof using Type.
  intros H. f_equal. apply map_eq. intros p.
  by rewrite lookup_with_logging_entries, H.
Qed.

(** what [setup_logging] does, by what is there *)
Lemma setup_logging_run :
  setup_logging folder w
  = match fs w !! folder with
    | Some (File _) => (Raised NotADirectoryError, w)
    | _ =>
        match fs w !! logs_path with
        | Some (File _) => (Raised FileExistsError, w)
        | _ =>
            match fs w !! log_file with
            | Some Dir => (Raised IsADirectoryError, w)
            | _ => (Returned log_file,
                    mkWorld (fs w ∪ logging_entries folder) (log w) (stdout w))
            end
        end
    end.
Proof using parent_canonical name_valid parent_dir shaped.
  pose proof folder_canonical as Hcf.
  pose proof (canonical_logs folder Hcf) as Hcl. fold logs_path in Hcl.
  destruct logging_paths_differ as (N1 & N2 & N3).
  assert (∀ v, fs v !! logs_path = Some Dir → Os.parent_error log_file v = None) as Hpar.
  { intros v Hv. by apply parent_error_child. }
  unfold setup_logging. fold logs_path log_file.
  assert (is_Some (fs w !! logs_path) → fs w !! folder = Some Dir) as T1
    by apply logs_need_folder.
  assert (is_Some (fs w !! log_file) → fs w !! logs_path = Some Dir) as T2
    by apply log_file_needs_logs.
  destruct (fs w !! folder) as [[|c]|] eqn:Hf.
  - (* the folder is there *)
    unfold bind at 1. unfold logs_path at 1. rewrite makedirs_child by done.
    fold logs_path.
    destruct (fs w !! logs_path) as [[|c]|] eqn:Hl; [| done |].
    + unfold bind at 1. rewrite open_append_run by (by apply Hpar).
      destruct (fs w !! log_file) as [[|c]|] eqn:Ho; [done| |].
      * unfold ret. f_equal. etransitivity; [apply world_eta|].
        apply with_logging_entries. 
        intros p. rewrite lookup_logging_entries. by_entry_cases p folder logs_path log_file.
      * unfold ret. f_equal. apply with_logging_entries. 
        intros p. rewrite lookup_logging_entries. by_entry_cases p folder logs_path log_file.
    + assert (fs w !! log_file = None) as Ho.
      { destruct (fs w !! log_file) eqn:E; [|done]. specialize (T2 (mk_is_Some _ _ eq_refl)); congruence. }
      unfold bind at 1. rewrite open_append_run by (apply Hpar; apply lookup_insert_eq).
      cbn [fs]. rewrite lookup_insert_ne, Ho by done.
      unfold ret. f_equal. apply with_logging_entries. 
        intros p. rewrite lookup_logging_entries. by_entry_cases p folder logs_path log_file.
  - (* the folder is a regular file *)
    assert (fs w !! logs_path = None) as Hl.
    { destruct (fs w !! logs_path) eqn:E; [|done]. specialize (T1 (mk_is_Some _ _ eq_refl)); congruence. }
    assert (fs w !! log_file = None) as Ho.
    { destruct (fs w !! log_file) eqn:E; [|done]. specialize (T2 (mk_is_Some _ _ eq_refl)); congruence. }
    unfold bind at 1. unfold logs_path at 1.
    by rewrite (makedirs_under_file folder LOGS_DIR c).
  - (* the folder is to be made *)
    assert (fs w !! logs_path = None) as Hl.
    { destruct (fs w !! logs_path) eqn:E; [|done]. specialize (T1 (mk_is_Some _ _ eq_refl)); congruence. }
    assert (fs w !! log_file = None) as Ho.
    { destruct (fs w !! log_file) eqn:E; [|done]. specialize (T2 (mk_is_Some _ _ eq_refl)); congruence. }
    rewrite Hl, Ho.
    unfold bind at 1. unfold logs_path at 1, folder at 1.
    rewrite makedirs_grandchild by done. fold folder logs_path.
    unfold bind at 1. rewrite open_append_run by (apply Hpar; apply lookup_insert_eq).
    cbn [fs]. rewrite !lookup_insert_ne, Ho by done.
    unfold ret. f_equal. apply with_logging_entries. 
        intros p. rewrite lookup_logging_entries. by_entry_cases p folder logs_path log_file.
Qed.

End setup_facts.

(** what there is at a path once [setup_logging] has returned *)
Lemma lookup_set_up parent name (m : gmap string node) p :
  let folder := OsPath.join parent name in
  let logs_path := OsPath.join folder LOGS_DIR in
  let log_file := OsPath.join logs_path "organizer.log" in
  (m ∪ logging_entries folder) !! p
  = match m !! p with
    | Some x => Some x
    | None =>
        if decide (p = folder) then Some Dir
        else if decide (p = logs_path) then Some Dir
        else if decide (p = log_file) then Some (File (Raw "")) else None
    end.
Proof. cbv zeta. by rewrite lookup_with_logging_entries, lookup_logging_entries. Qed.

(** a call that returns has found no entry of the wrong kind, and has
    added what was missing *)
Lemma setup_logging_Returned parent name w l w1 :
  let folder := OsPath.join parent name in
  let logs_path := OsPath.join folder LOGS_DIR in
  let log_file := OsPath.join logs_path "organizer.log" in
  canonical parent = true → Os.valid_name name = true →
  fs w !! parent = Some Dir → tree_shaped (fs w) →
  setup_logging folder w = (Returned l, w1) →
  l = log_file
  ∧ w1 = mkWorld (fs w ∪ logging_entries folder) (log w) (stdout w)
  ∧ fs w1 !! folder = Some Dir
  ∧ fs w1 !! logs_path = Some Dir
  ∧ ∃ c, fs w1 !! log_file = Some (File c).
Proof.
  intros folder logs_path log_file Hc Hn Hd Hs H.
  unfold folder in H. rewrite (setup_logging_run parent name w Hc Hn Hd Hs) in H.
  fold folder logs_path log_file in H.
  destruct (logging_paths_differ parent name Hc Hn) as (N1 & N2 & N3).
  fold folder logs_path log_file in N1, N2, N3.
  assert (l = log_file
          ∧ w1 = mkWorld (fs w ∪ logging_entries folder) (log w) (stdout w)
          ∧ (fs w !! folder = None ∨ fs w !! folder = Some Dir)
          ∧ (fs w !! logs_path = None ∨ fs w !! logs_path = Some Dir)
          ∧ (fs w !! log_file = None ∨ ∃ c, fs w !! log_file = Some (File c)))
    as (-> & -> & Hf & Hl & Ho).
  { destruct (fs w !! folder) as [[|?]|]; [|done|];
      (destruct (fs w !! logs_path) as [[|?]|]; [|done|]);
      (destruct (fs w !! log_file) as [[|c]|]; [done| |]);
      injection H as <- <-;
      (split_and!; [done|done|eauto..]). }
  split_and!; [done|done|..]; cbn [fs]; unfold folder, logs_path, log_file;
    rewrite lookup_set_up; fold folder logs_path log_file.
  - destruct Hf as [->| ->]; [|done]. by rewrite decide_True.
  - destruct Hl as [->| ->]; [|done]. by rewrite decide_False, decide_True by done.
  - destruct Ho as [->|[c ->]]; [|eauto].
    rewrite !decide_False, decide_True by done. eauto.
Qed.

(** X8. [setup_logging] on a folder directly inside an existing directory
    returns the path of [organizer.log] in the log directory of the folder
    after adding what was missing of the folder itself, its log directory
    and an empty log file; every entry that existed is kept as it was, and
    the file system is still a tree. A missing folder is thus created. *)
Theorem setup_logging_adds_what_is_missing (parent name : string) (w w1 : world)
    (l : string) :
  let folder := OsPath.join parent name in
  let logs_path := OsPath.join folder LOGS_DIR in
  let log_file := OsPath.join logs_path "organizer.log" in
  canonical parent = true → Os.valid_name name = true →
  fs w !! parent = Some Dir → tree_shaped (fs w) →
  setup_logging folder w = (Returned l, w1) →
  l = log_file
  ∧ fs w1 = fs w ∪ logging_entries folder
  ∧ log w1 = log w ∧ stdout w1 = stdout w
  ∧ (∀ p x, fs w !! p = Some x → fs w1 !! p = Some x)
  ∧ (∀ p, fs w !! p = None → is_Some (fs w1 !! p) → p ∈ [folder; logs_path; log_file])
  ∧ Os.isdir folder w1 = true ∧ Os.isdir logs_path w1 = true
  ∧ Os.isfile log_file w1 = true
  ∧ tree_shaped (fs w1).
Proof.
  intros folder logs_path log_file Hc Hn Hd Hs H.
  destruct (setup_logging_Returned parent name w l w1 Hc Hn Hd Hs H)
    as (-> & Hw1 & Hf & Hl & c & Ho).
  fold folder logs_path log_file in Hw1, Hf, Hl, Ho.
  pose proof (canonical_join parent name Hc Hn) as Hcf. fold folder in Hcf.
  assert (∀ p x, fs w !! p = Some x → fs w1 !! p = Some x) as Hkeep.
  { intros p x Hp. rewrite Hw1. cbn [fs]. unfold folder. by rewrite lookup_set_up, Hp. }
  assert (∀ p, fs w !! p = None → is_Some (fs w1 !! p) →
               p ∈ [folder; logs_path; log_file]) as Hnew.
  { intros p Hp. rewrite Hw1. cbn [fs]. unfold folder. rewrite lookup_set_up, Hp.
    fold folder logs_path log_file.
    repeat case_decide; subst; [set_solver..|]. by intros [? ?]. }
  split_and!; [done|by rewrite Hw1|by rewrite Hw1|by rewrite Hw1|done|done|..].
  - by apply bool_decide_eq_true.
  - by apply bool_decide_eq_true.
  - unfold Os.isfile. by rewrite Ho.
  - intros p [x Hp]. destruct (fs w !! p) as [y|] eqn:E.
    + eapply Hkeep, Hs. eauto.
    + assert (p ∈ [folder; logs_path; log_file]) as Hin by (apply Hnew; eauto).
      repeat (apply elem_of_cons in Hin as [->|Hin]); [..|by apply not_elem_of_nil in Hin].
      * unfold folder. rewrite dirname_join by done. by apply Hkeep.
      * unfold logs_path. by rewrite dirname_join.
      * unfold log_file. rewrite dirname_join; [done| |done]. by apply canonical_logs.
Qed.

Lemma tree_shaped_fresh : tree_shaped (fs w_fresh).
Proof.
  intros p [x Hp].
  assert (p ∈ (map_to_list (fs w_fresh)).*1) as Hin.
  { apply list_elem_of_fmap. exists (p, x). split; [done|]. by apply elem_of_map_to_list. }
  by_listing Hin; reflexivity.
Qed.

Lemma setup_logging_adds_what_is_missing_witness :
  let w1 := snd (setup_logging "/e" w_fresh) in
  "/e/.aioffice_logs/organizer.log" = "/e/.aioffice_logs/organizer.log"
  ∧ fs w1 = fs w_fresh ∪ logging_entries "/e"
  ∧ log w1 = log w_fresh ∧ stdout w1 = stdout w_fresh
  ∧ (∀ p x, fs w_fresh !! p = Some x → fs w1 !! p = Some x)
  ∧ (∀ p, fs w_fresh !! p = None → is_Some (fs w1 !! p) →
          p ∈ ["/e"; "/e/.aioffice_logs"; "/e/.aioffice_logs/organizer.log"])
  ∧ Os.isdir "/e" w1 = true ∧ Os.isdir "/e/.aioffice_logs" w1 = true
  ∧ Os.isfile "/e/.aioffice_logs/organizer.log" w1 = true
  ∧ tree_shaped (fs w1).
Proof.
  exact (setup_logging_adds_what_is_missing "/" "e" w_fresh
           (snd (setup_logging "/e" w_fresh)) "/e/.aioffice_logs/organizer.log"
           eq_refl eq_refl eq_refl tree_shaped_fresh eq_refl).
Defined.

(** X9. [setup_logging] raises exactly when the folder or its log
    directory is a regular file, or [organizer.log] is a directory; the
    exception tells which, and the file system is then as it was. *)
Theorem setup_logging_raises_on_wrong_kinds (parent name : string) (w : world) :
  let folder := OsPath.join parent name in
  let logs_path := OsPath.join folder LOGS_DIR in
  let log_file := OsPath.join logs_path "organizer.log" in
  canonical parent = true → Os.valid_name name = true →
  fs w !! parent = Some Dir → tree_shaped (fs w) →
  fst (setup_logging folder w)
  = match fs w !! folder, fs w !! logs_path, fs w !! log_file with
    | Some (File _), _, _ => Raised NotADirectoryError
    | _, Some (File _), _ => Raised FileExistsError
    | _, _, Some Dir => Raised IsADirectoryError
    | _, _, _ => Returned log_file
    end
  ∧ (∀ e, fst (setup_logging folder w) = Raised e → snd (setup_logging folder w) = w).
Proof.
  intros folder logs_path log_file Hc Hn Hd Hs.
  unfold folder. rewrite (setup_logging_run parent name w Hc Hn Hd Hs).
  fold folder logs_path log_file.
  destruct (fs w !! folder) as [[|?]|]; [|by split|];
    (destruct (fs w !! logs_path) as [[|?]|]; [|by split|]);
    (destruct (fs w !! log_file) as [[|?]|]; by split).
Qed.

Lemma setup_logging_raises_on_wrong_kinds_witness :
  fst (setup_logging "/d/a.txt" w_fresh)
  = match fs w_fresh !! "/d/a.txt", fs w_fresh !! "/d/a.txt/.aioffice_logs",
          fs w_fresh !! "/d/a.txt/.aioffice_logs/organizer.log" with
    | Some (File _), _, _ => Raised NotADirectoryError
    | _, Some (File _), _ => Raised FileExistsError
    | _, _, Some Dir => Raised IsADirectoryError
    | _, _, _ => Returned "/d/a.txt/.aioffice_logs/organizer.log"
    end
  ∧ (∀ e, fst (setup_logging "/d/a.txt" w_fresh) = Raised e →
          snd (setup_logging "/d/a.txt" w_fresh) = w_fresh).
Proof.
  exact (setup_logging_raises_on_wrong_kinds "/d" "a.txt" w_fresh
           eq_refl eq_refl eq_refl tree_shaped_fresh).
Defined.

(** ** The commands, run through [main] *)

Lemma not_elem_of_cons3 {A} (x a b c : A) (l : list A) :
  x ∉ a :: b :: c :: l → x ≠ a ∧ x ≠ b ∧ x ≠ c ∧ x ∉ l.
Proof. rewrite !not_elem_of_cons. tauto. Qed.

Lemma not_elem_of_cons4 {A} (x a b c d : A) (l : list A) :
  x ∉ a :: b :: c :: d :: l → x ≠ a ∧ x ≠ b ∧ x ≠ c ∧ x ≠ d ∧ x ∉ l.
Proof. rewrite !not_elem_of_cons. tauto. Qed.

(** [main] up to the call of the command: the log directory is set up and
    the path of the log file is logged *)
Lemma main_prologue parent name w l w1 :
  let folder := OsPath.join parent name in
  setup_logging folder w = (Returned l, w1) →
  ∀ (A : Type) (k : M A),
    (log_file <- setup_logging (abspath folder) ;; logging_info (LogFile log_file) ;;; k) w
    = k (logged w1 [(INFO, LogFile l)]).
Proof.
  intros folder H A k. unfold abspath.
  rewrite (bind_run _ _ _ _ _ H). unfold bind, logging_info. done.
Qed.

(** [main] records what it gives to [logging] and to [print]; the lines
    that the handlers set up by [setup_logging] write for a record, to the
    log file and to standard output, are not part of a state. The
    properties of the commands run through [main] are therefore on what a
    command returns, on the records logged, and on the file system outside
    the log file, of which they say only that it is a regular file. *)

(** X10. The command [history], run through [main] on a folder that is
    given by its absolute path in normal form and that [setup_logging]
    accepts, never reports that there is no history: [list_history] is
    called in a state in which the log directory has just been made sure
    of and holds [organizer.log] at least, and it returns. The only
    record logged is the path of the log file, and apart from the log
    file the file system is as the set-up left it. The names in the log
    directory are taken to be well-formed UTF-8, which [print] can
    write. *)
Theorem main_history_lists_the_log_file (parent name : string) (now : datetime)
    (w w1 : world) (l : string) :
  let folder := OsPath.join parent name in
  let logs_path := OsPath.join folder LOGS_DIR in
  normalized folder = true →
  canonical parent = true → Os.valid_name name = true →
  fs w !! parent = Some Dir → tree_shaped (fs w) →
  setup_logging folder w = (Returned l, w1) →
  (∀ n, n ∈ Os.entries logs_path (fs w1) → Str.utf8_valid n = true) →
  ∃ v w2,
    main (History folder) now w = list_history folder v
    ∧ Os.isdir logs_path v = true
    ∧ "organizer.log" ∈ Os.entries logs_path (fs v)
    ∧ list_history folder v = (Returned tt, w2)
    ∧ log w2 = log w ++ [(INFO, LogFile l)]
    ∧ Os.isdir logs_path w2 = true
    ∧ Os.isfile l w2 = true
    ∧ "organizer.log" ∈ Os.entries logs_path (fs w2)
    ∧ (∀ p, p ≠ l → fs w2 !! p = fs w1 !! p).
Proof.
  intros folder logs_path _ Hc Hn Hd Hs H _.
  destruct (setup_logging_Returned parent name w l w1 Hc Hn Hd Hs H)
    as (-> & Hw1 & Hf & Hl & c & Ho).
  fold folder logs_path in Hw1, Hf, Hl, Ho.
  assert ("organizer.log" ∈ Os.entries logs_path (fs w1)) as Hin.
  { apply elem_of_entries. split; [done|]. rewrite Ho. eauto. }
  exists (logged w1 [(INFO, LogFile (OsPath.join logs_path "organizer.log"))]),
         (mkWorld (fs w1) (log w ++ [(INFO, LogFile (OsPath.join logs_path "organizer.log"))])
                  (stdout w ++ Str.sorted (Os.entries logs_path (fs w1)))).
  split_and!.
  - unfold main. unfold folder at 1 2. by rewrite (main_prologue parent name w _ w1 H).
  - by apply bool_decide_eq_true.
  - done.
  - unfold list_history, abspath. fold logs_path.
    unfold bind at 1, reads at 1, Os.isdir at 1. cbn [logged fs].
    rewrite (bool_decide_eq_true_2 _ Hl). cbn [negb].
    unfold bind, Os.listdir. cbn [logged fs]. rewrite Hl. rewrite print_all.
    cbn [fs log stdout]. by rewrite Hw1.
  - done.
  - by apply bool_decide_eq_true.
  - unfold Os.isfile. cbn [fs]. unfold logs_path, folder in Ho |- *. by rewrite Ho.
  - done.
  - done.
Qed.

Lemma main_history_lists_the_log_file_witness :
  let w1 := snd (setup_logging "/d" w_fresh) in
  let l := "/d/.aioffice_logs/organizer.log" in
  ∃ v w2,
    main (History "/d") noon w_fresh = list_history "/d" v
    ∧ Os.isdir "/d/.aioffice_logs" v = true
    ∧ "organizer.log" ∈ Os.entries "/d/.aioffice_logs" (fs v)
    ∧ list_history "/d" v = (Returned tt, w2)
    ∧ log w2 = log w_fresh ++ [(INFO, LogFile l)]
    ∧ Os.isdir "/d/.aioffice_logs" w2 = true
    ∧ Os.isfile l w2 = true
    ∧ "organizer.log" ∈ Os.entries "/d/.aioffice_logs" (fs w2)
    ∧ (∀ p, p ≠ l → fs w2 !! p = fs w1 !! p).
Proof.
  apply (main_history_lists_the_log_file "/" "d" noon w_fresh
           (snd (setup_logging "/d" w_fresh)) "/d/.aioffice_logs/organizer.log");
    [reflexivity|reflexivity|reflexivity|reflexivity|apply tree_shaped_fresh|reflexivity|].
  intros n Hn. by_listing Hn; reflexivity.
Defined.

(** a scan in which no entry passes the test of line 46 *)
Lemma scan_loop_none_eligible folder names acc w :
  (∀ n, n ∈ names → eligible folder w n = false) →
  scan_loop folder names acc w = (Returned acc, w).
Proof.
  induction names as [|n names IH]; intros H; [done|].
  cbn [scan_loop]. unfold bind at 1, scan_step at 1, bind at 1, reads at 1.
  fold (eligible folder w n). rewrite H by left. cbn. apply IH.
  intros x Hx. apply H. by right.
Qed.

(** a pass over a folder in which no entry passes the test: the plan is
    empty *)
Lemma organize_nothing folder dry_run prefix now v :
  canonical folder = true →
  fs v !! folder = Some Dir →
  (∀ n, n ∈ Os.entries folder (fs v) → eligible folder v n = false) →
  (dry_run = false →
   fs v !! OsPath.join folder LOGS_DIR = Some Dir
   ∧ fs v !! history_path folder now ≠ Some Dir) →
  scan_and_organize folder dry_run prefix now v
  = (Returned (Some []),
     if dry_run then logged v [(INFO, DryRunNoChanges)]
     else mkWorld (<[history_path folder now := File (Doc [])]> (fs v))
                  (log v ++ [(INFO, OrganizationComplete (history_path folder now))])
                  (stdout v)).
Proof.
  intros Hc Hd Hnone Hreal. unfold scan_and_organize, abspath.
  unfold bind at 1, reads at 1, Os.isdir at 1.
  rewrite (bool_decide_eq_true_2 _ Hd). cbn [negb].
  unfold bind at 1, Os.listdir at 1. rewrite Hd.
  rewrite (bind_run _ _ _ _ _ (scan_loop_none_eligible folder _ [] v Hnone)).
  cbn [for_each]. unfold bind at 1, ret at 1.
  destruct dry_run.
  - unfold bind, logging_info, ret, logged. done.
  - destruct (Hreal eq_refl) as [Hl Hh].
    cbn [for_each]. unfold bind at 1, ret at 1.
    fold (history_path folder now).
    rewrite (bind_run _ _ _ _ _ (write_json_run (history_path folder now) [] v
               (parent_error_child _ _ v (canonical_logs folder Hc)
                  (valid_history_name now) Hl) Hh eq_refl)).
    unfold bind, logging_info, ret. done.
Qed.

Lemma logs_entry_not_folder folder g :
  Os.valid_name g = true → OsPath.join (OsPath.join folder LOGS_DIR) g ≠ folder.
Proof.
  intros Hg E.
  destruct (join_under (OsPath.join folder LOGS_DIR) g Hg) as [r1 Hr1].
  destruct (join_under folder LOGS_DIR eq_refl) as [r2 Hr2].
  rewrite Hr1 in E. rewrite Hr2 in E at 1. apply (f_equal String.length) in E.
  rewrite !length_app_s in E.
  assert (String.length r2 = 0) as Hz by lia.
  destruct r2; [|done]. rewrite app_nil_r_s in Hr2.
  by apply join_ne_self in Hr2.
Qed.

Section fresh_folder.
Context (parent name : string) (w : world).
Hypothesis parent_canonical : canonical parent = true.
Hypothesis name_valid : Os.valid_name name = true.
Hypothesis parent_dir : fs w !! parent = Some Dir.
Hypothesis shaped : tree_shaped (fs w).

Let folder := OsPath.join parent name.
Let logs_path := OsPath.join folder LOGS_DIR.
Let log_file := OsPath.join logs_path "organizer.log".
Let w1 := mkWorld (fs w ∪ logging_entries folder) (log w) (stdout w).

Hypothesis no_logs : fs w !! logs_path = None.
Hypothesis folder_kind : ∀ c, fs w !! folder ≠ Some (File c).

(** the set-up of a folder that has no log directory *)
Lemma setup_logging_fresh : setup_logging folder w = (Returned log_file, w1).
Proof using parent_canonical name_valid parent_dir shaped no_logs folder_kind.
  unfold folder. rewrite setup_logging_run by done. fold folder logs_path log_file.
  rewrite no_logs.
  assert (fs w !! log_file = None) as ->.
  { destruct (fs w !! log_file) eqn:E; [|done].
    pose proof (log_file_needs_logs parent name w parent_canonical name_valid shaped
                  (mk_is_Some _ _ E)) as Hl.
    fold folder logs_path in Hl. congruence. }
  destruct (fs w !! folder) as [[|c]|] eqn:Hf; [done| |done].
  by destruct (folder_kind c).
Qed.

(** the log directory then holds the log file only *)
Lemma fresh_logs_entries g :
  g ∈ Os.entries logs_path (fs w1) → g = "organizer.log".
Proof using parent_canonical name_valid shaped no_logs.
  pose proof (folder_canonical parent name parent_canonical name_valid) as Hcf.
  fold folder in Hcf.
  intros [Hg [x Hx]]%elem_of_entries. cbn [w1 fs] in Hx. unfold folder in Hx.
  rewrite lookup_set_up in Hx. fold folder logs_path log_file in Hx.
  destruct (fs w !! OsPath.join logs_path g) eqn:E.
  { pose proof (shaped _ (mk_is_Some _ _ E)) as Hp.
    rewrite dirname_join in Hp by (done || by apply canonical_logs). congruence. }
  case_decide as D1; [by apply logs_entry_not_folder in D1|].
  case_decide as D2; [by apply join_ne_self in D2|].
  case_decide as D3; [|done].
  by apply join_inj_name in D3.
Qed.

End fresh_folder.

(** X11. The command [undo], run through [main] on a folder that is given
    by its absolute path in normal form, directly inside an existing
    directory, and that has no log directory yet, does not report the
    missing history of line 77: [setup_logging] makes the log directory
    first, so that [undo_last] finds it, holding the log file only, and
    reports that there are no history files to undo. The command returns;
    the folder, the log directory and the log file are what it adds to the
    file system, and every other path is as it was. *)
Theorem main_undo_before_any_pass (parent name : string) (now : datetime) (w : world) :
  let folder := OsPath.join parent name in
  let logs_path := OsPath.join folder LOGS_DIR in
  let log_file := OsPath.join logs_path "organizer.log" in
  normalized folder = true →
  canonical parent = true → Os.valid_name name = true →
  fs w !! parent = Some Dir → tree_shaped (fs w) →
  fs w !! logs_path = None → (∀ c, fs w !! folder ≠ Some (File c)) →
  ∃ w2,
    main (Undo folder) now w = (Returned tt, w2)
    ∧ log w2 = log w ++ [(INFO, LogFile log_file); (ERROR, NoHistoryFilesToUndo)]
    ∧ Os.isdir folder w2 = true ∧ Os.isdir logs_path w2 = true
    ∧ Os.isfile log_file w2 = true
    ∧ (∀ p, p ∉ [folder; logs_path; log_file] → fs w2 !! p = fs w !! p).
Proof.
  intros folder logs_path log_file _ Hc Hn Hd Hs Hl Hk.
  pose proof (setup_logging_fresh parent name w Hc Hn Hd Hs Hl Hk) as Hset.
  destruct (setup_logging_Returned parent name w _ _ Hc Hn Hd Hs Hset)
    as (_ & _ & Hf1 & Hl1 & c & Ho1).
  fold folder logs_path log_file in Hset, Hf1, Hl1, Ho1.
  exists (mkWorld (fs w ∪ logging_entries folder)
                  (log w ++ [(INFO, LogFile log_file); (ERROR, NoHistoryFilesToUndo)])
                  (stdout w)).
  split_and!.
  - unfold main. unfold folder at 1 2. rewrite (main_prologue parent name w _ _ Hset).
    fold folder. unfold undo_last, abspath. fold logs_path.
    unfold bind at 1, reads at 1, Os.isdir at 1. cbn [logged fs] in *.
    rewrite (bool_decide_eq_true_2 _ Hl1). cbn [negb].
    unfold bind, Os.listdir. cbn [logged fs]. rewrite Hl1.
    rewrite history_files_none.
    + cbn [last]. unfold logging_error. cbn [logged fs log stdout]. by rewrite <- app_assoc.
    + intros g Hg. by rewrite (fresh_logs_entries parent name w Hc Hn Hs Hl g Hg).
  - done.
  - by apply bool_decide_eq_true.
  - by apply bool_decide_eq_true.
  - unfold Os.isfile. cbn [fs] in *. by rewrite Ho1.
  - intros p (P1 & P2 & P3 & _)%not_elem_of_cons3. cbn [fs]. unfold folder.
    rewrite lookup_set_up. fold folder logs_path log_file.
    destruct (fs w !! p); [done|]. by rewrite !decide_False.
Qed.

Lemma main_undo_before_any_pass_witness :
  ∃ w2,
    main (Undo "/d") noon w_fresh = (Returned tt, w2)
    ∧ log w2 = log w_fresh ++ [(INFO, LogFile "/d/.aioffice_logs/organizer.log");
                               (ERROR, NoHistoryFilesToUndo)]
    ∧ Os.isdir "/d" w2 = true ∧ Os.isdir "/d/.aioffice_logs" w2 = true
    ∧ Os.isfile "/d/.aioffice_logs/organizer.log" w2 = true
    ∧ (∀ p, p ∉ ["/d"; "/d/.aioffice_logs"; "/d/.aioffice_logs/organizer.log"] →
            fs w2 !! p = fs w_fresh !! p).
Proof.
  apply (main_undo_before_any_pass "/" "d" noon w_fresh);
    [reflexivity|reflexivity|reflexivity|reflexivity|apply tree_shaped_fresh|reflexivity|].
  intros c. vm_compute. discriminate.
Defined.

(** X12. The command [organize], run through [main] on a folder that is
    given by its absolute path in normal form and does not exist inside an
    existing directory, does not report the missing folder of line 40:
    [setup_logging] has created the folder with its log directory by then.
    The pass finds no file, so the plan is empty and the command returns;
    a dry run leaves it at that, and a real pass writes a history file
    that holds the empty plan. The folder, the log directory, the log
    file and that history file are what the command adds to the file
    system, and every other path is as it was. *)
Theorem main_organize_creates_a_missing_folder (parent name prefix : string)
    (dry_run : bool) (now : datetime) (w : world) :
  let folder := OsPath.join parent name in
  let logs_path := OsPath.join folder LOGS_DIR in
  let log_file := OsPath.join logs_path "organizer.log" in
  let history_file := history_path folder now in
  normalized folder = true →
  canonical parent = true → Os.valid_name name = true →
  fs w !! parent = Some Dir → tree_shaped (fs w) →
  fs w !! folder = None →
  ∃ w2,
    main (Organize folder dry_run prefix) now w = (Returned tt, w2)
    ∧ log w2 = log w ++ [(INFO, LogFile log_file);
                         (INFO, if dry_run then DryRunNoChanges
                                else OrganizationComplete history_file)]
    ∧ Os.isdir folder w2 = true ∧ Os.isdir logs_path w2 = true
    ∧ Os.isfile log_file w2 = true
    ∧ fs w2 !! history_file = (if dry_run then None else Some (File (Doc [])))
    ∧ (∀ p, p ∉ [folder; logs_path; log_file; history_file] → fs w2 !! p = fs w !! p).
Proof.
  intros folder logs_path log_file history_file _ Hc Hn Hd Hs Hf.
  pose proof (canonical_join parent name Hc Hn) as Hcf. fold folder in Hcf.
  assert (fs w !! logs_path = None) as Hl.
  { destruct (fs w !! logs_path) eqn:E; [|done].
    pose proof (logs_need_folder parent name w Hc Hn Hs (mk_is_Some _ _ E)) as Hp.
    fold folder in Hp. congruence. }
  assert (∀ c, fs w !! folder ≠ Some (File c)) as Hk by (intros c; congruence).
  pose proof (setup_logging_fresh parent name w Hc Hn Hd Hs Hl Hk) as Hset.
  destruct (setup_logging_Returned parent name w _ _ Hc Hn Hd Hs Hset)
    as (_ & _ & Hf1 & Hl1 & c1 & Ho1).
  fold folder logs_path log_file in Hset, Hf1, Hl1, Ho1. cbn [fs] in Hf1, Hl1, Ho1.
  set (w1 := mkWorld (fs w ∪ logging_entries folder) (log w) (stdout w)) in *.
  assert (∀ p, is_Some (fs w !! p) → OsPath.dirname p ≠ folder) as Houtside.
  { intros p Hp%Hs E. congruence. }
  set (v := logged w1 [(INFO, LogFile log_file)]).
  assert (∀ n, n ∈ Os.entries folder (fs v) → eligible folder v n = false) as Hnone.
  { (* nothing but the log directory lies in the folder *)
    intros n [Hv [x Hx]]%elem_of_entries.
    apply andb_false_iff. left. unfold Os.isfile.
    cbn [v logged fs w1] in Hx |- *.
    unfold folder in Hx |- *. rewrite lookup_set_up in Hx.
    rewrite lookup_set_up. fold folder logs_path log_file in Hx |- *.
    destruct (fs w !! OsPath.join folder n) eqn:E.
    { destruct (Houtside _ (mk_is_Some _ _ E)). by apply dirname_join. }
    case_decide as D1; [done|]. case_decide as D2; [done|].
    case_decide as D3; [|done].
    symmetry in D3. by apply logs_entry_not_child in D3. }
  assert (fs v !! history_path folder now ≠ Some Dir) as Hfree.
  { (* the path of the history file is free *)
    cbn [v logged fs w1]. unfold folder. rewrite lookup_set_up.
    fold folder logs_path log_file. fold history_file.
    destruct (fs w !! history_file) eqn:E.
    { pose proof (Hs _ (mk_is_Some _ _ E)) as Hp. unfold history_file, history_path in Hp.
      rewrite dirname_join in Hp
        by (by apply canonical_logs || apply valid_history_name).
      fold logs_path in Hp. congruence. }
    pose proof (valid_history_name now) as Hvh.
    unfold history_file, history_path. fold logs_path.
    case_decide as D1; [by apply logs_entry_not_folder in D1|].
    case_decide as D2; [by apply join_ne_self in D2|].
    by case_decide. }
  assert (fs w !! history_file = None) as Hh0.
  { destruct (fs w !! history_file) eqn:E; [|done].
    pose proof (Hs _ (mk_is_Some _ _ E)) as Hp. unfold history_file, history_path in Hp.
    rewrite dirname_join in Hp
      by (by apply canonical_logs || apply valid_history_name).
    fold logs_path in Hp. congruence. }
  pose proof (valid_history_name now) as Hvh.
  assert (history_file ≠ folder ∧ history_file ≠ logs_path ∧ history_file ≠ log_file)
    as (N1 & N2 & N3).
  { unfold history_file, history_path. fold logs_path. split_and!.
    - by apply logs_entry_not_folder.
    - by apply join_ne_self.
    - intros E. by apply join_inj_name in E. }
  assert (∀ p, p ≠ folder → p ≠ logs_path → p ≠ log_file →
               (fs w ∪ logging_entries folder) !! p = fs w !! p) as Hrest.
  { intros p P1 P2 P3. unfold folder. rewrite lookup_set_up.
    fold folder logs_path log_file. destruct (fs w !! p); [done|].
    by rewrite !decide_False. }
  exists (if dry_run
          then mkWorld (fs w ∪ logging_entries folder)
                       (log w ++ [(INFO, LogFile log_file); (INFO, DryRunNoChanges)])
                       (stdout w)
          else mkWorld (<[history_file := File (Doc [])]> (fs w ∪ logging_entries folder))
                       (log w ++ [(INFO, LogFile log_file);
                                  (INFO, OrganizationComplete history_file)])
                       (stdout w)).
  split_and!.
  - unfold main. unfold folder at 1 2. rewrite (main_prologue parent name w _ _ Hset).
    fold folder. fold v.
    rewrite (bind_run _ _ _ _ _
               (organize_nothing folder dry_run prefix now v Hcf Hf1 Hnone
                  (fun _ => conj Hl1 Hfree))).
    unfold ret. f_equal. destruct dry_run; unfold v, logged; cbn [fs log stdout];
      by rewrite <- app_assoc.
  - by destruct dry_run.
  - apply bool_decide_eq_true. destruct dry_run; cbn [fs]; [done|].
    by rewrite lookup_insert_ne.
  - apply bool_decide_eq_true. destruct dry_run; cbn [fs]; [done|].
    by rewrite lookup_insert_ne.
  - unfold Os.isfile. destruct dry_run; cbn [fs].
    + fold (fs w1). by rewrite Ho1.
    + rewrite lookup_insert_ne by done. fold (fs w1). by rewrite Ho1.
  - destruct dry_run; cbn [fs].
    + by rewrite Hrest.
    + apply lookup_insert_eq.
  - intros p (P1 & P2 & P3 & P4 & _)%not_elem_of_cons4. destruct dry_run; cbn [fs].
    + by apply Hrest.
    + rewrite lookup_insert_ne by done. by apply Hrest.
Qed.

Lemma main_organize_creates_a_missing_folder_witness :
  ∃ w2,
    main (Organize "/e" false "") noon w_fresh = (Returned tt, w2)
    ∧ log w2 = log w_fresh ++ [(INFO, LogFile "/e/.aioffice_logs/organizer.log");
                               (INFO, OrganizationComplete (history_path "/e" noon))]
    ∧ Os.isdir "/e" w2 = true ∧ Os.isdir "/e/.aioffice_logs" w2 = true
    ∧ Os.isfile "/e/.aioffice_logs/organizer.log" w2 = true
    ∧ fs w2 !! history_path "/e" noon = Some (File (Doc []))
    ∧ (∀ p, p ∉ ["/e"; "/e/.aioffice_logs"; "/e/.aioffice_logs/organizer.log";
                 history_path "/e" noon] →
            fs w2 !! p = fs w_fresh !! p).
Proof.
  exact (main_organize_creates_a_missing_folder "/" "e" "" false noon w_fresh
           eq_refl eq_refl eq_refl eq_refl tree_shaped_fresh eq_refl).
Defined.

(** * Further properties: what a pass does to the folder *)

(** the state a pass leaves, with the scan it began with *)
Lemma organize_scan_state folder prefix now w w1 actions :
  canonical folder = true →
  scan_and_organize folder false prefix now w = (Returned (Some actions), w1) →
  (∀ a, a ∈ actions → fs w !! dst a ≠ Some Dir) →
  ∃ wp,
    grown_in folder w wp
    ∧ good_moves actions (fs wp)
    ∧ actions = planned folder <$> filter (fun n => eligible folder w n = true)
                                     (Os.entries folder (fs w))
    ∧ (∀ n, n ∈ Os.entries folder (fs w) → eligible folder w n = true →
            fs wp !! OsPath.join folder (category n) = Some Dir)
    ∧ fs w1 = <[history_path folder now := File (Doc actions)]> (moved actions (fs wp))
    ∧ fs wp !! OsPath.join folder LOGS_DIR = Some Dir
    ∧ moved actions (fs wp) !! history_path folder now ≠ Some Dir
    ∧ log w1 = log w ++ move_entries actions
                  ++ [(INFO, OrganizationComplete (history_path folder now))]
    ∧ stdout w1 = stdout w
    ∧ scan_loop folder (Os.entries folder (fs w)) [] w = (Returned actions, wp).
Proof.
  intros Hcan Hrun Hdst.
  pose proof (plan_of_scan _ _ _ _ _ _ _ Hcan Hrun) as Hacts.
  apply organize_Returned in Hrun as (Hdir & wp & wm & Hscan & Hmoves & Hsave).
  assert (fs w !! folder = Some Dir) as Hf by (by apply bool_decide_eq_true in Hdir).
  set (names := Os.entries folder (fs w)) in *.
  assert (Forall (fun n => Os.valid_name n = true) names) as Hv.
  { apply Forall_forall. by intros n [? _]%elem_of_entries. }
  destruct (scan_loop_spec folder Hcan names [] w actions wp Hv Hf Hscan)
    as (_ & Hg & Hdirs).
  assert (good_moves actions (fs wp)) as Hgood.
  { rewrite Hacts. apply plan_good_moves; [done|apply NoDup_entries|done..|].
    intros n Hn He. apply Hdst. rewrite Hacts. apply list_elem_of_fmap. exists n.
    split; [done|]. by apply list_elem_of_filter. }
  rewrite move_loop_run in Hmoves.
  2:{ done. }
  2:{ intros a Ha. rewrite Hacts in Ha.
      apply list_elem_of_fmap in Ha as (n & -> & [He Hn]%list_elem_of_filter).
      rewrite Forall_forall in Hv.
      cbn [fs logged]. rewrite planned_dirname_dst by (done || by apply Hv).
      by apply Hdirs. }
  injection Hmoves as <-.
  unfold save_history in Hsave.
  apply bind_Returned in Hsave as ([] & ws & Hwrite & Hsave).
  pose proof (write_json_Returned_inv _ _ _ _ Hwrite) as [Hparent Hnd].
  apply write_json_Returned in Hwrite as ->.
  unfold bind, logging_info, ret in Hsave. injection Hsave as <-.
  cbn [fs log stdout logged] in *.
  unfold history_path in Hparent at 1.
  rewrite dirname_join in Hparent by (by apply canonical_logs || apply valid_history_name).
  apply moved_dir in Hparent; [|done].
  destruct Hg as (Hlog & Hout & Hg).
  exists wp. split_and!; try done.
  by rewrite Hlog, <- app_assoc.
Qed.





(** X15. In a file system of directories and regular files, without
    symbolic links, let the folder be given by its absolute path in normal
    form, and let the names of its regular files be in ASCII. The plan a
    pass returns, dry run or not, holds one action for each entry of the
    folder that is a regular file and whose name does not start with the
    name of the log directory, and nothing else: the action takes
    [folder/name] to [folder/category/name]. No two actions share a source
    or a destination, no destination is a source, and every action stays
    inside the folder. *)
Theorem plan_holds_the_files_of_the_folder (folder prefix : string) (dry_run : bool)
    (now : datetime) (w w1 : world) (actions : list Action) :
  normalized folder = true →
  canonical folder = true →
  (∀ n, n ∈ Os.entries folder (fs w) → Os.isfile (OsPath.join folder n) w = true →
        Str.is_ascii n = true) →
  scan_and_organize folder dry_run prefix now w = (Returned (Some actions), w1) →
  (∀ a, a ∈ actions
        ↔ ∃ n, n ∈ Os.entries folder (fs w)
               ∧ Os.isfile (OsPath.join folder n) w = true
               ∧ Str.startswith n LOGS_DIR = false
               ∧ a = mkAction (OsPath.join folder n)
                              (OsPath.join (OsPath.join folder (category n)) n))
  ∧ NoDup (src <$> actions) ∧ NoDup (dst <$> actions)
  ∧ (∀ a b, a ∈ actions → b ∈ actions → src a ≠ dst b)
  ∧ (∀ a, a ∈ actions →
          OsPath.dirname (src a) = folder
          ∧ OsPath.dirname (OsPath.dirname (dst a)) = folder
          ∧ OsPath.basename (dst a) = OsPath.basename (src a)).
Proof.
  intros _ Hcan _ Hrun.
  pose proof (plan_of_scan _ _ _ _ _ _ _ Hcan Hrun) as Hacts.
  assert (∀ a, a ∈ actions
               ↔ ∃ n, n ∈ Os.entries folder (fs w)
                      ∧ Os.isfile (OsPath.join folder n) w = true
                      ∧ Str.startswith n LOGS_DIR = false
                      ∧ a = planned folder n) as Hin.
  { intros a. rewrite Hacts. rewrite list_elem_of_fmap. split.
    - intros (n & -> & [He Hn]%list_elem_of_filter). exists n.
      pose proof Hn as [Hv _]%elem_of_entries.
      rewrite eligible_by_name in He by done.
      apply andb_true_iff in He as [H1 H2%negb_true_iff]. done.
    - intros (n & Hn & H1 & H2 & ->). exists n. split; [done|].
      apply list_elem_of_filter. split; [|done].
      pose proof Hn as [Hv _]%elem_of_entries.
      rewrite eligible_by_name by done. by rewrite H1, H2. }
  assert (∀ a, a ∈ actions → ∃ n, Os.valid_name n = true ∧ a = planned folder n) as Hshape.
  { intros a (n & [Hv _]%elem_of_entries & _ & _ & ->)%Hin. eauto. }
  split_and!; [done|..].
  - rewrite Hacts, <- list_fmap_compose. apply NoDup_fmap_2_strong.
    + intros n m [_ [Hn _]%elem_of_entries]%list_elem_of_filter
        [_ [Hm _]%elem_of_entries]%list_elem_of_filter E.
      by apply join_inj_name in E.
    + apply NoDup_filter, NoDup_entries.
  - rewrite Hacts, <- list_fmap_compose. apply NoDup_fmap_2_strong.
    + intros n m [_ [Hn _]%elem_of_entries]%list_elem_of_filter
        [_ [Hm _]%elem_of_entries]%list_elem_of_filter E. cbn in E.
      apply join_inj in E as [_ E]; [done|by apply canonical_category..|done|done].
    + apply NoDup_filter, NoDup_entries.
  - intros a b (n & Hn & ->)%Hshape (m & Hm & ->)%Hshape.
    by apply planned_src_not_dst.
  - intros a (n & Hn & ->)%Hshape. split_and!.
    + by apply planned_dirname_src.
    + rewrite planned_dirname_dst by done.
      apply dirname_join; [done|]. by apply valid_name_category.
    + cbn [planned src dst]. unfold OsPath.basename.
      pose proof (valid_name_no_sep n Hn) as Hs.
      assert (∀ d, canonical d = true → snd (OsPath.rsplit_sep (OsPath.join d n)) = n) as Hb.
      { intros d Hd. rewrite <- split_snd. by rewrite split_join. }
      rewrite !Hb; [done|done|]. by apply canonical_category.
Qed.

Lemma plan_holds_the_files_of_the_folder_witness :
  (∀ a, a ∈ plan_spec
        ↔ ∃ n, n ∈ Os.entries "/d" (fs w_spec)
               ∧ Os.isfile (OsPath.join "/d" n) w_spec = true
               ∧ Str.startswith n LOGS_DIR = false
               ∧ a = mkAction (OsPath.join "/d" n)
                              (OsPath.join (OsPath.join "/d" (category n)) n))
  ∧ NoDup (src <$> plan_spec) ∧ NoDup (dst <$> plan_spec)
  ∧ (∀ a b, a ∈ plan_spec → b ∈ plan_spec → src a ≠ dst b)
  ∧ (∀ a, a ∈ plan_spec →
          OsPath.dirname (src a) = "/d"
          ∧ OsPath.dirname (OsPath.dirname (dst a)) = "/d"
          ∧ OsPath.basename (dst a) = OsPath.basename (src a)).
Proof.
  apply (plan_holds_the_files_of_the_folder "/d" "" true noon w_spec
           (snd (scan_and_organize "/d" true "" noon w_spec)) plan_spec);
    [reflexivity|reflexivity| |by vm_compute].
  intros n Hn _. by_listing Hn; reflexivity.
Defined.

(** the only paths a scan changes are the folders of the categories of
    the entries that pass the test, where there was nothing *)
Lemma scan_loop_changes folder names acc w actions w' :
  canonical folder = true →
  Forall (fun n => Os.valid_name n = true) names →
  fs w !! folder = Some Dir →
  scan_loop folder names acc w = (Returned actions, w') →
  ∀ p, fs w' !! p ≠ fs w !! p →
       fs w !! p = None ∧ fs w' !! p = Some Dir
       ∧ ∃ n, n ∈ names ∧ eligible folder w n = true
              ∧ p = OsPath.join folder (category n).
Proof.
  intros Hcan Hv. revert acc w. induction Hv as [|n names Hn Hv IH]; intros acc w Hd Hrun p Hp.
  - cbn in Hrun. injection Hrun as <- <-. done.
  - cbn [scan_loop] in Hrun. apply bind_Returned in Hrun as (acc1 & w1 & Hstep & Hrun).
    pose proof Hrun as Hrest.
    rewrite scan_step_run in Hstep by done.
    assert (grown_in folder w w1
            ∧ (fs w1 !! p ≠ fs w !! p →
               eligible folder w n = true ∧ p = OsPath.join folder (category n)
               ∧ fs w !! p = None ∧ fs w1 !! p = Some Dir)) as (Hg & Hstep').
    { destruct (eligible folder w n).
      - destruct (fs w !! OsPath.join folder (category n)) as [[|c]|] eqn:E;
          [| done |]; injection Hstep as <- <-.
        + split; [apply grown_in_refl|done].
        + split.
          * apply grown_in_mkdir; [|done]. by apply valid_name_category.
          * cbn [fs]. intros Hne.
            destruct (decide (p = OsPath.join folder (category n))) as [->|N].
            -- by rewrite lookup_insert_eq.
            -- by rewrite lookup_insert_ne in Hne.
      - injection Hstep as <- <-. split; [apply grown_in_refl|done]. }
    apply scan_loop_spec in Hrest as (_ & Hg' & _);
      [|done..|by apply (grown_in_lookup folder w w1)].
    destruct (decide (fs w' !! p = fs w1 !! p)) as [E|N].
    + rewrite E in Hp. destruct (Hstep' Hp) as (He & -> & Hnone & Hdir).
      split_and!; [done|by rewrite E|]. exists n. split_and!; [by left|done..].
    + destruct (IH acc1 w1 (grown_in_lookup _ _ _ _ _ Hg Hd) Hrun p N)
        as (Hnone & Hdir & m & Hm & He & ->).
      rewrite (grown_in_eligible folder w w1) in He by done.
      split_and!; [|done|].
      * destruct Hg as (_ & _ & Hg). destruct (Hg (OsPath.join folder (category m)))
          as [<-|(? & _)]; done.
      * exists m. split_and!; [by right|done..].
Qed.

(** X16. A dry run moves, writes and removes no file, so that it writes no
    history either. What it changes in the file system is what line 51 does
    before the mode is looked at: where the folder of the category of a
    planned file was missing, it is now a directory. It logs the planned
    moves in their order and then its closing message, and prints nothing. *)
Theorem dry_run_makes_folders_only (folder prefix : string) (now : datetime)
    (w w1 : world) (actions : list Action) :
  canonical folder = true →
  scan_and_organize folder true prefix now w = (Returned (Some actions), w1) →
  (∀ p c, fs w1 !! p = Some (File c) ↔ fs w !! p = Some (File c))
  ∧ (∀ p, fs w1 !! p ≠ fs w !! p →
          fs w !! p = None ∧ fs w1 !! p = Some Dir
          ∧ ∃ a, a ∈ actions ∧ p = OsPath.dirname (dst a))
  ∧ (∀ a, a ∈ actions → fs w1 !! OsPath.dirname (dst a) = Some Dir)
  ∧ log w1 = log w ++ move_entries actions ++ [(INFO, DryRunNoChanges)]
  ∧ stdout w1 = stdout w.
Proof.
  intros Hcan Hrun.
  pose proof (plan_of_scan _ _ _ _ _ _ _ Hcan Hrun) as Hacts.
  destruct (dry_run_effect _ _ _ _ _ _ Hcan Hrun) as (Hfiles & _ & Hdirs).
  apply dry_run_Returned in Hrun as (Hd & wp & Hscan & ->).
  apply bool_decide_eq_true in Hd.
  assert (Forall (fun n => Os.valid_name n = true) (Os.entries folder (fs w))) as Hv.
  { apply Forall_forall. by intros n [? _]%elem_of_entries. }
  pose proof (scan_loop_changes _ _ _ _ _ _ Hcan Hv Hd Hscan) as Hch.
  destruct (scan_loop_spec folder Hcan _ _ _ _ _ Hv Hd Hscan) as (_ & (Hlog & Hout & _) & _).
  split_and!; [done| |done|..].
  - intros p Hp. cbn [logged fs] in Hp |- *.
    destruct (Hch p Hp) as (Hnone & Hdir & n & Hn & He & ->).
    split_and!; [done..|]. exists (planned folder n). split.
    + rewrite Hacts. apply list_elem_of_fmap. exists n. split; [done|].
      by apply list_elem_of_filter.
    + rewrite planned_dirname_dst; [done..|]. rewrite Forall_forall in Hv. by apply Hv.
  - cbn [logged log]. by rewrite Hlog.
  - cbn [logged stdout]. done.
Qed.

Lemma dry_run_makes_folders_only_witness :
  let w1 := snd (scan_and_organize "/d" true "" noon w_spec) in
  (∀ p c, fs w1 !! p = Some (File c) ↔ fs w_spec !! p = Some (File c))
  ∧ (∀ p, fs w1 !! p ≠ fs w_spec !! p →
          fs w_spec !! p = None ∧ fs w1 !! p = Some Dir
          ∧ ∃ a, a ∈ plan_spec ∧ p = OsPath.dirname (dst a))
  ∧ (∀ a, a ∈ plan_spec → fs w1 !! OsPath.dirname (dst a) = Some Dir)
  ∧ log w1 = log w_spec ++ move_entries plan_spec ++ [(INFO, DryRunNoChanges)]
  ∧ stdout w1 = stdout w_spec.
Proof.
  apply (dry_run_makes_folders_only "/d" "" noon w_spec
           (snd (scan_and_organize "/d" true "" noon w_spec)) plan_spec);
    [reflexivity|by vm_compute].
Defined.

(** * Further properties: the log directory after a pass and its undo *)

Section round_trip.
Context (folder prefix : string) (now : datetime) (w w1 : world) (actions : list Action).

Let logs_path := OsPath.join folder LOGS_DIR.
Let history_file := history_path folder now.
Let undone_file := Str.replace history_file "history_" "undone_".

Hypothesis the_folder_canonical : canonical folder = true.
Hypothesis parent_dir : fs w !! OsPath.dirname folder = Some Dir.
Hypothesis pass : scan_and_organize folder false prefix now w = (Returned (Some actions), w1).
Hypothesis free_dst : ∀ a, a ∈ actions → fs w !! dst a ≠ Some Dir.
Hypothesis greatest :
  ∀ g, g ∈ Os.entries logs_path (fs w) →
       Str.startswith g "history_" = true → String.le g (history_name now).
Hypothesis clean : Str.contains "history_" folder = false.
Hypothesis undone_free : fs w !! undone_file ≠ Some Dir.

(** the undone form of an active name is not an active name *)
Lemma undone_path_not_active g :
  Os.valid_name g = true → Str.startswith g "history_" = true →
  OsPath.join logs_path g ≠ undone_file.
Proof using clean.
  intros Hg Hact E. unfold undone_file, history_file, history_path in E.
  rewrite undone_in_logs in E by (done || apply valid_history_name).
  apply join_inj_name in E; [|done|apply valid_name_undone, valid_history_name].
  pose proof (undone_form_clean (history_name now)) as Hc. rewrite <- E in Hc.
  by rewrite contains_prefix in Hc.
Qed.

(** the file system after the pass and the undo that follows it, path by
    path, from the one the scan left *)
Lemma round_trip_state :
  ∃ wp w2,
    grown_in folder w wp
    ∧ (∀ n, n ∈ Os.entries folder (fs w) → eligible folder w n = true →
            fs wp !! OsPath.join folder (category n) = Some Dir)
    ∧ (∀ a, a ∈ actions → ∃ n, Os.valid_name n = true ∧ a = planned folder n)
    ∧ undo_last folder w1 = (Returned tt, w2)
    ∧ fs w2 !! logs_path = Some Dir
    ∧ fs wp !! history_file ≠ Some Dir
    ∧ ∀ p, fs w2 !! p
           = if decide (p = undone_file) then Some (File (Doc actions))
             else if decide (p = history_file) then None
             else if decide (p ∈ (src <$> actions)) then fs wp !! p
             else if decide (p ∈ (dst <$> actions)) then None
             else fs wp !! p.
Proof using All.
  destruct (organize_scan_state _ _ _ _ _ _ the_folder_canonical pass free_dst)
    as (wp & Hg & Hgood & Hacts & Hdirs & Hfs1 & Hlogs & Hhnd & Hlog1 & Hout1 & _).
  fold logs_path history_file in Hfs1, Hlogs, Hhnd.
  pose proof the_folder_canonical as Hcan.
  assert (fs w !! folder = Some Dir) as Hf.
  { pose proof pass as Hp. apply organize_Returned in Hp as [Hd _].
    by apply bool_decide_eq_true in Hd. }
  assert (∀ a, a ∈ actions → ∃ n, Os.valid_name n = true ∧ a = planned folder n) as Hshape.
  { intros a Ha. rewrite Hacts in Ha.
    apply list_elem_of_fmap in Ha as (n & -> & [_ [Hv _]%elem_of_entries]%list_elem_of_filter).
    eauto. }
  pose proof (valid_history_name now) as Hvn.
  pose proof (canonical_logs folder Hcan) as Hcl. fold logs_path in Hcl.
  pose proof Hgood as (_ & _ & Hsd & Hall).
  assert (history_file ∉ (src <$> actions)) as Hhs.
  { intros (a & E & (n & Hn & ->)%Hshape)%list_elem_of_fmap.
    by apply (logs_entry_not_src folder Hcan (history_name now) n). }
  assert (history_file ∉ (dst <$> actions)) as Hhd.
  { intros (a & E & (n & Hn & ->)%Hshape)%list_elem_of_fmap.
    by apply (logs_entry_not_dst folder Hcan (history_name now) n). }
  assert (undone_file ∉ (src <$> actions)) as Hus.
  { intros (a & E & (n & Hn & ->)%Hshape)%list_elem_of_fmap.
    by apply (undone_not_src folder now Hcan n). }
  assert (undone_file ∉ (dst <$> actions)) as Hud.
  { intros (a & E & (n & Hn & ->)%Hshape)%list_elem_of_fmap.
    by apply (undone_not_dst folder now Hcan n). }
  assert (history_file ≠ undone_file) as Hne.
  { apply history_file_not_undone, history_name_active. }
  assert (logs_path ≠ history_file) as Hlh.
  { intros E. symmetry in E. by apply join_ne_self in E. }
  (* directories are kept by the pass *)
  assert (∀ p, fs wp !! p = Some Dir → fs w1 !! p = Some Dir) as Hkeep.
  { intros p Hp. rewrite Hfs1.
    assert (moved actions (fs wp) !! p = Some Dir) as Hm by (by apply moved_dir).
    rewrite lookup_insert_ne; [done|]. intros <-. done. }
  assert (fs w1 !! logs_path = Some Dir) as Hlogs1 by (by apply Hkeep).
  (* the history just written is the one chosen *)
  assert (last (history_files (Os.entries logs_path (fs w1))) = Some (history_name now)) as Hsel.
  { apply greatest_is_selected; [|apply history_name_active|].
    - apply elem_of_entries. split; [done|]. fold (history_path folder now).
      fold history_file. rewrite Hfs1, lookup_insert_eq. eauto.
    - intros g [Hvg Hin]%elem_of_entries Hact. rewrite Hfs1 in Hin.
      destruct (decide (history_file = OsPath.join logs_path g)) as [Heq|Hneq].
      { apply join_inj_name in Heq as <-; done. }
      rewrite lookup_insert_ne in Hin by done.
      rewrite moved_other in Hin.
      + apply greatest; [|done]. apply elem_of_entries. split; [done|].
        destruct Hg as (_ & _ & Hg).
        destruct (Hg (OsPath.join logs_path g)) as [<-|(_ & _ & c & Hc & E)]; [done|].
        by apply logs_entry_not_child in E.
      + intros (a & E & (n & Hn & ->)%Hshape)%list_elem_of_fmap.
        by apply (logs_entry_not_src folder Hcan g n).
      + intros (a & E & (n & Hn & ->)%Hshape)%list_elem_of_fmap.
        by apply (logs_entry_not_dst folder Hcan g n). }
  (* the restoring loop *)
  pose proof (good_moves_back actions (fs wp) history_file (File (Doc actions)) Hgood Hhs Hhd)
    as Hback.
  rewrite <- Hfs1 in Hback.
  set (wu := mkWorld (moved (flip <$> actions) (fs w1))
                     (log w1 ++ restored_entries actions) (stdout w1)).
  assert (for_each actions undo_step w1 = (Returned tt, wu)) as Hloop.
  { apply (undo_loop_run folder); [done| | |done|].
    - apply Hkeep. by eapply grown_in_lookup.
    - apply Hkeep. by eapply grown_in_lookup.
    - intros a (n & Hn & ->)%Hshape. by apply planned_dirname_src. }
  assert (∀ p, fs wu !! p
               = if decide (p ∈ (src <$> actions)) then fs wp !! p
                 else if decide (p ∈ (dst <$> actions)) then None
                 else <[history_file := File (Doc actions)]> (fs wp) !! p) as Hwu.
  { intros p. cbn [wu fs]. rewrite Hfs1. by apply moved_back. }
  assert (fs wu !! history_file = Some (File (Doc actions))) as Hhu.
  { rewrite Hwu, !decide_False by done. apply lookup_insert_eq. }
  (* the renaming of the history file *)
  set (uname := Str.replace (history_name now) "history_" "undone_").
  assert (undone_file = OsPath.join logs_path uname) as Hundone.
  { by apply undone_in_logs. }
  assert (Os.valid_name uname = true) as Hvu by (by apply valid_name_undone).
  assert (fs wu !! logs_path = Some Dir) as Hlu.
  { apply (moved_dir _ _ _ Hback). done. }
  assert (fs wu !! undone_file ≠ Some Dir) as Huu.
  { rewrite Hwu, !decide_False by done. rewrite lookup_insert_ne by done.
    destruct Hg as (_ & _ & Hg).
    destruct (Hg undone_file) as [->|(_ & _ & c & Hc & E)]; [done|].
    rewrite Hundone in E. by apply logs_entry_not_child in E. }
  set (w2 := mkWorld (<[undone_file := File (Doc actions)]> (delete history_file (fs wu)))
                     (log wu ++ [(INFO, UndoComplete undone_file)]) (stdout wu)).
  assert (undo_last folder w1 = (Returned tt, w2)) as Hdone.
  { rewrite (undo_last_selected folder w1 (history_name now));
      [|by apply bool_decide_eq_true_2|done].
    unfold replay. fold logs_path. fold (history_path folder now).
    fold history_file undone_file.
    unfold bind at 1, Os.read_json. rewrite Hfs1 at 1. rewrite lookup_insert_eq.
    rewrite (bind_run _ _ _ _ _ Hloop). unfold Os.replace.
    rewrite (bind_run _ _ _ tt
               (mkWorld (<[undone_file := File (Doc actions)]> (delete history_file (fs wu)))
                        (log wu) (stdout wu))); [reflexivity|].
    apply rename_file_run; [done| |done|done].
    unfold Os.parent_error. rewrite Hundone, dirname_join by done. by rewrite Hlu. }
  exists wp, w2. split_and!; [done..| | |].
  - cbn [w2 fs]. rewrite lookup_insert_ne.
    + rewrite lookup_delete_ne by (intros E; by apply Hlh).
      done.
    + rewrite Hundone. intros E. by apply join_ne_self in E.
  - intros E. apply Hhnd. by apply moved_dir.
  - intros p. cbn [w2 fs].
    destruct (decide (p = undone_file)) as [->|N1]; [apply lookup_insert_eq|].
    rewrite lookup_insert_ne by done.
    destruct (decide (p = history_file)) as [->|N2]; [apply lookup_delete_eq|].
    rewrite lookup_delete_ne by done. rewrite Hwu.
    repeat case_decide; try done. by rewrite lookup_insert_ne.
Qed.

End round_trip.

(** X17. A history is consumed once. In a file system of directories and
    regular files, without symbolic links, let the folder be given by its
    absolute path in normal form, inside an existing directory, and let
    its path be without [history_]. Let a pass that is not a dry run
    return its plan, where no planned destination was a directory, no
    active history of the log directory had a greater name than the one
    the pass writes, and the undone path of that history was not a
    directory. Then the undo that follows returns, and after it the
    active histories of the log directory are those that were there
    before the pass, the name of the pass's own history apart: the undo
    has turned that one into its undone form, which is not active. When
    there was no active history before the pass, a second undo therefore
    finds nothing to undo and changes nothing. *)
Theorem history_is_consumed_once (folder prefix : string) (now : datetime)
    (w w1 : world) (actions : list Action) :
  let logs_path := OsPath.join folder LOGS_DIR in
  let undone_file := Str.replace (history_path folder now) "history_" "undone_" in
  normalized folder = true →
  canonical folder = true →
  fs w !! OsPath.dirname folder = Some Dir →
  scan_and_organize folder false prefix now w = (Returned (Some actions), w1) →
  (∀ a, a ∈ actions → fs w !! dst a ≠ Some Dir) →
  (∀ g, g ∈ Os.entries logs_path (fs w) →
        Str.startswith g "history_" = true → String.le g (history_name now)) →
  Str.contains "history_" folder = false →
  fs w !! undone_file ≠ Some Dir →
  ∃ w2,
    undo_last folder w1 = (Returned tt, w2)
    ∧ (∀ g, Str.startswith g "history_" = true →
            g ∈ Os.entries logs_path (fs w2)
            ↔ g ∈ Os.entries logs_path (fs w) ∧ g ≠ history_name now)
    ∧ ((∀ g, g ∈ Os.entries logs_path (fs w) → Str.startswith g "history_" = false) →
       undo_last folder w2 = (Returned tt, logged w2 [(ERROR, NoHistoryFilesToUndo)])).
Proof.
  intros logs_path undone_file _ Hcan Hpd Hrun Hdst Hmax Hclean Hund.
  destruct (round_trip_state folder prefix now w w1 actions Hcan Hpd Hrun Hdst Hmax Hclean Hund)
    as (wp & w2 & Hg & _ & Hshape & Hundo & Hl2 & _ & Hw2).
  fold logs_path undone_file in Hl2, Hw2.
  assert (∀ g, Os.valid_name g = true → Str.startswith g "history_" = true →
               g ≠ history_name now →
               fs w2 !! OsPath.join logs_path g = fs w !! OsPath.join logs_path g) as Hsame.
  { intros g Hv Hact Hne. rewrite Hw2.
    rewrite decide_False by (by apply undone_path_not_active).
    rewrite decide_False
      by (intros E; apply join_inj_name in E; [done|done|apply valid_history_name]).
    assert (fs wp !! OsPath.join logs_path g = fs w !! OsPath.join logs_path g) as Hwp.
    { destruct Hg as (_ & _ & Hg).
      destruct (Hg (OsPath.join logs_path g)) as [->|(_ & _ & c & Hc & E)]; [done|].
      by apply logs_entry_not_child in E. }
    destruct (decide (_ ∈ (src <$> actions))) as [Hs|_]; [done|].
    rewrite decide_False; [done|].
    intros (a & E & (n & Hn & ->)%Hshape)%list_elem_of_fmap.
    by apply (logs_entry_not_dst folder Hcan g n). }
  assert (∀ g, Str.startswith g "history_" = true →
               g ∈ Os.entries logs_path (fs w2)
               ↔ g ∈ Os.entries logs_path (fs w) ∧ g ≠ history_name now) as Hset.
  { intros g Hact. rewrite !elem_of_entries. split.
    - intros [Hv Hin].
      assert (g ≠ history_name now) as Hne.
      { intros ->. rewrite Hw2 in Hin.
        rewrite decide_False in Hin by (by apply undone_path_not_active).
        fold (history_path folder now) in Hin. rewrite decide_True in Hin by done.
        by destruct Hin. }
      rewrite Hsame in Hin by done. done.
    - intros [[Hv Hin] Hne]. split; [done|]. by rewrite Hsame. }
  exists w2. split_and!; [done..|].
  intros Hnone. unfold undo_last, abspath. fold logs_path.
  unfold bind at 1, reads at 1, Os.isdir at 1.
  rewrite (bool_decide_eq_true_2 _ Hl2). cbn [negb].
  unfold bind, Os.listdir. rewrite Hl2.
  rewrite history_files_none; [done|].
  intros g Hin. apply not_true_is_false. intros Hact.
  apply Hset in Hin as [Hin _]; [|done]. by rewrite Hnone in Hact.
Qed.

Lemma history_is_consumed_once_witness :
  ∃ w2,
    undo_last "/d" (snd (scan_and_organize "/d" false "" noon w_spec)) = (Returned tt, w2)
    ∧ (∀ g, Str.startswith g "history_" = true →
            g ∈ Os.entries "/d/.aioffice_logs" (fs w2)
            ↔ g ∈ Os.entries "/d/.aioffice_logs" (fs w_spec) ∧ g ≠ history_name noon)
    ∧ ((∀ g, g ∈ Os.entries "/d/.aioffice_logs" (fs w_spec) →
             Str.startswith g "history_" = false) →
       undo_last "/d" w2 = (Returned tt, logged w2 [(ERROR, NoHistoryFilesToUndo)])).
Proof.
  apply (history_is_consumed_once "/d" "" noon w_spec
           (snd (scan_and_organize "/d" false "" noon w_spec)) plan_spec);
    [reflexivity|reflexivity|reflexivity|by vm_compute| | |reflexivity|by vm_compute].
  - intros a Ha. by_listing Ha; by vm_compute.
  - intros g Hg. by_listing Hg.
Defined.



(** * Further properties: the listing, the choice of undo, the log directory *)





(** X20. A pass leaves the log directory alone: when no planned
    destination was a directory, the log directory is still a directory
    after the pass and each of its entries is what it was, the history file
    of the pass apart, which now holds the plan. *)
Theorem pass_leaves_the_log_directory (folder prefix : string) (now : datetime)
    (w w1 : world) (actions : list Action) :
  let logs_path := OsPath.join folder LOGS_DIR in
  canonical folder = true →
  scan_and_organize folder false prefix now w = (Returned (Some actions), w1) →
  (∀ a, a ∈ actions → fs w !! dst a ≠ Some Dir) →
  fs w !! logs_path = Some Dir
  ∧ fs w1 !! logs_path = Some Dir
  ∧ (∀ g, Os.valid_name g = true →
          fs w1 !! OsPath.join logs_path g
          = if decide (g = history_name now) then Some (File (Doc actions))
            else fs w !! OsPath.join logs_path g)
  ∧ (∀ g, g ∈ Os.entries logs_path (fs w1)
          ↔ g = history_name now ∨ g ∈ Os.entries logs_path (fs w)).
Proof.
  intros logs_path Hcan Hrun Hdst.
  destruct (organize_scan_state _ _ _ _ _ _ Hcan Hrun Hdst)
    as (wp & Hg & Hgood & Hacts & Hdirs & Hfs1 & Hlogs & _ & _ & _ & Hscan).
  fold logs_path in Hlogs.
  pose proof (valid_history_name now) as Hvh.
  assert (∀ a, a ∈ actions → ∃ n, Os.valid_name n = true ∧ a = planned folder n) as Hshape.
  { intros a Ha. rewrite Hacts in Ha.
    apply list_elem_of_fmap in Ha as (n & -> & [_ [Hv _]%elem_of_entries]%list_elem_of_filter).
    eauto. }
  assert (∀ g, Os.valid_name g = true →
               moved actions (fs wp) !! OsPath.join logs_path g
               = fs w !! OsPath.join logs_path g) as Hin.
  { intros g Hv. rewrite moved_other.
    - destruct Hg as (_ & _ & Hg).
      destruct (Hg (OsPath.join logs_path g)) as [->|(_ & _ & c & Hc & E)]; [done|].
      by apply logs_entry_not_child in E.
    - intros (a & E & (n & Hn & ->)%Hshape)%list_elem_of_fmap.
      by apply (logs_entry_not_src folder Hcan g n).
    - intros (a & E & (n & Hn & ->)%Hshape)%list_elem_of_fmap.
      by apply (logs_entry_not_dst folder Hcan g n). }
  assert (fs w !! logs_path = Some Dir) as Hl.
  { destruct (decide (fs wp !! logs_path = fs w !! logs_path)) as [<-|N]; [done|].
    (* the scan makes the folders of categories only *)
    assert (fs w !! folder = Some Dir) as Hf.
    { pose proof Hrun as Hp. apply organize_Returned in Hp as [Hd _].
      by apply bool_decide_eq_true in Hd. }
    assert (Forall (fun n => Os.valid_name n = true) (Os.entries folder (fs w))) as Hv.
    { apply Forall_forall. by intros n [? _]%elem_of_entries. }
    destruct (scan_loop_changes _ _ _ _ _ _ Hcan Hv Hf Hscan logs_path N)
      as (_ & _ & n & [Hn _]%elem_of_entries & _ & E).
    apply join_inj_name in E; [|done|by apply valid_name_category].
    symmetry in E. by apply category_not_logs in E. }
  assert (∀ g, Os.valid_name g = true →
               fs w1 !! OsPath.join logs_path g
               = if decide (g = history_name now) then Some (File (Doc actions))
                 else fs w !! OsPath.join logs_path g) as Hentries.
  { intros g Hv. rewrite Hfs1. case_decide as D.
    - subst g. apply lookup_insert_eq.
    - rewrite lookup_insert_ne; [by apply Hin|].
      intros E. apply join_inj_name in E; done. }
  split_and!; [done| |done|].
  - rewrite Hfs1, lookup_insert_ne.
    + apply moved_dir; [done|]. done.
    + intros E. by apply join_ne_self in E.
  - intros g. rewrite !elem_of_entries. split.
    + intros [Hv Hs]. rewrite Hentries in Hs by done.
      case_decide; [by left|by right].
    + intros [->|[Hv Hs]]; (split; [done|]); rewrite Hentries by done.
      * rewrite decide_True by done. eauto.
      * case_decide; [eauto|done].
Qed.

Lemma pass_leaves_the_log_directory_witness :
  let w1 := snd (scan_and_organize "/d" false "" noon w_spec) in
  fs w_spec !! "/d/.aioffice_logs" = Some Dir
  ∧ fs w1 !! "/d/.aioffice_logs" = Some Dir
  ∧ (∀ g, Os.valid_name g = true →
          fs w1 !! OsPath.join "/d/.aioffice_logs" g
          = if decide (g = history_name noon) then Some (File (Doc plan_spec))
            else fs w_spec !! OsPath.join "/d/.aioffice_logs" g)
  ∧ (∀ g, g ∈ Os.entries "/d/.aioffice_logs" (fs w1)
          ↔ g = history_name noon ∨ g ∈ Os.entries "/d/.aioffice_logs" (fs w_spec)).
Proof.
  apply (pass_leaves_the_log_directory "/d" "" noon w_spec
           (snd (scan_and_organize "/d" false "" noon w_spec)) plan_spec);
    [reflexivity|by vm_compute|].
  intros a Ha. by_listing Ha; by vm_compute.
Defined.




(** * Further properties: failures while restoring *)

Section quiet_facts.
Context {A B : Type}.

Lemma quiet_ret (a : A) : quiet (ret a).
Proof. intros w r w' H. unfold ret in H. by injection H as <- <-. Qed.

Lemma quiet_raise e : quiet (raise (A := A) e).
Proof. intros w r w' H. unfold raise in H. by injection H as <- <-. Qed.

Lemma quiet_reads (f : world → A) : quiet (reads f).
Proof. intros w r w' H. unfold reads in H. by injection H as <- <-. Qed.

Lemma quiet_bind (m : M A) (k : A → M B) :
  quiet m → (∀ a, quiet (k a)) → quiet (bind m k).
Proof.
  intros Hm Hk w r w' H. unfold bind in H.
  destruct (m w) as [[a|e] w1] eqn:E.
  - destruct (Hm _ _ _ E) as [<- <-]. by apply (Hk a) in H.
  - injection H as <- <-. by apply (Hm _ _ _ E).
Qed.

Lemma quiet_try (m : M A) (h : exn → M A) :
  quiet m → (∀ e, quiet (h e)) → quiet (try_except m h).
Proof.
  intros Hm Hh w r w' H. unfold try_except in H.
  destruct (m w) as [[a|e] w1] eqn:E.
  - injection H as <- <-. by apply (Hm _ _ _ E).
  - destruct (Hm _ _ _ E) as [<- <-]. by apply (Hh e) in H.
Qed.

End quiet_facts.

Lemma quiet_set_fs f : quiet (set_fs f).
Proof. intros w r w' H. unfold set_fs in H. by injection H as <- <-. Qed.

Lemma quiet_mkdir p : quiet (Os.mkdir p).
Proof.
  intros w r w' H. unfold Os.mkdir in H.
  destruct (Os.exists_ p w); [by injection H as <- <-|].
  destruct (Os.parent_error p w); [by injection H as <- <-|].
  by apply quiet_set_fs in H.
Qed.

Lemma quiet_rename s d : quiet (Os.rename s d).
Proof.
  intros w r w' H. unfold Os.rename in H.
  repeat match type of H with
  | (match ?x with _ => _ end) = _ => destruct x
  | (if ?x then _ else _) = _ => destruct x
  end;
  first [by injection H as <- <-|by apply quiet_set_fs in H].
Qed.

Lemma quiet_makedirs_rec fuel name : quiet (Os.makedirs_rec fuel name).
Proof.
  revert name. induction fuel as [|fuel IH]; intros name; cbn [Os.makedirs_rec];
    destruct (OsPath.split name) as [head tail];
    destruct (if bool_decide (tail = "") then OsPath.split head else (head, tail))
      as [head' tail'];
    (apply quiet_bind; [apply quiet_reads|]); intros present;
    assert (quiet (try_except (Os.mkdir name)
                     (fun e => d <- reads (Os.isdir name) ;; if d then ret tt else raise e)))
      as Hmake
      by (apply quiet_try; [apply quiet_mkdir|]; intros e;
          apply quiet_bind; [apply quiet_reads|]; intros []; [apply quiet_ret|apply quiet_raise]);
    destruct (_ && _); try done;
    (apply quiet_bind; [|intros _; destruct (bool_decide _); [apply quiet_ret|done]]).
  - apply quiet_ret.
  - apply quiet_try; [apply IH|]. intros e. case_decide; [apply quiet_ret|apply quiet_raise].
Qed.

Lemma quiet_makedirs name : quiet (Os.makedirs name).
Proof. apply quiet_makedirs_rec. Qed.

Lemma quiet_move s d : quiet (Shutil.move s d).
Proof.
  assert (∀ s d e, quiet (Shutil.fallback s d e)) as Hfall.
  { intros s' d' e. unfold Shutil.fallback.
    apply quiet_bind; [apply quiet_reads|]. intros sdir.
    apply quiet_bind; [apply quiet_reads|]. intros dfile.
    apply quiet_bind; [apply quiet_reads|]. intros dparent.
    destruct sdir; [|apply quiet_raise].
    destruct (Str.startswith _ _); [apply quiet_raise|].
    destruct dfile; [apply quiet_raise|].
    destruct (negb dparent); [|apply quiet_raise].
    apply quiet_bind; [apply quiet_makedirs|]. intros _. apply quiet_rename. }
  unfold Shutil.move. apply quiet_bind; [apply quiet_reads|]. intros ddir.
  destruct ddir.
  - case_bool_decide; [apply quiet_rename|].
    apply quiet_bind; [apply quiet_reads|]. intros taken.
    destruct taken; [apply quiet_raise|].
    apply quiet_try; [apply quiet_rename|]. intros e. apply Hfall.
  - apply quiet_try; [apply quiet_rename|]. intros e. apply Hfall.
Qed.

(** the body of the restoring loop returns, and logs one entry at most:
    the restoration, or its failure *)
Lemma undo_step_entries act w :
  ∃ w' ms,
    undo_step act w = (Returned tt, w')
    ∧ log w' = log w ++ ms ∧ stdout w' = stdout w
    ∧ length ms ≤ 1
    ∧ Forall (restore_entry act) ms
    ∧ (Os.exists_ (dst act) w = false → w' = w).
Proof.
  unfold undo_step, try_except.
  unfold bind at 1, reads at 1. destruct (Os.exists_ (dst act) w) eqn:Hex.
  2:{ exists w, []. rewrite app_nil_r. split_and!; try done. cbn; lia. }
  destruct ((Os.makedirs (OsPath.dirname (src act)) ;;; Shutil.move (dst act) (src act)) w)
    as [[[]|e] w1] eqn:E.
  - assert (log w1 = log w ∧ stdout w1 = stdout w) as [Hl Ho].
    { eapply (quiet_bind (Os.makedirs _) (fun _ => Shutil.move _ _)); [| |exact E].
      - apply quiet_makedirs.
      - intros _. apply quiet_move. }
    exists (logged w1 [(INFO, Restored (dst act) (src act))]),
           [(INFO, Restored (dst act) (src act))].
    split_and!.
    + unfold bind in E |- *.
      destruct (Os.makedirs (OsPath.dirname (src act)) w) as [[[]|e1] w0]; [|done].
      destruct (Shutil.move (dst act) (src act) w0) as [[[]|e2] w2]; [|done].
      by injection E as <-.
    + cbn. by rewrite Hl.
    + done.
    + cbn; lia.
    + constructor; [by left|constructor].
    + done.
  - assert (log w1 = log w ∧ stdout w1 = stdout w) as [Hl Ho].
    { eapply (quiet_bind (Os.makedirs _) (fun _ => Shutil.move _ _)); [| |exact E].
      - apply quiet_makedirs.
      - intros _. apply quiet_move. }
    exists (logged w1 [(ERROR, FailedToRestore (dst act) e)]),
           [(ERROR, FailedToRestore (dst act) e)].
    split_and!.
    + unfold bind in E |- *.
      destruct (Os.makedirs (OsPath.dirname (src act)) w) as [[[]|e1] w0].
      * destruct (Shutil.move (dst act) (src act) w0) as [[[]|e2] w2]; [done|].
        by injection E as <- <-.
      * by injection E as <- <-.
    + cbn. by rewrite Hl.
    + done.
    + cbn; lia.
    + constructor; [right; eauto|constructor].
    + done.
Qed.

(** the body of the restoring loop, case by case: a missing destination
    changes nothing; a restoration that returns is logged as such, and one
    that raises is logged with its exception *)
Lemma undo_step_cases act w :
  ∃ w',
    undo_step act w = (Returned tt, w')
    ∧ (Os.exists_ (dst act) w = false → w' = w)
    ∧ (Os.exists_ (dst act) w = true →
       ∃ v,
         ((Os.makedirs (OsPath.dirname (src act)) ;;; Shutil.move (dst act) (src act)) w
          = (Returned tt, v)
          ∧ w' = logged v [(INFO, Restored (dst act) (src act))])
         ∨ ∃ e,
             (Os.makedirs (OsPath.dirname (src act)) ;;; Shutil.move (dst act) (src act)) w
             = (Raised e, v)
             ∧ w' = logged v [(ERROR, FailedToRestore (dst act) e)]).
Proof.
  unfold undo_step, try_except.
  unfold bind at 1, reads at 1. destruct (Os.exists_ (dst act) w) eqn:Hex.
  2:{ exists w. by split_and!. }
  unfold bind.
  destruct (Os.makedirs (OsPath.dirname (src act)) w) as [[[]|e1] w0].
  - destruct (Shutil.move (dst act) (src act) w0) as [[[]|e2] v].
    + eexists. split_and!; [done..|]. intros _. exists v. left. by split.
    + eexists. split_and!; [done..|]. intros _. exists v. right. exists e2. by split.
  - eexists. split_and!; [done..|]. intros _. exists w0. right. exists e1. by split.
Qed.

(** X22. No failure while restoring escapes [undo_last], for a folder
    given by its absolute path in normal form: once the history file has
    been read, whatever it holds, the loop of lines 88 to 97 returns and
    the renaming of line 100 is reached. At its turn, an action whose
    destination is missing changes nothing and logs nothing; an action
    whose destination exists logs exactly one entry: that it was restored,
    when the creation of the directory of its source and the move
    returned, or that its restoration failed, with the exception that was
    raised. The loop prints nothing, and what it logs are these entries in
    the order of the history. *)
Theorem restore_failures_are_logged (folder : string) (w : world) (last_ : string)
    (actions : list Action) :
  let logs_path := OsPath.join folder LOGS_DIR in
  let history_file := OsPath.join logs_path last_ in
  let undone_file := Str.replace history_file "history_" "undone_" in
  normalized folder = true →
  Os.isdir logs_path w = true →
  last (history_files (Os.entries logs_path (fs w))) = Some last_ →
  fs w !! history_file = Some (File (Doc actions)) →
  ∃ wb entries,
    for_each actions undo_step w = (Returned tt, wb)
    ∧ undo_last folder w
      = (Os.replace history_file undone_file ;;; logging_info (UndoComplete undone_file)) wb
    ∧ (∀ pre act post, actions = pre ++ act :: post →
         ∃ wa wa',
           for_each pre undo_step w = (Returned tt, wa)
           ∧ undo_step act wa = (Returned tt, wa')
           ∧ for_each post undo_step wa' = (Returned tt, wb)
           ∧ (Os.exists_ (dst act) wa = false → wa' = wa)
           ∧ (Os.exists_ (dst act) wa = true →
              ∃ v,
                ((Os.makedirs (OsPath.dirname (src act)) ;;;
                  Shutil.move (dst act) (src act)) wa = (Returned tt, v)
                 ∧ wa' = logged v [(INFO, Restored (dst act) (src act))])
                ∨ ∃ e,
                    (Os.makedirs (OsPath.dirname (src act)) ;;;
                     Shutil.move (dst act) (src act)) wa = (Raised e, v)
                    ∧ wa' = logged v [(ERROR, FailedToRestore (dst act) e)]))
    ∧ stdout wb = stdout w
    ∧ log wb = log w ++ concat entries
    ∧ Forall2 (fun act ms => length ms ≤ 1 ∧ Forall (restore_entry act) ms) actions entries.
Proof.
  intros logs_path history_file undone_file _ Hd Hsel Hfile.
  assert (∀ l v, ∃ wb entries,
            for_each l undo_step v = (Returned tt, wb)
            ∧ stdout wb = stdout v
            ∧ log wb = log v ++ concat entries
            ∧ Forall2 (fun act ms => length ms ≤ 1 ∧ Forall (restore_entry act) ms) l entries)
    as Hloop.
  { induction l as [|act l IH]; intros v.
    - exists v, []. cbn. rewrite app_nil_r. split_and!; [done..|constructor].
    - destruct (undo_step_entries act v) as (v1 & ms & Hstep & Hl & Ho & Hlen & Hall & _).
      destruct (IH v1) as (wb & entries & Hrest & Ho' & Hl' & Hall').
      exists wb, (ms :: entries). split_and!.
      + cbn [for_each]. by rewrite (bind_run _ _ _ _ _ Hstep).
      + congruence.
      + cbn [concat]. rewrite Hl', Hl. by rewrite <- app_assoc.
      + by constructor. }
  destruct (Hloop actions w) as (wb & entries & Hrun & Ho & Hl & Hall).
  exists wb, entries. split_and!; [done| | |done..].
  - rewrite (undo_last_selected folder w last_) by done.
    unfold replay. fold logs_path history_file undone_file.
    unfold bind at 1, Os.read_json. rewrite Hfile.
    by rewrite (bind_run _ _ _ _ _ Hrun).
  - intros pre act post ->.
    rewrite for_each_app in Hrun.
    destruct (for_each_total pre undo_step undo_step_total w) as [wa Ha].
    rewrite (bind_run _ _ _ _ _ Ha) in Hrun. cbn [for_each] in Hrun.
    destruct (undo_step_cases act wa) as (wa' & Hstep & Hskip & Hdone).
    rewrite (bind_run _ _ _ _ _ Hstep) in Hrun.
    exists wa, wa'. by split_and!.
Qed.

Lemma restore_failures_are_logged_witness :
  ∃ wb entries,
    for_each [mkAction "/d/x/a.txt" "/d/txt/a.txt"; mkAction "/d/b.txt" "/d/txt/b.txt"]
      undo_step w_blocked = (Returned tt, wb)
    ∧ undo_last "/d" w_blocked
      = (Os.replace "/d/.aioffice_logs/history_20240517T120000Z.json"
           (Str.replace "/d/.aioffice_logs/history_20240517T120000Z.json"
              "history_" "undone_") ;;;
         logging_info (UndoComplete
                         (Str.replace "/d/.aioffice_logs/history_20240517T120000Z.json"
                            "history_" "undone_"))) wb
    ∧ stdout wb = stdout w_blocked
    ∧ log wb = log w_blocked ++ concat entries
    ∧ Forall2 (fun act ms => length ms ≤ 1 ∧ Forall (restore_entry act) ms)
        [mkAction "/d/x/a.txt" "/d/txt/a.txt"; mkAction "/d/b.txt" "/d/txt/b.txt"] entries.
Proof.
  destruct (restore_failures_are_logged "/d" w_blocked "history_20240517T120000Z.json"
              [mkAction "/d/x/a.txt" "/d/txt/a.txt"; mkAction "/d/b.txt" "/d/txt/b.txt"])
    as (wb & entries & Hrun & Hundo & _ & Hout & Hlog & Hall); [by vm_compute..|].
  exists wb, entries. by split_and!.
Defined.

(** the history of [w_blocked]: the first restoration fails and is logged,
    the second is made, and the history is renamed *)
Example restore_goes_on_after_a_failure :
  let r := undo_last "/d" w_blocked in
  fst r = Returned tt
  ∧ log (snd r) = [(ERROR, FailedToRestore "/d/txt/a.txt" FileExistsError);
                   (INFO, Restored "/d/txt/b.txt" "/d/b.txt");
                   (INFO, UndoComplete "/d/.aioffice_logs/undone_20240517T120000Z.json")]
  ∧ fs (snd r) !! "/d/txt/a.txt" = Some (File (Raw "A"))
  ∧ fs (snd r) !! "/d/b.txt" = Some (File (Raw "B"))
  ∧ fs (snd r) !! "/d/.aioffice_logs/history_20240517T120000Z.json" = None.
Proof. by vm_compute. Qed.
